(** * Google Ads → BigQuery export scripts: a shallow embedding

    The development follows [src/ga_api_upd/ga_mcc_download_data.py] (the
    manager-account script) and, for the single-account combination step,
    [src/ga_api_upd/ga_client_download_data.py].

    What is outside the repository is modelled from its documented behaviour:
    - pandas: a [DataFrame] is a list of column labels and a list of rows;
      a row is a finite map from labels to cells, and a label that a row does
      not bind reads as NaN.  Column dtypes (and the int64→float64 upcast that
      NaN causes) are not tracked: a cell keeps the Python value it was built
      with.  [pd.merge(how="outer")] orders its rows by key; that order is not
      modelled and no statement below depends on row order of a join.
    - the Google Ads service: an oracle from (customer id, query) to a
      response stream that delivers batches and then either ends or raises.
    - BigQuery: an oracle giving, for the n-th load job of the run, success
      or the exception it raises.
    - the thread pool: each submitted account yields one future; the order in
      which [as_completed] hands them over is a parameter of the run. *)

From stdpp Require Import gmap strings list fin_maps pretty.
From Stdlib Require Import Ascii QArith Permutation.

Close Scope Q_scope.
Open Scope string_scope.
Open Scope list_scope.

(** ** Cells, rows and frames *)

Inductive value :=
| VInt (z : Z)        (* Python int *)
| VFloat (q : Q)      (* Python float, kept as an exact rational *)
| VStr (s : string)   (* Python str *)
| VNaN.               (* missing *)

#[global] Instance Q_eq_dec : EqDecision Q.
Proof. solve_decision. Defined.

#[global] Instance value_eq_dec : EqDecision value.
Proof. solve_decision. Defined.

Abbreviation row := (gmap string value).

Record DataFrame := mkDF { columns : list string; rows : list row }.

(** [pd.DataFrame()] *)
Definition empty_frame : DataFrame := mkDF [] [].

(** [df.empty]: some axis has length zero. *)
Definition df_empty (df : DataFrame) : bool :=
  match columns df, rows df with
  | [], _ | _, [] => true
  | _, _ => false
  end.

(** [col in df.columns] *)
Definition has_column (c : string) (df : DataFrame) : bool :=
  bool_decide (c ∈ columns df).

Definition cell (r : row) (c : string) : value := default VNaN (r !! c).

Definition isna (v : value) : bool :=
  match v with VNaN => true | _ => false end.

(** A Python dict literal, in the order its keys are written. *)
Definition record := list (string * value).

(** Labels of [b] that [a] does not have yet, appended to [a]. *)
Definition union_columns (a b : list string) : list string :=
  a ++ filter (λ c, c ∉ a) b.

(** [pd.DataFrame(list_of_dicts)]: columns are the keys in order of first
    appearance; the empty list gives a frame without columns. *)
Definition frame_of_records (recs : list record) : DataFrame :=
  mkDF (foldl (λ cols rec, union_columns cols rec.*1) [] recs)
       (map (λ rec, list_to_map rec : row) recs).

(** [len(df)] *)
Definition len (df : DataFrame) : nat := length (rows df).

(** [df[c] = scalar] *)
Definition set_column (c : string) (v : value) (df : DataFrame) : DataFrame :=
  mkDF (if has_column c df then columns df else columns df ++ [c])
       (map (λ r : row, <[c := v]> r) (rows df)).

(** One cell of [series.fillna(v)]. *)
Definition fill_cell (c : string) (v : value) (r : row) : row :=
  if isna (cell r c) then <[c := v]> r else r.

(** The join key of a row. *)
Definition key_of (on : list string) (r : row) : list value := map (cell r) on.

Definition same_key (on : list string) (l r : row) : bool :=
  bool_decide (key_of on l = key_of on r).

(** [pd.merge(left, right, on=on, how="outer")] for frames whose only common
    labels are the key columns (pandas would rename other common labels with
    the suffixes _x and _y; the frames merged here have none).  Every left row
    is paired with each right row of the same key; a row without partner on
    the other side is kept, and the other side's columns read NaN there. *)
Definition merge_outer (left right : DataFrame) (on : list string) : DataFrame :=
  mkDF (columns left ++ filter (λ c, c ∉ on) (columns right))
       (flat_map (λ l : row,
                    match filter (λ r, same_key on l r) (rows right) with
                    | [] => [l]
                    | rs => map (λ r : row, l ∪ r) rs
                    end) (rows left)
        ++ filter (λ r : row, forallb (λ l, negb (same_key on l r)) (rows left))
                  (rows right)).

(** [pd.concat([a, b], ignore_index=True)] *)
Definition concat (a b : DataFrame) : DataFrame :=
  mkDF (union_columns (columns a) (columns b)) (rows a ++ rows b).

(** [df[c] = df[c].fillna(v)] for a label [c] of the frame. *)
Definition fillna (c : string) (v : value) (df : DataFrame) : DataFrame :=
  mkDF (columns df) (map (fill_cell c v) (rows df)).

(** ** Exceptions *)

(** One entry of [ex.failure.errors]. *)
Record GoogleAdsError := { error_code_name : string; message : string }.

(** The attributes of a GoogleAdsException that the scripts inspect. *)
Record GoogleAdsFailure := {
  failure_errors : list GoogleAdsError;     (* ex.failure.errors *)
  error_code : option string;               (* ex.error.code().name, when it can be read *)
  request_id : string;                      (* ex.request_id *)
  ads_text : string                         (* str(ex) *)
}.

(** Instances of Python's [Exception] that occur in a run. *)
Inductive exn :=
| GoogleAdsException (ex : GoogleAdsFailure)
| KeyError (msg : string)
| OtherException (msg : string).   (* any other Exception, with its str() *)

(** [str(exc)] *)
Definition exn_text (e : exn) : string :=
  match e with
  | GoogleAdsException ex => ads_text ex
  | KeyError msg => msg
  | OtherException msg => msg
  end.

(** How a computation stops early: an exception is raised, or [sys.exit]
    raises SystemExit, which no [except Exception] clause catches. *)
Inductive abort :=
| Raised (e : exn)
| SystemExit (code : Z).

(** ** BigQuery *)

Inductive disposition := WRITE_TRUNCATE | WRITE_APPEND.

(** One call of [load_table_from_dataframe] followed by [job.result()]:
    [job_error] is [None] when the job completed. *)
Record load_job := {
  job_table : string;
  job_disposition : disposition;
  job_frame : DataFrame;
  job_error : option exn
}.

(** The warehouse, as the script sees it: whether the n-th load attempt of
    the run (counted from 0) completes, or which exception it raises. *)
Definition bigquery := nat → option exn.

(** ** Computations that print, load and may stop early *)

Record world := { stdout : list string; jobs : list load_job }.

Definition M (A : Type) : Type := world → (abort + A) * world.

Definition ret {A} (a : A) : M A := λ w, (inr a, w).
Definition raise {A} (e : exn) : M A := λ w, (inl (Raised e), w).
Definition sys_exit {A} (code : Z) : M A := λ w, (inl (SystemExit code), w).
Definition bind {A B} (m : M A) (k : A → M B) : M B :=
  λ w, match m w with
       | (inl a, w') => (inl a, w')
       | (inr x, w') => k x w'
       end.
Definition print (line : string) : M unit :=
  λ w, (inr tt, {| stdout := stdout w ++ [line]; jobs := jobs w |}).

#[global] Instance M_ret : MRet M := @ret.
#[global] Instance M_bind : MBind M := λ A B k m, bind m k.

(** [try: body  except GoogleAdsException as ex: handler] *)
Definition try_except_ads {A} (body : M A) (handler : GoogleAdsFailure → M A) : M A :=
  λ out, match body out with
         | (inl (Raised (GoogleAdsException ex)), out') => handler ex out'
         | r => r
         end.

(** A [try] block as a sequence of statements over the local variables [S]:
    when a statement raises, the locals are as the statements before it left
    them. *)
Fixpoint block {S} (stmts : list (S → M S)) (s : S) (out : world)
  : option abort * S * world :=
  match stmts with
  | [] => (None, s, out)
  | st :: rest =>
      match st s out with
      | (inl a, out') => (Some a, s, out')
      | (inr s', out') => block rest s' out'
      end
  end.

(** [try: stmts  except GoogleAdsException as ex: handler], after which the
    function goes on with the locals. *)
Definition try_except_ads_locals {S} (stmts : list (S → M S))
    (handler : GoogleAdsFailure → M unit) (s : S) : M S :=
  λ out, match block stmts s out with
         | (None, s', out') => (inr s', out')
         | (Some (Raised (GoogleAdsException ex)), s', out') =>
             match handler ex out' with
             | (inl a, out'') => (inl a, out'')
             | (inr _, out'') => (inr s', out'')
             end
         | (Some a, _, out') => (inl a, out')
         end.

(** [df[c]] raises KeyError for a label that is not a column. *)
Definition getitem (c : string) (df : DataFrame) : M unit :=
  if has_column c df then ret tt else raise (KeyError c).

(** ** The Google Ads service *)

(** The fields of a result row that the scripts read. *)
Record GoogleAdsRow := {
  customer_client_client_customer : string;
  customer_client_descriptive_name : string;
  campaign_id : Z;
  campaign_name : string;
  campaign_status_name : string;
  campaign_budget_amount_micros : Z;
  ad_group_id : Z;
  ad_group_name : string;
  segments_date : string;
  segments_conversion_action_name : string;
  segments_device_name : string;
  metrics_clicks : Z;
  metrics_impressions : Z;
  metrics_cost_micros : Z;
  metrics_conversions : Q;
  geographic_view_country_criterion_id : Z;
  search_term_view_search_term : string
}.

(** What [search_stream] delivers: batches, then the end of the stream or an
    exception. *)
Record stream := { batches : list (list GoogleAdsRow); failure : option exn }.

Inductive query :=
| query_customer_client
| query_budgets
| query_std (start_date_str end_date_str : string)
| query_std_conv (start_date_str end_date_str : string)
| query_general (start_date_str end_date_str : string)      (* PMax, clicks and cost *)
| query_conv (start_date_str end_date_str : string)         (* PMax, conversions *)
| query_geo (start_date_str end_date_str : string)
| query_search (start_date_str end_date_str : string).

(** [ga_service.search_stream(customer_id=..., query=...)] *)
Definition service := string → query → stream.

(** Iterating a whole response into a local list: the list is the result
    when the stream ends, and is lost when the stream raises. *)
Definition results (resp : stream) : M (list GoogleAdsRow) :=
  match failure resp with
  | Some e => raise e
  | None => ret (List.concat (batches resp))
  end.

(** [x / 1000000] *)
Definition div_1000000 (x : Z) : Q := (x # 1000000)%Q.

(** [str(n)] for an int *)
Definition str (z : Z) : string := pretty z.

(** ** Helper of the manager-account script *)

Definition _handle_google_ads_exception (ex : GoogleAdsFailure)
    (customer_id : string) (context : string) : M unit :=
  let '(error_code, error_message) :=
    match failure_errors ex with
    | e :: _ => (error_code_name e, message e)
    | [] =>
        match error_code ex with
        | Some name => (name, ads_text ex)
        | None => ("UNKNOWN", "Неизвестная ошибка: " +:+ ads_text ex)
        end
    end in
  print ("⚠️ Ошибка " +:+ context +:+ " для аккаунта " +:+ customer_id +:+ ": "
         +:+ error_code +:+ " | " +:+ error_message).

(** [s.split('/')]: the pieces between slashes, never an empty list. *)
Fixpoint split_slash (s : string) : list string :=
  match s with
  | EmptyString => [EmptyString]
  | String c s' =>
      if Ascii.eqb c "/"%char then EmptyString :: split_slash s'
      else match split_slash s' with
           | piece :: pieces => String c piece :: pieces
           | [] => [String c EmptyString]
           end
  end.

(** [pieces[-1]] *)
Definition last_piece (pieces : list string) : string := List.last pieces EmptyString.

(** [d[k] = v] on a Python dict, which keeps insertion order: a key that is
    already there keeps its place and takes the new value. *)
Definition dict_setitem (k v : string) (d : list (string * string))
  : list (string * string) :=
  if bool_decide (k ∈ d.*1)
  then map (λ kv, if bool_decide (kv.1 = k) then (k, v) else kv) d
  else d ++ [(k, v)].

Record Account := { acc_id : string; acc_name : string }.

(** ** Account discovery *)

Definition get_active_client_accounts (client : service) (mcc_id : string)
  : M (list Account) :=
  print ("🔍 Поиск активных аккаунтов в MCC " +:+ mcc_id +:+ "...");;
  all_accounts ←
    try_except_ads
      (found ← results (client mcc_id query_customer_client);
       let all_accounts :=
         foldl (λ d row,
                  let c_id := last_piece (split_slash (customer_client_client_customer row)) in
                  let c_name := customer_client_descriptive_name row in
                  dict_setitem c_id c_name d) [] found in
       print ("   Всего найдено аккаунтов: " +:+ pretty (length all_accounts));;
       ret all_accounts)
      (λ ex, _handle_google_ads_exception ex mcc_id "поиска клиентов";;
             sys_exit 1);
  ret (map (λ kv, {| acc_id := kv.1; acc_name := kv.2 |}) all_accounts).

(** ** Per-account extraction *)

(** The dict appended to [rows_gen] in [load_pmax_data]. *)
Definition pmax_record (account_name : string) (r : GoogleAdsRow) : record :=
  [ ("account_name", VStr account_name);
    ("campaign_id", VInt (campaign_id r));
    ("campaign_name", VStr (campaign_name r));
    ("campaign_status", VStr (campaign_status_name r));
    ("daily_budget", VFloat (div_1000000 (campaign_budget_amount_micros r)));
    ("ad_group_id", VStr "0");
    ("ad_group_name", VStr "Performance Max");
    ("date", VStr (segments_date r));
    ("clicks", VInt (metrics_clicks r));
    ("impressions", VInt (metrics_impressions r));
    ("cost", VFloat (div_1000000 (metrics_cost_micros r))) ].

(** The dict of [rows_conv] in [load_pmax_data]. *)
Definition pmax_conv_record (r : GoogleAdsRow) : record :=
  [ ("campaign_id", VInt (campaign_id r));
    ("date", VStr (segments_date r));
    ("conversion_name", VStr (segments_conversion_action_name r));
    ("conversions", VFloat (metrics_conversions r)) ].

(** Lines 158-171 of the script: how the two PMax frames are combined. *)
Definition combine_pmax (account_name : string) (pmax_df conv_df : DataFrame)
  : DataFrame :=
  if df_empty pmax_df && df_empty conv_df then empty_frame
  else if df_empty pmax_df then
    set_column "ad_group_name" (VStr "Performance Max")
      (set_column "account_name" (VStr account_name) conv_df)
  else if df_empty conv_df then pmax_df
  else
    let final := merge_outer pmax_df conv_df ["campaign_id"; "date"] in
    if has_column "account_name" final
    then fillna "account_name" (VStr account_name) final
    else final.

Definition load_pmax_data (client : service)
    (customer_id account_name start_date_str end_date_str : string) : M DataFrame :=
  fetched ←
    try_except_ads
      (rows_gen ← results (client customer_id (query_general start_date_str end_date_str));
       let pmax_df := frame_of_records (map (pmax_record account_name) rows_gen) in
       rows_conv ← results (client customer_id (query_conv start_date_str end_date_str));
       let conv_df := frame_of_records (map pmax_conv_record rows_conv) in
       ret (Some (pmax_df, conv_df)))
      (λ ex, _handle_google_ads_exception ex customer_id "PMax";;
             ret None);
  match fetched with
  | None => ret empty_frame
  | Some (pmax_df, conv_df) => ret (combine_pmax account_name pmax_df conv_df)
  end.

(** [campaign_budgets.get(camp_id_str, 0)] *)
Definition budget_get (campaign_budgets : gmap string Q) (camp_id_str : string) : value :=
  match campaign_budgets !! camp_id_str with
  | Some amount => VFloat amount
  | None => VInt 0
  end.

(** The dict appended to [rows_std]. *)
Definition std_record (account_name : string) (campaign_budgets : gmap string Q)
    (r : GoogleAdsRow) : record :=
  let camp_id_str := str (campaign_id r) in
  let budget_val := budget_get campaign_budgets camp_id_str in
  [ ("account_name", VStr account_name);
    ("campaign_id", VStr camp_id_str);
    ("campaign_name", VStr (campaign_name r));
    ("campaign_status", VStr (campaign_status_name r));
    ("daily_budget", budget_val);
    ("ad_group_id", VStr (str (ad_group_id r)));
    ("ad_group_name", VStr (ad_group_name r));
    ("date", VStr (segments_date r));
    ("clicks", VInt (metrics_clicks r));
    ("impressions", VInt (metrics_impressions r));
    ("cost", VFloat (div_1000000 (metrics_cost_micros r))) ].

(** The dict of [rows_conv] for standard campaigns. *)
Definition std_conv_record (r : GoogleAdsRow) : record :=
  [ ("campaign_id", VStr (str (campaign_id r)));
    ("ad_group_id", VStr (str (ad_group_id r)));
    ("date", VStr (segments_date r));
    ("conversion_name", VStr (segments_conversion_action_name r));
    ("conversions", VFloat (metrics_conversions r)) ].

(** The budget loop fills the dict row by row, so the rows delivered before a
    failure stay in it. *)
Definition read_budgets (resp_b : stream) : gmap string Q :=
  foldl (λ d r, <[str (campaign_id r) := div_1000000 (campaign_budget_amount_micros r)]> d)
        ∅ (List.concat (batches resp_b)).

(** Lines 250-259: how the two standard frames are combined. *)
Definition combine_std (account_name : string) (std_df conv_df : DataFrame)
  : M DataFrame :=
  if df_empty std_df && df_empty conv_df then ret empty_frame
  else if df_empty std_df then
    ret (set_column "account_name" (VStr account_name) conv_df)
  else if df_empty conv_df then ret std_df
  else
    let final_std := merge_outer std_df conv_df ["campaign_id"; "ad_group_id"; "date"] in
    getitem "account_name" final_std;;
    ret (fillna "account_name" (VStr account_name) final_std).

Definition cols_zero : list string :=
  ["clicks"; "impressions"; "cost"; "conversions"; "daily_budget"].

(** Lines 262-274: concatenation and the fills that follow it. *)
Definition finish_campaign_data (customer_id : string) (final_std final_pmax : DataFrame)
  : DataFrame :=
  let final_df := concat final_std final_pmax in
  if negb (df_empty final_df) then
    let final_df :=
      foldl (λ df col, if has_column col df then fillna col (VInt 0) df else df)
            final_df cols_zero in
    let final_df := set_column "customer_id" (VStr customer_id) final_df in
    if has_column "campaign_status" final_df
    then fillna "campaign_status" (VStr "UNKNOWN") final_df
    else final_df
  else final_df.

Definition get_all_campaign_data_for_account (client : service)
    (customer_id account_name start_date_str end_date_str : string) : M DataFrame :=
  let resp_b := client customer_id query_budgets in
  let campaign_budgets := read_budgets resp_b in
  try_except_ads
    (match failure resp_b with Some e => raise e | None => ret tt end)
    (λ _, ret tt);;
  '(std_df, conv_df) ←
    try_except_ads_locals
      [ (λ '(std_df, conv_df),
           rows_std ← results (client customer_id (query_std start_date_str end_date_str));
           ret (frame_of_records (map (std_record account_name campaign_budgets) rows_std),
                conv_df));
        (λ '(std_df, conv_df),
           rows_conv ← results (client customer_id (query_std_conv start_date_str end_date_str));
           ret (std_df, frame_of_records (map std_conv_record rows_conv))) ]
      (λ ex, _handle_google_ads_exception ex customer_id "Standard Campaigns")
      (empty_frame, empty_frame);
  final_std ← combine_std account_name std_df conv_df;
  final_pmax ← load_pmax_data client customer_id account_name start_date_str end_date_str;
  ret (finish_campaign_data customer_id final_std final_pmax).

Definition geo_record (account_name customer_id : string) (r : GoogleAdsRow) : record :=
  [ ("account_name", VStr account_name);
    ("customer_id", VStr customer_id);
    ("campaign_id", VInt (campaign_id r));
    ("campaign_name", VStr (campaign_name r));
    ("date", VStr (segments_date r));
    ("country_criterion_id", VInt (geographic_view_country_criterion_id r));
    ("impressions", VInt (metrics_impressions r));
    ("clicks", VInt (metrics_clicks r));
    ("cost", VFloat (div_1000000 (metrics_cost_micros r)));
    ("conversions", VFloat (metrics_conversions r)) ].

Definition get_geo_data_for_account (client : service)
    (customer_id account_name start_date_str end_date_str : string) : M DataFrame :=
  try_except_ads
    (found ← results (client customer_id (query_geo start_date_str end_date_str));
     ret (frame_of_records (map (geo_record account_name customer_id) found)))
    (λ ex, _handle_google_ads_exception ex customer_id "GEO";;
           ret empty_frame).

Definition search_record (account_name customer_id : string) (r : GoogleAdsRow) : record :=
  [ ("account_name", VStr account_name);
    ("customer_id", VStr customer_id);
    ("date", VStr (segments_date r));
    ("campaign_id", VInt (campaign_id r));
    ("campaign_name", VStr (campaign_name r));
    ("ad_group_id", VInt (ad_group_id r));
    ("ad_group_name", VStr (ad_group_name r));
    ("search_term", VStr (search_term_view_search_term r));
    ("device", VStr (segments_device_name r));
    ("impressions", VInt (metrics_impressions r));
    ("clicks", VInt (metrics_clicks r));
    ("cost", VFloat (div_1000000 (metrics_cost_micros r)));
    ("conversions", VFloat (metrics_conversions r)) ].

Definition get_search_query_data_for_account (client : service)
    (customer_id account_name start_date_str end_date_str : string) : M DataFrame :=
  try_except_ads
    (found ← results (client customer_id (query_search start_date_str end_date_str));
     ret (frame_of_records (map (search_record account_name customer_id) found)))
    (λ ex, _handle_google_ads_exception ex customer_id "Search Query";;
           ret empty_frame).

(** The dict returned by [process_one_account]. *)
Record AccountData := {
  res_name : string;
  camp : DataFrame;
  geo : DataFrame;
  search : DataFrame
}.

Definition process_one_account (client : service) (account : Account)
    (start_str end_str : string) : M AccountData :=
  let c_id := acc_id account in
  let c_name := acc_name account in
  print ("   ⏳ Start: " +:+ c_name);;
  df_camp ← get_all_campaign_data_for_account client c_id c_name start_str end_str;
  df_geo ← get_geo_data_for_account client c_id c_name start_str end_str;
  df_search ← get_search_query_data_for_account client c_id c_name start_str end_str;
  print ("   ✅ Done: " +:+ c_name);;
  ret {| res_name := c_name; camp := df_camp; geo := df_geo; search := df_search |}.

(** ** The sink writer and the run driver *)

(** [try: body  except Exception as e: handler] *)
Definition try_except {A} (body : M A) (handler : exn → M A) : M A :=
  λ w, match body w with
       | (inl (Raised e), w') => handler e w'
       | r => r
       end.

(** [try: stmts  except Exception as e: handler], after which the code goes
    on with the locals. *)
Definition try_except_locals {S} (stmts : list (S → M S))
    (handler : exn → M unit) (s : S) : M S :=
  λ w, match block stmts s w with
       | (None, s', w') => (inr s', w')
       | (Some (Raised e), s', w') =>
           match handler e w' with
           | (inl a, w'') => (inl a, w'')
           | (inr _, w'') => (inr s', w'')
           end
       | (Some a, _, w') => (inl a, w')
       end.

Definition disposition_name (d : disposition) : string :=
  match d with
  | WRITE_TRUNCATE => "WRITE_TRUNCATE"
  | WRITE_APPEND => "WRITE_APPEND"
  end.

(** The body of the [try] in [stream_to_bigquery] up to [job.result()]:
    the attempt is recorded with its outcome, and a failure is raised. *)
Definition load_table_from_dataframe (bq : bigquery) (dataframe : DataFrame)
    (table_id : string) (write_disposition : disposition) : M unit :=
  λ w,
    let outcome := bq (length (jobs w)) in
    let w' := {| stdout := stdout w;
                 jobs := jobs w ++ [ {| job_table := table_id;
                                        job_disposition := write_disposition;
                                        job_frame := dataframe;
                                        job_error := outcome |} ] |} in
    match outcome with
    | None => (inr tt, w')
    | Some e => (inl (Raised e), w')
    end.

Section Driver.

(** [str(x)] for a Python float. *)
Variable repr_float : Q → string.

(** [str(v)] for the value in a cell. *)
Definition py_str (v : value) : string :=
  match v with
  | VInt z => str z
  | VFloat q => repr_float q
  | VStr s => s
  | VNaN => "nan"
  end.

(** [df[col] = df[col].astype(str)] *)
Definition astype_str (col : string) (df : DataFrame) : DataFrame :=
  mkDF (columns df)
       (map (λ r : row, <[col := VStr (py_str (cell r col))]> r) (rows df)).

(** Lines 41-43: the id columns that exist are turned into strings. *)
Definition ids_to_str (dataframe : DataFrame) : DataFrame :=
  foldl (λ df col, if has_column col df then astype_str col df else df)
        dataframe ["campaign_id"; "ad_group_id"; "customer_id"].

(** [dataframe] is an object of the caller: the frame in the result is the
    state of that object when the call returns. *)
Definition stream_to_bigquery (bq : bigquery) (dataframe : DataFrame)
    (project_id table_id : string) (is_first_batch : bool) : M (bool * DataFrame) :=
  if df_empty dataframe then ret (false, dataframe)
  else
    let dataframe := ids_to_str dataframe in
    let write_disposition := if is_first_batch then WRITE_TRUNCATE else WRITE_APPEND in
    try_except
      (load_table_from_dataframe bq dataframe table_id write_disposition;;
       print ("   >>> [BQ] Загружено " +:+ pretty (len dataframe) +:+ " строк в "
              +:+ table_id +:+ " (" +:+ disposition_name write_disposition +:+ ")");;
       ret (true, dataframe))
      (λ e, print ("❌ Критическая ошибка при загрузке в BigQuery (" +:+ table_id
                   +:+ "): " +:+ exn_text e);;
            ret (false, dataframe)).

(** A future of the pool: the account it was submitted for, what
    [process_one_account] returned or raised, and what the worker printed. *)
Record Future := {
  fut_account : Account;
  fut_outcome : abort + AccountData;
  fut_stdout : list string
}.

(** [executor.submit(process_one_account, googleads_client, acc, s_str, e_str)] *)
Definition submit (client : service) (acc : Account) (s_str e_str : string) : Future :=
  let run := process_one_account client acc s_str e_str {| stdout := []; jobs := [] |} in
  {| fut_account := acc; fut_outcome := run.1; fut_stdout := stdout run.2 |}.

(** The three logical tables. *)
Inductive table := Main | Geo | Search.

#[global] Instance table_eq_dec : EqDecision table.
Proof. solve_decision. Defined.

(** The variables of the driver that the loop updates: the three flags, and
    the futures, whose result frames the sink writer changes in place. *)
Record driver := {
  first_run_main : bool;
  first_run_geo : bool;
  first_run_search : bool;
  futures : list Future
}.

Definition first_run (t : table) (st : driver) : bool :=
  match t with
  | Main => first_run_main st
  | Geo => first_run_geo st
  | Search => first_run_search st
  end.

Definition clear_first_run (t : table) (st : driver) : driver :=
  match t with
  | Main => {| first_run_main := false; first_run_geo := first_run_geo st;
               first_run_search := first_run_search st; futures := futures st |}
  | Geo => {| first_run_main := first_run_main st; first_run_geo := false;
              first_run_search := first_run_search st; futures := futures st |}
  | Search => {| first_run_main := first_run_main st; first_run_geo := first_run_geo st;
                 first_run_search := false; futures := futures st |}
  end.

(** [result['camp']], [result['geo']], [result['search']] *)
Definition frame_for (t : table) (result : AccountData) : DataFrame :=
  match t with
  | Main => camp result
  | Geo => geo result
  | Search => search result
  end.

Definition with_frame (t : table) (df : DataFrame) (result : AccountData) : AccountData :=
  match t with
  | Main => {| res_name := res_name result; camp := df; geo := geo result; search := search result |}
  | Geo => {| res_name := res_name result; camp := camp result; geo := df; search := search result |}
  | Search => {| res_name := res_name result; camp := camp result; geo := geo result; search := df |}
  end.

(** The result object of the [i]-th future, when it holds one. *)
Definition result_of (i : nat) (st : driver) : option AccountData :=
  match futures st !! i with
  | Some fut => match fut_outcome fut with inr result => Some result | inl _ => None end
  | None => None
  end.

(** The frame object of table [t] in the [i]-th result takes the state [df]. *)
Definition store_frame (i : nat) (t : table) (df : DataFrame) (st : driver) : driver :=
  {| first_run_main := first_run_main st;
     first_run_geo := first_run_geo st;
     first_run_search := first_run_search st;
     futures := alter (λ fut, {| fut_account := fut_account fut;
                                 fut_outcome := match fut_outcome fut with
                                                | inr result => inr (with_frame t df result)
                                                | inl a => inl a
                                                end;
                                 fut_stdout := fut_stdout fut |}) i (futures st) |}.

Record Args := {
  mcc_id : string;
  project_id : string;
  dataset_id : string;
  config_file : string;
  key_file : string
}.

(** [tbl_main], [tbl_geo], [tbl_search] *)
Definition tbl (args : Args) (t : table) : string :=
  project_id args +:+ "." +:+ dataset_id args +:+ "." +:+
  match t with
  | Main => "daily_campaign_data"
  | Geo => "daily_geo_data"
  | Search => "daily_search_query_data"
  end.

(** [result = future.result()] *)
Definition future_result (i : nat) (st : driver) : M driver :=
  match futures st !! i with
  | Some fut =>
      match fut_outcome fut with
      | inl a => λ w, (inl a, w)
      | inr _ => ret st
      end
  | None => ret st
  end.

(** One of the three upload steps of the loop body (they differ in the table,
    its frame and its flag only):
    [if not result[t].empty:
         success = stream_to_bigquery(result[t], ..., is_first_batch=first_run_t)
         if success and first_run_t: first_run_t = False] *)
Definition upload (bq : bigquery) (args : Args) (t : table) (i : nat) (st : driver)
  : M driver :=
  match result_of i st with
  | None => ret st
  | Some result =>
      if negb (df_empty (frame_for t result)) then
        '(success, df) ← stream_to_bigquery bq (frame_for t result) (project_id args)
                                            (tbl args t) (first_run t st);
        let st := store_frame i t df st in
        ret (if success && first_run t st then clear_first_run t st else st)
      else ret st
  end.

(** The body of [for future in as_completed(futures)] for the [i]-th future. *)
Definition consume (bq : bigquery) (args : Args) (st : driver) (i : nat) : M driver :=
  try_except_locals
    [ future_result i;
      upload bq args Main i;
      upload bq args Geo i;
      upload bq args Search i ]
    (λ exc, print ("❌ Сбой в потоке: " +:+ exn_text exc))
    st.

(** The loop, over the futures in the order in which they complete. *)
Fixpoint consume_all (bq : bigquery) (args : Args) (order : list nat) (st : driver)
  : M driver :=
  match order with
  | [] => ret st
  | i :: rest => st' ← consume bq args st i; consume_all bq args rest st'
  end.

(** What the script finds outside itself. *)
Record Environment := {
  key_file_exists : bool;          (* os.path.exists(args.key_file) *)
  load_client : exn + service;     (* the try block that builds the client *)
  warehouse : bigquery;
  window : string * string;        (* s_str, e_str *)
  as_completed : list nat          (* completion order, by submission index *)
}.

Definition initial_driver (fs : list Future) : driver :=
  {| first_run_main := true; first_run_geo := true; first_run_search := true;
     futures := fs |}.

(** The script; its result is the state of the driver's variables at the end. *)
Definition main (args : Args) (env : Environment) : M driver :=
  (if key_file_exists env then ret tt
   else print ("Ошибка: Файл ключа " +:+ key_file args +:+ " не найден.");;
        sys_exit 1);;
  googleads_client ←
    match load_client env with
    | inr client =>
        print ("✅ Клиент инициализирован. MCC Context: " +:+ mcc_id args);;
        ret client
    | inl e =>
        print ("❌ Ошибка инициализации клиента: " +:+ exn_text e);;
        sys_exit 1
    end;
  let '(s_str, e_str) := window env in
  print ("📅 Период: " +:+ s_str +:+ " - " +:+ e_str +:+ " (90 дней)");;
  accounts_list ← get_active_client_accounts googleads_client (mcc_id args);
  print ("
🚀 Запуск обработки " +:+ pretty (length accounts_list) +:+ " аккаунтов в 10 потоков...");;
  let futures := map (λ acc, submit googleads_client acc s_str e_str) accounts_list in
  st ← consume_all (warehouse env) args (as_completed env) (initial_driver futures);
  print "
🎉 Полная выгрузка завершена.";;
  ret st.

(** The status with which the interpreter ends: the code given to
    [sys.exit], 1 after an exception nobody caught, 0 otherwise. *)
Definition exit_code {A} (r : abort + A) : Z :=
  match r with
  | inr _ => 0
  | inl (SystemExit code) => code
  | inl (Raised _) => 1
  end.

End Driver.

(** ** The single-account script, [ga_client_download_data.py] *)

Module ga_client_download_data.

(** The double quote character, as a string. *)
Definition dquote : string := String (ascii_of_nat 34) EmptyString.

(** [df[labels]] raises KeyError when a label is not a column. *)
Definition getitem_list (labels : list string) (df : DataFrame) : M unit :=
  if forallb (λ c, has_column c df) labels then ret tt
  else raise (KeyError "not in index").

(** [df[labels] = df[labels].fillna(0)] *)
Definition fillna_list (labels : list string) (df : DataFrame) : M DataFrame :=
  getitem_list labels df;;
  ret (foldl (λ d c, fillna c (VInt 0) d) df labels).

(** What the handlers print of a GoogleAdsException: [ex.error.code().name]
    is read inside the handler, and failing to read it raises there. *)
Definition error_code_or_raise (ex : GoogleAdsFailure) : M string :=
  match error_code ex with
  | Some name => ret name
  | None => raise (OtherException "AttributeError")
  end.

Definition pmax_general_record (r : GoogleAdsRow) : record :=
  [ ("campaign_name", VStr (campaign_name r));
    ("ad_group_name", VStr "Performance Max");
    ("date", VStr (segments_date r));
    ("clicks", VInt (metrics_clicks r));
    ("cost", VFloat (div_1000000 (metrics_cost_micros r)));
    ("impressions", VInt (metrics_impressions r)) ].

Definition pmax_conversions_record (r : GoogleAdsRow) : record :=
  [ ("campaign_name", VStr (campaign_name r));
    ("ad_group_name", VStr "Performance Max");
    ("date", VStr (segments_date r));
    ("conversion_name", VStr (segments_conversion_action_name r));
    ("conversions", VFloat (metrics_conversions r)) ].

Definition measures : list string := ["clicks"; "cost"; "conversions"; "impressions"].

Definition load_pmax_data (client : service)
    (customer_id start_date_str end_date_str : string) : M DataFrame :=
  print "
1.1. Запрос данных по кампаниям Performance Max из Google Ads API...";;
  fetched ←
    try_except_ads
      (rows_general ← results (client customer_id (query_general start_date_str end_date_str));
       let pmax_df := frame_of_records (map pmax_general_record rows_general) in
       (if negb (df_empty pmax_df)
        then print ("Получено " +:+ pretty (len pmax_df)
                    +:+ " строк с данными по кликам и стоимости для PMax.")
        else ret tt);;
       rows_conversions ← results (client customer_id (query_conv start_date_str end_date_str));
       let pmax_conversions_df :=
         frame_of_records (map pmax_conversions_record rows_conversions) in
       (if negb (df_empty pmax_conversions_df)
        then print ("Получено " +:+ pretty (len pmax_conversions_df)
                    +:+ " строк с данными по конверсиям для PMax.")
        else ret tt);;
       ret (Some (pmax_df, pmax_conversions_df)))
      (λ ex, name ← error_code_or_raise ex;
             print ("Ошибка запроса PMax с ID " +:+ dquote +:+ request_id ex +:+ dquote
                    +:+ ": " +:+ name);;
             ret None);
  match fetched with
  | None => ret empty_frame
  | Some (pmax_df, pmax_conversions_df) =>
      if df_empty pmax_df && df_empty pmax_conversions_df then
        print "Данные по Performance Max не найдены.";;
        ret empty_frame
      else
        let final_pmax_df :=
          if df_empty pmax_df then pmax_conversions_df
          else if df_empty pmax_conversions_df then pmax_df
          else merge_outer pmax_df pmax_conversions_df
                           ["campaign_name"; "ad_group_name"; "date"] in
        fillna_list measures final_pmax_df
  end.

Definition general_record (r : GoogleAdsRow) : record :=
  [ ("campaign_name", VStr (campaign_name r));
    ("ad_group_name", VStr (ad_group_name r));
    ("date", VStr (segments_date r));
    ("clicks", VInt (metrics_clicks r));
    ("impressions", VInt (metrics_impressions r));
    ("cost", VFloat (div_1000000 (metrics_cost_micros r))) ].

Definition conversions_record (r : GoogleAdsRow) : record :=
  [ ("campaign_name", VStr (campaign_name r));
    ("ad_group_name", VStr (ad_group_name r));
    ("date", VStr (segments_date r));
    ("conversion_name", VStr (segments_conversion_action_name r));
    ("conversions", VFloat (metrics_conversions r)) ].

Definition load_all_campaign_data (client : service) (bq : bigquery)
    (customer_id project_id table_id start_date_str end_date_str : string) : M unit :=
  print "
1. Запрос данных по стандартным кампаниям и группам из Google Ads API...";;
  '(campaign_df, conversions_df) ←
    try_except_ads
      (rows_general ← results (client customer_id (query_std start_date_str end_date_str));
       let campaign_df := frame_of_records (map general_record rows_general) in
       print ("Получено " +:+ pretty (len campaign_df)
              +:+ " строк с данными по кликам и стоимости для стандартных кампаний.");;
       rows_conversions ←
         results (client customer_id (query_std_conv start_date_str end_date_str));
       let conversions_df := frame_of_records (map conversions_record rows_conversions) in
       print ("Получено " +:+ pretty (len conversions_df)
              +:+ " строк с данными по конверсиям для стандартных кампаний.");;
       ret (campaign_df, conversions_df))
      (λ ex, name ← error_code_or_raise ex;
             print ("Ошибка запроса с ID " +:+ dquote +:+ request_id ex +:+ dquote
                    +:+ ": " +:+ name);;
             sys_exit 1);
  print "2. Объединение данных по стандартным кампаниям...";;
  let standard_final_df :=
    if df_empty campaign_df && df_empty conversions_df then empty_frame
    else if df_empty campaign_df then conversions_df
    else if df_empty conversions_df then campaign_df
    else merge_outer campaign_df conversions_df
                     ["campaign_name"; "ad_group_name"; "date"] in
  pmax_final_df ← load_pmax_data client customer_id start_date_str end_date_str;
  print "3. Объединение данных стандартных и Performance Max кампаний...";;
  let final_df := concat standard_final_df pmax_final_df in
  final_df ← fillna_list measures final_df;
  if df_empty final_df then
    print "Нет данных для основной таблицы."
  else
    print ("4. Загрузка " +:+ pretty (len final_df) +:+ " строк в таблицу "
           +:+ table_id +:+ "...");;
    try_except
      (load_table_from_dataframe bq final_df table_id WRITE_TRUNCATE;;
       print "🎉 Данные по всем кампаниям успешно загружены в BigQuery!")
      (λ e, print ("Ошибка при загрузке основной таблицы в BigQuery: " +:+ exn_text e);;
            sys_exit 1).

End ga_client_download_data.

(** ** Definitions used to state the properties *)

(** The account id that discovery reads off a result row. *)
Definition c_id_of (row : GoogleAdsRow) : string :=
  last_piece (split_slash (customer_client_client_customer row)).

(** Stated from the specification: the ids of a sequence in discovery order,
    each at the place of its first occurrence. *)
Fixpoint first_seen (ids : list string) : list string :=
  match ids with
  | [] => []
  | x :: rest => x :: filter (λ y, y ≠ x) (first_seen rest)
  end.

(** Stated from the specification: the name that the last row carrying the id
    [i] gives to it. *)
Definition last_seen_name (i : string) (found : list GoogleAdsRow) : option string :=
  last (map customer_client_descriptive_name
            (filter (λ row, c_id_of row = i) found)).

(** The dict that the discovery loop builds from the rows it receives. *)
Definition discovered (found : list GoogleAdsRow) : list (string * string) :=
  foldl (λ d row,
           let c_id := last_piece (split_slash (customer_client_client_customer row)) in
           let c_name := customer_client_descriptive_name row in
           dict_setitem c_id c_name d) [] found.

(** [m] may raise, but never raises SystemExit. *)
Definition no_exit {A} (m : M A) : Prop :=
  ∀ w code, (m w).1 ≠ inl (SystemExit code).

(** The record of a load attempt for table id [table_id] made in world [w]. *)
Definition attempt (repr_float : Q → string) (bq : bigquery) (table_id : string) (first : bool) (df : DataFrame) (w : world)
  : load_job :=
  {| job_table := table_id;
     job_disposition := if first then WRITE_TRUNCATE else WRITE_APPEND;
     job_frame := ids_to_str repr_float df;
     job_error := bq (length (jobs w)) |}.

(** The line that [stream_to_bigquery] prints after the attempt. *)
Definition attempt_line (repr_float : Q → string) (bq : bigquery) (table_id : string) (first : bool) (df : DataFrame) (w : world)
  : string :=
  match bq (length (jobs w)) with
  | None =>
      "   >>> [BQ] Загружено " +:+ pretty (len (ids_to_str repr_float df)) +:+ " строк в "
      +:+ table_id +:+ " ("
      +:+ disposition_name (if first then WRITE_TRUNCATE else WRITE_APPEND) +:+ ")"
  | Some e =>
      "❌ Критическая ошибка при загрузке в BigQuery (" +:+ table_id +:+ "): "
      +:+ exn_text e
  end.


(** A load attempt on table [t] that completed. *)
Definition completed_on (args : Args) (t : table) (j : load_job) : bool :=
  bool_decide (job_table j = tbl args t) && bool_decide (job_error j = None).

(** Some load attempt on table [t] in [js] completed. *)
Definition written (args : Args) (t : table) (js : list load_job) : bool :=
  existsb (completed_on args t) js.

(** The line with which the driver reports a future that raised. *)
Definition failure_line (line : string) : bool :=
  String.prefix "❌ Сбой в потоке: " line.

(** The future holds an exception instead of a result. *)
Definition failed (fut : Future) : bool :=
  match fut_outcome fut with inl _ => true | inr _ => false end.

(** What a result hands to the sink writer: for each table whose frame is not
    empty, the table id and the frame as the load receives it. *)
Definition deliveries (repr_float : Q → string) (args : Args) (result : AccountData)
  : list (string * DataFrame) :=
  flat_map (λ t, if df_empty (frame_for t result) then []
                 else [(tbl args t, ids_to_str repr_float (frame_for t result))])
           [Main; Geo; Search].

(** The effect of one upload step on the driver's variables and the world. *)
Definition upload_step (repr_float : Q → string) (bq : bigquery) (args : Args)
    (t : table) (i : nat) (sw : driver * world) : driver * world :=
  let '(st, w) := sw in
  match result_of i st with
  | None => sw
  | Some result =>
      if df_empty (frame_for t result) then sw
      else
        let st1 := store_frame i t (ids_to_str repr_float (frame_for t result)) st in
        (if bool_decide (bq (length (jobs w)) = None) && first_run t st
         then clear_first_run t st1 else st1,
         {| stdout := stdout w ++ [attempt_line repr_float bq (tbl args t) (first_run t st)
                                                (frame_for t result) w];
            jobs := jobs w ++ [attempt repr_float bq (tbl args t) (first_run t st)
                                       (frame_for t result) w] |})
  end.

(** The effect of one iteration of the loop, for futures that hold a result
    or an exception. *)
Definition consume_step (repr_float : Q → string) (bq : bigquery) (args : Args)
    (sw : driver * world) (i : nat) : driver * world :=
  match futures sw.1 !! i with
  | Some fut =>
      match fut_outcome fut with
      | inl (Raised exc) =>
          (sw.1, {| stdout := stdout sw.2 ++ ["❌ Сбой в потоке: " +:+ exn_text exc];
                    jobs := jobs sw.2 |})
      | inl (SystemExit _) => sw
      | inr _ =>
          upload_step repr_float bq args Search i
            (upload_step repr_float bq args Geo i
               (upload_step repr_float bq args Main i sw))
      end
  | None => sw
  end.

(** No future holds a SystemExit. *)
Definition no_exit_futures (fs : list Future) : Prop :=
  Forall (λ fut, ∀ code, fut_outcome fut ≠ inl (SystemExit code)) fs.

(** The flag of every table is still set exactly when no load attempt on
    that table has completed. *)
Definition flags_track (args : Args) (sw : driver * world) : Prop :=
  ∀ t, first_run t sw.1 = negb (written args t (jobs sw.2)).

(** Every load attempt on a table replaces when no earlier attempt on that
    table completed, and appends otherwise. *)
Definition dispositions_track (args : Args) (js : list load_job) : Prop :=
  ∀ pre j post t, js = pre ++ j :: post → job_table j = tbl args t →
    job_disposition j = if written args t pre then WRITE_APPEND else WRITE_TRUNCATE.

(** Both facts together: the invariant of the loop. *)
Definition loop_invariant (args : Args) (sw : driver * world) : Prop :=
  flags_track args sw ∧ dispositions_track args (jobs sw.2).

(** The columns that [stream_to_bigquery] turns into strings. *)
Definition id_columns : list string := ["campaign_id"; "ad_group_id"; "customer_id"].

(** The change of one row by [df[col] = df[col].astype(str)] when [col] is a
    column of [df]. *)
Definition cell_to_str (repr_float : Q → string) (df : DataFrame) (col : string)
    (r : row) : row :=
  if has_column col df then <[col := VStr (py_str repr_float (cell r col))]> r else r.

(** What a load attempt is about: its table and the frame it received. *)
Definition job_key (j : load_job) : string * DataFrame := (job_table j, job_frame j).

(** How many lines of the output report a future that raised. *)
Definition count_failures (out : list string) : nat :=
  length (filter (λ line, failure_line line) out).

(** The [i]-th future holds an exception. *)
Definition failed_at (fs : list Future) (i : nat) : bool :=
  match fs !! i with
  | Some fut => failed fut
  | None => false
  end.

(** What the [i]-th future hands to the sink writer when it is consumed. *)
Definition deliveries_at (repr_float : Q → string) (args : Args) (fs : list Future)
    (i : nat) : list (string * DataFrame) :=
  match fs !! i with
  | Some fut =>
      match fut_outcome fut with
      | inr result => deliveries repr_float args result
      | inl _ => []
      end
  | None => []
  end.

(** The line that [_handle_google_ads_exception] prints. *)
Definition handled_line (ex : GoogleAdsFailure) (customer_id context : string) : string :=
  let '(error_code, error_message) :=
    match failure_errors ex with
    | e :: _ => (error_code_name e, message e)
    | [] =>
        match error_code ex with
        | Some name => (name, ads_text ex)
        | None => ("UNKNOWN", "Неизвестная ошибка: " +:+ ads_text ex)
        end
    end in
  "⚠️ Ошибка " +:+ context +:+ " для аккаунта " +:+ customer_id +:+ ": "
  +:+ error_code +:+ " | " +:+ error_message.

(** The world after printing [lines]. *)
Definition printed (lines : list string) (w : world) : world :=
  {| stdout := stdout w ++ lines; jobs := jobs w |}.

(** A setup error: the key file is missing, or building the client raised. *)
Definition setup_error (env : Environment) : Prop :=
  key_file_exists env = false ∨ ∃ e, load_client env = inl e.

(** A discovery error: setup went through and the discovery stream raised [e]. *)
Definition discovery_error (args : Args) (env : Environment) (e : exn) : Prop :=
  key_file_exists env = true ∧
  ∃ client, load_client env = inr client ∧
            failure (client (mcc_id args) query_customer_client) = Some e.

(** The labels of the frames that the extractor builds. *)
Definition std_columns : list string :=
  ["account_name"; "campaign_id"; "campaign_name"; "campaign_status"; "daily_budget";
   "ad_group_id"; "ad_group_name"; "date"; "clicks"; "impressions"; "cost"].

Definition std_conv_columns : list string :=
  ["campaign_id"; "ad_group_id"; "date"; "conversion_name"; "conversions"].

Definition pmax_conv_columns : list string :=
  ["campaign_id"; "date"; "conversion_name"; "conversions"].

(** The key columns of the two joins. *)
Definition std_on : list string := ["campaign_id"; "ad_group_id"; "date"].
Definition pmax_on : list string := ["campaign_id"; "date"].

(** The frames of the standard sub-task, from the rows of its two queries. *)
Definition std_frame (account_name : string) (campaign_budgets : gmap string Q)
    (rows_std : list GoogleAdsRow) : DataFrame :=
  frame_of_records (map (std_record account_name campaign_budgets) rows_std).

Definition std_conv_frame (rows_conv : list GoogleAdsRow) : DataFrame :=
  frame_of_records (map std_conv_record rows_conv).

(** The frames of the PMax sub-task, from the rows of its two queries. *)
Definition pmax_frame (account_name : string) (rows_gen : list GoogleAdsRow) : DataFrame :=
  frame_of_records (map (pmax_record account_name) rows_gen).

Definition pmax_conv_frame (rows_conv : list GoogleAdsRow) : DataFrame :=
  frame_of_records (map pmax_conv_record rows_conv).

(** The join key of a result row of the standard queries, as the frames hold it. *)
Definition std_key (r : GoogleAdsRow) : list value :=
  [VStr (str (campaign_id r)); VStr (str (ad_group_id r)); VStr (segments_date r)].

(** The join key of a result row of the PMax queries, as the frames hold it. *)
Definition pmax_key (r : GoogleAdsRow) : list value :=
  [VInt (campaign_id r); VStr (segments_date r)].

(** The number in a cell; a cell without number counts as zero. *)
Definition num (v : value) : Q :=
  match v with
  | VInt z => inject_Z z
  | VFloat q => q
  | _ => 0%Q
  end.

(** The sum of column [c] over [rs], in exact arithmetic. *)
Definition column_sum (c : string) (rs : list row) : Q :=
  foldr (λ r acc, (num (cell r c) + acc)%Q) 0%Q rs.

(** What lines 264-272 do to one row of the concatenated frame [df]. *)
Definition finish_row (customer_id : string) (df : DataFrame) (x : row) : row :=
  let x := foldl (λ x col, if has_column col df then fill_cell col (VInt 0) x else x)
                 x cols_zero in
  let x := <["customer_id" := VStr customer_id]> x in
  if has_column "campaign_status" df then fill_cell "campaign_status" (VStr "UNKNOWN") x
  else x.


(** ** Sample data *)

Definition blank_row : GoogleAdsRow :=
  {| customer_client_client_customer := ""; customer_client_descriptive_name := "";
     campaign_id := 0; campaign_name := ""; campaign_status_name := "";
     campaign_budget_amount_micros := 0; ad_group_id := 0; ad_group_name := "";
     segments_date := ""; segments_conversion_action_name := "";
     segments_device_name := ""; metrics_clicks := 0; metrics_impressions := 0;
     metrics_cost_micros := 0; metrics_conversions := 0%Q;
     geographic_view_country_criterion_id := 0; search_term_view_search_term := "" |}.

(** A row of the discovery query. *)
Definition client_row (resource_name name : string) : GoogleAdsRow :=
  {| customer_client_client_customer := resource_name;
     customer_client_descriptive_name := name;
     campaign_id := 0; campaign_name := ""; campaign_status_name := "";
     campaign_budget_amount_micros := 0; ad_group_id := 0; ad_group_name := "";
     segments_date := ""; segments_conversion_action_name := "";
     segments_device_name := ""; metrics_clicks := 0; metrics_impressions := 0;
     metrics_cost_micros := 0; metrics_conversions := 0%Q;
     geographic_view_country_criterion_id := 0; search_term_view_search_term := "" |}.

(** A row of a metrics query. *)
Definition metrics_row (campaign ad_group : Z) (date : string)
    (clicks impressions cost_micros : Z) : GoogleAdsRow :=
  {| customer_client_client_customer := ""; customer_client_descriptive_name := "";
     campaign_id := campaign; campaign_name := "Brand"; campaign_status_name := "ENABLED";
     campaign_budget_amount_micros := 5000000; ad_group_id := ad_group;
     ad_group_name := "Group"; segments_date := date;
     segments_conversion_action_name := ""; segments_device_name := "";
     metrics_clicks := clicks; metrics_impressions := impressions;
     metrics_cost_micros := cost_micros; metrics_conversions := 0%Q;
     geographic_view_country_criterion_id := 0; search_term_view_search_term := "" |}.

(** A row of a conversions query. *)
Definition conversion_row (campaign ad_group : Z) (date action : string)
    (conversions : Q) : GoogleAdsRow :=
  {| customer_client_client_customer := ""; customer_client_descriptive_name := "";
     campaign_id := campaign; campaign_name := ""; campaign_status_name := "";
     campaign_budget_amount_micros := 0; ad_group_id := ad_group; ad_group_name := "";
     segments_date := date; segments_conversion_action_name := action;
     segments_device_name := ""; metrics_clicks := 0; metrics_impressions := 0;
     metrics_cost_micros := 0; metrics_conversions := conversions;
     geographic_view_country_criterion_id := 0; search_term_view_search_term := "" |}.

Definition delivers (found : list GoogleAdsRow) : stream :=
  {| batches := [found]; failure := None |}.

Definition raises (e : exn) : stream := {| batches := []; failure := Some e |}.

(** A GoogleAdsException as the API raises it for a rejected query. *)
Definition query_error : GoogleAdsFailure :=
  {| failure_errors := [ {| error_code_name := "QUERY_ERROR"; message := "bad query" |} ];
     error_code := Some "INVALID_ARGUMENT";
     request_id := "req-1";
     ads_text := "GoogleAdsException" |}.

Definition w0 : world := {| stdout := []; jobs := [] |}.

(** An account without metrics rows in the window and with one conversion. *)
Definition conversions_only : service :=
  λ _ q, match q with
         | query_std_conv _ _ => delivers [conversion_row 11 22 "2024-05-01" "lead" 1%Q]
         | _ => delivers []
         end.

(** The part of [get_all_campaign_data_for_account] that follows its [try]
    block, for the two frames that the block leaves. *)
Definition campaign_data_from (client : service)
    (customer_id account_name start_date_str end_date_str : string)
    (std_df conv_df : DataFrame) : M DataFrame :=
  final_std ← combine_std account_name std_df conv_df;
  final_pmax ← load_pmax_data client customer_id account_name start_date_str end_date_str;
  ret (finish_campaign_data customer_id final_std final_pmax).

#[global] Instance query_eq_dec : EqDecision query.
Proof. solve_decision. Defined.

(** The service [client], except that the query [q] of [customer_id] is
    answered by [resp]. *)
Definition answering (client : service) (customer_id : string) (q : query)
    (resp : stream) : service :=
  λ c q', if decide (c = customer_id ∧ q' = q) then resp else client c q'.

(** The stream [resp] with its failure, if it has one, replaced by a normal
    end. *)
Definition ending_normally (resp : stream) : stream :=
  {| batches := batches resp; failure := None |}.

(** The stream ends normally or raises a GoogleAdsException. *)
Definition ads_error_or_none (resp : stream) : Prop :=
  match failure resp with
  | None | Some (GoogleAdsException _) => True
  | Some _ => False
  end.

(** The line [line] contains the text [who]. *)
Definition names (who line : string) : Prop :=
  ∃ before after, line = before +:+ who +:+ after.


(** An account whose budget lookup is rejected and that has no data. *)
Definition budget_fails : service :=
  λ _ q, match q with
         | query_budgets => raises (GoogleAdsException query_error)
         | _ => delivers []
         end.

(** The key [κ] occurs in [joined] once for each row of [cs], each time with
    the clicks, impressions and cost of the metrics row [m] and with the
    budget [budget], so that the sum of each of these columns over the rows of
    the key is the value of [m] times the number of rows of [cs]. *)
Definition key_repeats (on : list string) (joined : DataFrame) (κ : list value)
    (m : GoogleAdsRow) (cs : list GoogleAdsRow) (budget : value) : Prop :=
  let hits := filter (λ x, key_of on x = κ) (rows joined) in
  length hits = length cs ∧
  Forall (λ x, cell x "clicks" = VInt (metrics_clicks m) ∧
               cell x "impressions" = VInt (metrics_impressions m) ∧
               cell x "cost" = VFloat (div_1000000 (metrics_cost_micros m)) ∧
               cell x "daily_budget" = budget) hits ∧
  (column_sum "clicks" hits ==
     inject_Z (Z.of_nat (length cs)) * inject_Z (metrics_clicks m))%Q ∧
  (column_sum "impressions" hits ==
     inject_Z (Z.of_nat (length cs)) * inject_Z (metrics_impressions m))%Q ∧
  (column_sum "cost" hits ==
     inject_Z (Z.of_nat (length cs)) * div_1000000 (metrics_cost_micros m))%Q ∧
  (column_sum "daily_budget" hits == inject_Z (Z.of_nat (length cs)) * num budget)%Q.

(** A manager account whose discovery stream names account 7 twice. *)
Definition same_account_twice : service :=
  λ _ q, match q with
         | query_customer_client =>
             {| batches := [ [client_row "customers/1/customerClients/7" "old name";
                              client_row "customers/1/customerClients/8" "other"];
                             [client_row "customers/1/customerClients/7" "new name"] ];
                failure := None |}
         | _ => delivers []
         end.

(** Two accounts: the geography query of account 8 raises an exception that
    is not a GoogleAdsException; account 7 has one geography row. *)
Definition two_accounts : list Account :=
  [ {| acc_id := "7"; acc_name := "seven" |}; {| acc_id := "8"; acc_name := "eight" |} ].

Definition one_account_breaks : service :=
  λ c q, match q with
         | query_geo _ _ =>
             if String.eqb c "8" then raises (OtherException "connection reset")
             else delivers [metrics_row 11 22 "2024-05-01" 3 40 1500000]
         | _ => delivers []
         end.

(** A service without any data. *)
Definition no_data : service := λ _ _, delivers [].

(** A warehouse that rejects every load. *)
Definition rejecting : bigquery := λ _, Some (OtherException "quota exceeded").

(** A float is printed as an empty text in the samples. *)
Definition sample_repr : Q → string := λ _, "".

Definition sample_args : Args :=
  {| mcc_id := "1"; project_id := "proj"; dataset_id := "ads";
     config_file := "googleads.yaml"; key_file := "service_key.json" |}.

(** A geography frame with one row. *)
Definition sample_geo_frame : DataFrame :=
  frame_of_records
    [geo_record "seven" "7" (metrics_row 11 22 "2024-05-01" 3 40 1500000)].

(** One metrics row and two conversion rows of the same campaign, ad group
    and date. *)
Definition sample_metrics : GoogleAdsRow := metrics_row 11 22 "2024-05-01" 3 40 1500000.

Definition sample_conversions : list GoogleAdsRow :=
  [ conversion_row 11 22 "2024-05-01" "lead" 1%Q;
    conversion_row 11 22 "2024-05-01" "purchase" 2%Q ].

(** A service that rejects every query with a GoogleAdsException. *)
Definition all_rejected : service := λ _ _, raises (GoogleAdsException query_error).

(** A run whose setup goes through and whose discovery query is rejected. *)
Definition discovery_rejected : Environment :=
  {| key_file_exists := true;
     load_client := inr all_rejected;
     warehouse := rejecting;
     window := ("2024-02-01", "2024-05-01");
     as_completed := [] |}.

(** A driver with one future, which raised. *)
Definition one_failed_future : driver :=
  initial_driver
    [ {| fut_account := {| acc_id := "8"; acc_name := "eight" |};
         fut_outcome := inl (Raised (OtherException "connection reset"));
         fut_stdout := [] |} ].
(** ** More definitions used to state properties *)

(** The text contains a slash. *)
Fixpoint has_slash (s : string) : bool :=
  match s with
  | EmptyString => false
  | String c s' => Ascii.eqb c "/"%char || has_slash s'
  end.

(** ["/".join(pieces)] *)
Fixpoint join_slash (pieces : list string) : string :=
  match pieces with
  | [] => ""
  | [piece] => piece
  | piece :: rest => piece +:+ "/" +:+ join_slash rest
  end.

(** The budget that the last row of campaign [cid] in [found] carries. *)
Definition last_budget (cid : Z) (found : list GoogleAdsRow) : option Z :=
  last (map campaign_budget_amount_micros
            (filter (λ r, campaign_id r = cid) found)).

(** The queries that [get_all_campaign_data_for_account] sends. *)
Definition campaign_queries (s e : string) : list query :=
  [query_budgets; query_std s e; query_std_conv s e; query_general s e; query_conv s e].

(** The exception is not a GoogleAdsException. *)
Definition unexpected (exc : exn) : Prop :=
  match exc with GoogleAdsException _ => False | _ => True end.

(** The placeholder that PMax rows carry instead of an ad group. *)
Definition pmax_placeholder (x : row) : Prop :=
  cell x "ad_group_name" = VStr "Performance Max".

(** The conversion row [ρ] has no metrics row of its campaign and date. *)
Definition unmatched (key : GoogleAdsRow → list value) (rows_metrics : list GoogleAdsRow)
    (ρ : GoogleAdsRow) : Prop :=
  ∀ m, m ∈ rows_metrics → key m ≠ key ρ.

(** Every row of [df] carries the account name, in a column of [df]. *)
Definition named (account_name : string) (df : DataFrame) : Prop :=
  ∀ x, x ∈ rows df →
    cell x "account_name" = VStr account_name ∧ "account_name" ∈ columns df.

(** ** More sample data *)

(** A manager account with one client account, which has one geography row. *)
Definition one_geo_account : service :=
  λ _ q, match q with
         | query_customer_client =>
             delivers [client_row "customers/1/customerClients/7" "seven"]
         | query_geo _ _ => delivers [metrics_row 11 22 "2024-05-01" 3 40 1500000]
         | _ => delivers []
         end.

(** A run over that account in which the warehouse rejects every load. *)
Definition all_loads_rejected : Environment :=
  {| key_file_exists := true;
     load_client := inr one_geo_account;
     warehouse := rejecting;
     window := ("2024-02-01", "2024-05-01");
     as_completed := [0] |}.

(** An account with one PMax metrics row, and one PMax conversion of another
    campaign and date. *)
Definition pmax_with_stray_conversion : service :=
  λ _ q, match q with
         | query_general _ _ => delivers [metrics_row 11 0 "2024-05-01" 3 40 1500000]
         | query_conv _ _ => delivers [conversion_row 12 0 "2024-05-02" "lead" 1%Q]
         | _ => delivers []
         end.

(** An account whose standard metrics query delivers one row and whose
    standard conversions query is rejected. *)
Definition conversions_rejected : service :=
  λ _ q, match q with
         | query_std _ _ => delivers [sample_metrics]
         | query_std_conv _ _ => raises (GoogleAdsException query_error)
         | _ => delivers []
         end.

(** * Properties *)

(** ** Account discovery *)

Lemma first_seen_elem (x : string) (ids : list string) :
  x ∈ first_seen ids ↔ x ∈ ids.
Proof.
  induction ids as [|y ids IH]; simpl; [done|].
  rewrite !elem_of_cons, list_elem_of_filter, IH.
  destruct (decide (x = y)); naive_solver.
Qed.

Lemma first_seen_snoc (ids : list string) (x : string) :
  first_seen (ids ++ [x]) =
  if decide (x ∈ ids) then first_seen ids else first_seen ids ++ [x].
Proof.
  induction ids as [|y ids IH]; simpl.
  - destruct (decide (x ∈ [])) as [H|_]; [by apply elem_of_nil in H|done].
  - rewrite IH. destruct (decide (x ∈ ids)) as [Hin|Hnin].
    + rewrite decide_True by (by right). done.
    + rewrite filter_app. destruct (decide (x = y)) as [->|Hne].
      * rewrite decide_True by (by left).
        rewrite filter_cons_False by naive_solver. by rewrite app_nil_r.
      * rewrite decide_False by (rewrite elem_of_cons; naive_solver).
        by rewrite filter_cons_True by done.
Qed.

Lemma first_seen_NoDup (ids : list string) : NoDup (first_seen ids).
Proof.
  induction ids as [|y ids IH]; simpl; [constructor|].
  constructor.
  - rewrite list_elem_of_filter. naive_solver.
  - by apply NoDup_filter.
Qed.

Lemma dict_setitem_keys (k v : string) (d : list (string * string)) :
  (dict_setitem k v d).*1 = if decide (k ∈ d.*1) then d.*1 else d.*1 ++ [k].
Proof.
  unfold dict_setitem. destruct (decide (k ∈ d.*1)) as [Hin|Hnin].
  - rewrite bool_decide_eq_true_2 by done. clear Hin.
    induction d as [|[k' v'] d IH]; [done|].
    rewrite map_cons, !fmap_cons, IH. f_equal. by case_bool_decide; simplify_eq/=.
  - rewrite bool_decide_eq_false_2 by done. by rewrite fmap_app.
Qed.

Lemma dict_setitem_entries (k v : string) (d : list (string * string)) k' v' :
  (k', v') ∈ dict_setitem k v d →
  (k' = k ∧ v' = v) ∨ (k' ≠ k ∧ (k', v') ∈ d).
Proof.
  unfold dict_setitem. case_bool_decide as Hin.
  - rewrite list_elem_of_fmap. intros [[k0 v0] [Heq Hel]]. simpl in Heq.
    case_bool_decide; simplify_eq/=; [by left|by right].
  - rewrite elem_of_app, list_elem_of_singleton. intros [Hel|Heq].
    + right. split; [|done]. intros ->. apply Hin.
      apply list_elem_of_fmap. by exists (k, v').
    + left. by simplify_eq.
Qed.

Lemma discovered_keys (found : list GoogleAdsRow) :
  (discovered found).*1 = first_seen (map c_id_of found).
Proof.
  induction found as [|row found IH] using rev_ind; [done|].
  unfold discovered in *. rewrite foldl_snoc, map_app. simpl.
  rewrite dict_setitem_keys, first_seen_snoc, IH.
  fold (c_id_of row).
  destruct (decide (c_id_of row ∈ map c_id_of found)) as [Hin|Hnin].
  - by rewrite decide_True by (by apply first_seen_elem).
  - by rewrite decide_False by (by rewrite first_seen_elem).
Qed.

Lemma last_seen_name_snoc (i : string) (found : list GoogleAdsRow) (row : GoogleAdsRow) :
  last_seen_name i (found ++ [row]) =
  if decide (c_id_of row = i) then Some (customer_client_descriptive_name row)
  else last_seen_name i found.
Proof.
  unfold last_seen_name. rewrite filter_app, map_app, filter_cons, filter_nil.
  destruct (decide (c_id_of row = i)) as [Heq|Hne]; simpl.
  - by rewrite last_snoc.
  - by rewrite app_nil_r.
Qed.

Lemma discovered_names (found : list GoogleAdsRow) k v :
  (k, v) ∈ discovered found → last_seen_name k found = Some v.
Proof.
  revert k v. induction found as [|row found IH] using rev_ind; intros k v.
  - intros H. by apply elem_of_nil in H.
  - unfold discovered in *. rewrite foldl_snoc. simpl.
    intros [[-> ->]|[Hne Hel]]%dict_setitem_entries;
      rewrite last_seen_name_snoc; fold (c_id_of row).
    + by rewrite decide_True.
    + rewrite decide_False by done. by apply IH.
Qed.

(** C6. When the discovery stream ends without error, the accounts returned
    are the ids of the rows in discovery order, each id once and at the place
    of its first occurrence, and every account carries the name given by the
    last row that has its id. *)
Theorem get_active_client_accounts_dedup
    (client : service) (mcc : string) (w : world) :
  failure (client mcc query_customer_client) = None →
  let found := List.concat (batches (client mcc query_customer_client)) in
  ∃ accounts w',
    get_active_client_accounts client mcc w = (inr accounts, w') ∧
    map acc_id accounts = first_seen (map c_id_of found) ∧
    NoDup (map acc_id accounts) ∧
    (∀ a, a ∈ accounts → last_seen_name (acc_id a) found = Some (acc_name a)).
Proof.
  intros Hok found.
  unfold get_active_client_accounts, results, try_except_ads.
  rewrite Hok. simpl. fold found. fold (discovered found).
  eexists _, _. split; [reflexivity|].
  assert (Hkeys : map acc_id
            (map (λ kv, {| acc_id := kv.1; acc_name := kv.2 |}) (discovered found))
          = first_seen (map c_id_of found)).
  { rewrite <- discovered_keys, map_map. done. }
  split; [done|]. split.
  - rewrite Hkeys. apply first_seen_NoDup.
  - intros a [[k v] [-> Hel]]%list_elem_of_fmap. simpl.
    by apply discovered_names.
Qed.

(** ** Workers never leave through [sys.exit] *)

Lemma no_exit_ret {A} (a : A) : no_exit (ret a).
Proof. by intros w code. Qed.

Lemma no_exit_raise {A} (e : exn) : no_exit (raise (A:=A) e).
Proof. by intros w code. Qed.

Lemma no_exit_print (line : string) : no_exit (print line).
Proof. by intros w code. Qed.

Lemma no_exit_bind {A B} (m : M A) (k : A → M B) :
  no_exit m → (∀ a, no_exit (k a)) → no_exit (m ≫= k).
Proof.
  intros Hm Hk w code. unfold mbind, M_bind, bind.
  specialize (Hm w code). destruct (m w) as [[a|x] w'] eqn:E; simpl in *.
  - congruence.
  - apply Hk.
Qed.

Lemma no_exit_try_except_ads {A} (body : M A) (handler : GoogleAdsFailure → M A) :
  no_exit body → (∀ ex, no_exit (handler ex)) → no_exit (try_except_ads body handler).
Proof.
  intros Hb Hh w code. unfold try_except_ads.
  specialize (Hb w code). destruct (body w) as [[[[ex| |]|c]|x] w'] eqn:E; simpl in *;
    try done. apply Hh.
Qed.

Lemma block_no_exit {S} (stmts : list (S → M S)) (s : S) (w : world) code :
  Forall (λ st, ∀ s, no_exit (st s)) stmts →
  (block stmts s w).1.1 ≠ Some (SystemExit code).
Proof.
  intros Hall. revert s w. induction Hall as [|st stmts Hst _ IH]; intros s w; [done|].
  simpl. specialize (Hst s w code).
  destruct (st s w) as [[a|s'] w'] eqn:E; simpl in *; [congruence|apply IH].
Qed.

Lemma no_exit_try_except_ads_locals {S} (stmts : list (S → M S))
    (handler : GoogleAdsFailure → M unit) (s : S) :
  Forall (λ st, ∀ s, no_exit (st s)) stmts → (∀ ex, no_exit (handler ex)) →
  no_exit (try_except_ads_locals stmts handler s).
Proof.
  intros Hs Hh w code. unfold try_except_ads_locals.
  pose proof (block_no_exit stmts s w code Hs) as Hb.
  destruct (block stmts s w) as [[[[[ex| |]|c]|] s'] w'] eqn:E; simpl in *; try done.
  - specialize (Hh ex w' code). destruct (handler ex w') as [[a|[]] w'']; simpl in *.
    + congruence.
    + done.
  - congruence.
Qed.

Lemma no_exit_results (resp : stream) : no_exit (results resp).
Proof. unfold results. destruct (failure resp); [apply no_exit_raise|apply no_exit_ret]. Qed.

Lemma no_exit_handle (ex : GoogleAdsFailure) (customer_id context : string) :
  no_exit (_handle_google_ads_exception ex customer_id context).
Proof.
  unfold _handle_google_ads_exception.
  destruct (failure_errors ex); [destruct (error_code ex)|]; apply no_exit_print.
Qed.

Lemma no_exit_getitem (c : string) (df : DataFrame) : no_exit (getitem c df).
Proof. unfold getitem. destruct (has_column c df); [apply no_exit_ret|apply no_exit_raise]. Qed.

Create HintDb no_exit.
#[local] Hint Resolve no_exit_ret no_exit_raise no_exit_print no_exit_results
  no_exit_handle no_exit_getitem : no_exit.

Ltac no_exit_step :=
  first
    [ apply no_exit_bind; [|intros ?]
    | apply no_exit_try_except_ads; [|intros ?]
    | apply no_exit_try_except_ads_locals; [repeat constructor; intros [? ?]|intros ?]
    | solve [auto with no_exit] ].

Lemma no_exit_load_pmax_data client customer_id account_name s e :
  no_exit (load_pmax_data client customer_id account_name s e).
Proof.
  unfold load_pmax_data. repeat no_exit_step.
  destruct a as [[pmax_df conv_df]|]; auto with no_exit.
Qed.

Lemma no_exit_combine_std account_name std_df conv_df :
  no_exit (combine_std account_name std_df conv_df).
Proof.
  unfold combine_std.
  repeat (match goal with |- context [if ?b then _ else _] => destruct b end);
    repeat no_exit_step.
Qed.

Lemma no_exit_get_all_campaign_data_for_account client customer_id account_name s e :
  no_exit (get_all_campaign_data_for_account client customer_id account_name s e).
Proof.
  unfold get_all_campaign_data_for_account.
  apply no_exit_bind; [|intros _].
  { apply no_exit_try_except_ads; [|auto with no_exit].
    destruct (failure _); auto with no_exit. }
  apply no_exit_bind; [|intros [std_df conv_df]].
  { repeat no_exit_step. }
  apply no_exit_bind; [apply no_exit_combine_std|intros final_std].
  apply no_exit_bind; [apply no_exit_load_pmax_data|intros final_pmax].
  auto with no_exit.
Qed.

Lemma no_exit_get_geo_data_for_account client customer_id account_name s e :
  no_exit (get_geo_data_for_account client customer_id account_name s e).
Proof. unfold get_geo_data_for_account. repeat no_exit_step. Qed.

Lemma no_exit_get_search_query_data_for_account client customer_id account_name s e :
  no_exit (get_search_query_data_for_account client customer_id account_name s e).
Proof. unfold get_search_query_data_for_account. repeat no_exit_step. Qed.

Lemma no_exit_process_one_account client account s e :
  no_exit (process_one_account client account s e).
Proof.
  unfold process_one_account.
  apply no_exit_bind; [auto with no_exit|intros _].
  apply no_exit_bind; [apply no_exit_get_all_campaign_data_for_account|intros df_camp].
  apply no_exit_bind; [apply no_exit_get_geo_data_for_account|intros df_geo].
  apply no_exit_bind; [apply no_exit_get_search_query_data_for_account|intros df_search].
  repeat no_exit_step.
Qed.

(** ** The sink writer *)

Section DriverProperties.

Variable repr_float : Q → string.
Variable bq : bigquery.
Variable args : Args.

Lemma stream_to_bigquery_eq (df : DataFrame) (project table_id : string)
    (first : bool) (w : world) :
  stream_to_bigquery repr_float bq df project table_id first w =
  if df_empty df then (inr (false, df), w)
  else (inr (bool_decide (bq (length (jobs w)) = None), ids_to_str repr_float df),
        {| stdout := stdout w ++ [attempt_line repr_float bq table_id first df w];
           jobs := jobs w ++ [attempt repr_float bq table_id first df w] |}).
Proof.
  unfold stream_to_bigquery, attempt_line, attempt.
  destruct (df_empty df); [done|].
  unfold try_except, load_table_from_dataframe, mbind, M_bind, bind, print, ret.
  by destruct (bq (length (jobs w))) as [e|].
Qed.

Lemma ids_to_str_columns (df : DataFrame) :
  columns (ids_to_str repr_float df) = columns df.
Proof.
  unfold ids_to_str. simpl.
  repeat (match goal with |- context [if ?b then _ else _] => destruct b end); done.
Qed.

Lemma ids_to_str_length (df : DataFrame) :
  length (rows (ids_to_str repr_float df)) = length (rows df).
Proof.
  unfold ids_to_str. simpl.
  repeat (match goal with |- context [if ?b then _ else _] => destruct b end);
    simpl; rewrite ?length_map; done.
Qed.

Lemma ids_to_str_empty (df : DataFrame) :
  df_empty (ids_to_str repr_float df) = df_empty df.
Proof.
  unfold df_empty. rewrite ids_to_str_columns.
  pose proof (ids_to_str_length df) as Hlen.
  destruct (columns df); [done|].
  destruct (rows df), (rows (ids_to_str repr_float df)); simpl in *; done.
Qed.

End DriverProperties.

(** ** The loop of the driver *)

Section LoopProperties.

Variable repr_float : Q → string.
Variable bq : bigquery.
Variable args : Args.

#[local] Arguments upload_step : simpl never.
#[local] Arguments consume_step : simpl never.

Lemma append_inv_head (p a b : string) : p +:+ a = p +:+ b → a = b.
Proof. induction p as [|c p IH]; simpl; [done|]. intros [= H]. auto. Qed.

Lemma tbl_inj (t t' : table) : tbl args t = tbl args t' → t = t'.
Proof.
  unfold tbl. intros H. do 4 apply append_inv_head in H.
  by destruct t, t'.
Qed.

Lemma first_run_store_frame t i t' df st :
  first_run t (store_frame i t' df st) = first_run t st.
Proof. by destruct t. Qed.

Lemma first_run_clear t t' st :
  first_run t (clear_first_run t' st) =
  if decide (t = t') then false else first_run t st.
Proof. by destruct t, t'. Qed.

Lemma futures_clear t st : futures (clear_first_run t st) = futures st.
Proof. by destruct t. Qed.

Lemma upload_eq t i st w :
  upload repr_float bq args t i st w =
  (inr (upload_step repr_float bq args t i (st, w)).1,
   (upload_step repr_float bq args t i (st, w)).2).
Proof.
  unfold upload, upload_step.
  destruct (result_of i st) as [result|]; [|done].
  destruct (df_empty (frame_for t result)) eqn:Hemp; [done|]. simpl.
  unfold mbind, M_bind, bind. rewrite stream_to_bigquery_eq, Hemp. simpl.
  rewrite first_run_store_frame. done.
Qed.

Lemma no_exit_futures_alter (f : Future → Future) i fs :
  (∀ fut, failed (f fut) = failed fut ∧
          (∀ a, fut_outcome fut = inl a → fut_outcome (f fut) = inl a)) →
  no_exit_futures fs → no_exit_futures (alter f i fs).
Proof.
  intros Hf Hfs. unfold no_exit_futures in *.
  rewrite Forall_lookup in Hfs |- *. intros k fut Hk code Hout.
  destruct (decide (i = k)) as [->|Hne].
  - rewrite list_lookup_alter_eq in Hk.
    destruct (fs !! k) as [fut0|] eqn:E; [|done]. simplify_eq/=.
    destruct (Hf fut0) as [Hfailed Hinl].
    destruct (fut_outcome fut0) as [a|r] eqn:E0.
    + rewrite (Hinl a eq_refl) in Hout. simplify_eq. by eapply Hfs.
    + unfold failed in Hfailed. rewrite E0, Hout in Hfailed. done.
  - rewrite list_lookup_alter_ne in Hk by done. by eapply Hfs.
Qed.

Lemma no_exit_futures_store i t df st :
  no_exit_futures (futures st) → no_exit_futures (futures (store_frame i t df st)).
Proof.
  intros H. simpl. apply no_exit_futures_alter; [|done].
  intros fut. unfold failed. simpl. destruct (fut_outcome fut); split; done.
Qed.

Lemma upload_step_no_exit t i st w :
  no_exit_futures (futures st) →
  no_exit_futures (futures (upload_step repr_float bq args t i (st, w)).1).
Proof.
  intros H. unfold upload_step.
  destruct (result_of i st) as [result|]; [|done].
  destruct (df_empty _); [done|]. simpl.
  destruct (_ && _); rewrite ?futures_clear; by apply no_exit_futures_store.
Qed.

(** An upload step changes the future [i] only, and keeps it a result. *)
Lemma upload_step_lookup t i st w k :
  futures (upload_step repr_float bq args t i (st, w)).1 !! k =
  if decide (k = i)
  then match result_of i st with
       | Some result =>
           if df_empty (frame_for t result) then futures st !! i
           else (λ fut, {| fut_account := fut_account fut;
                           fut_outcome :=
                             inr (with_frame t (ids_to_str repr_float (frame_for t result))
                                             result);
                           fut_stdout := fut_stdout fut |}) <$> futures st !! i
       | None => futures st !! i
       end
  else futures st !! k.
Proof.
  unfold upload_step.
  destruct (result_of i st) as [result|] eqn:Hres; [|by case_decide; subst].
  destruct (df_empty _); [by case_decide; subst|]. simpl.
  assert (Hfut : ∀ st', futures st' = futures (store_frame i t
              (ids_to_str repr_float (frame_for t result)) st) →
            futures st' !! k =
            if decide (k = i)
            then (λ fut, {| fut_account := fut_account fut;
                            fut_outcome :=
                              inr (with_frame t (ids_to_str repr_float (frame_for t result))
                                              result);
                            fut_stdout := fut_stdout fut |}) <$> futures st !! i
            else futures st !! k).
  { intros st' ->. simpl. case_decide as Hk.
    - subst k. rewrite list_lookup_alter_eq.
      unfold result_of in Hres.
      destruct (futures st !! i) as [fut|]; [|done]. simpl.
      destruct (fut_outcome fut); by simplify_eq.
    - by rewrite list_lookup_alter_ne. }
  destruct (_ && _); apply Hfut; by rewrite ?futures_clear.
Qed.

Lemma result_of_upload_step t i st w :
  result_of i (upload_step repr_float bq args t i (st, w)).1 =
  match result_of i st with
  | Some result =>
      Some (if df_empty (frame_for t result) then result
            else with_frame t (ids_to_str repr_float (frame_for t result)) result)
  | None => None
  end.
Proof.
  unfold result_of at 1. rewrite upload_step_lookup, decide_True by done.
  unfold result_of.
  destruct (futures st !! i) as [fut|] eqn:E; [|done].
  destruct (fut_outcome fut) as [a|result] eqn:E'; simpl.
  - by rewrite ?E, ?E'.
  - destruct (df_empty (frame_for t result)); simpl; by rewrite ?E, ?E'.
Qed.

Lemma consume_eq st i w :
  no_exit_futures (futures st) →
  consume repr_float bq args st i w =
  (inr (consume_step repr_float bq args (st, w) i).1,
   (consume_step repr_float bq args (st, w) i).2).
Proof.
  intros Hne. unfold consume, try_except_locals, consume_step.
  cbn [block fst snd]. unfold future_result at 1.
  destruct (futures st !! i) as [fut|] eqn:Hfut.
  - destruct (fut_outcome fut) as [[e|code]|result] eqn:Hout; simpl.
    + done.
    + exfalso. unfold no_exit_futures in Hne. rewrite Forall_lookup in Hne.
      by eapply Hne.
    + rewrite upload_eq.
      destruct (upload_step repr_float bq args Main i (st, w)) as [st1 w1]. simpl.
      rewrite upload_eq.
      destruct (upload_step repr_float bq args Geo i (st1, w1)) as [st2 w2]. simpl.
      rewrite upload_eq.
      by destruct (upload_step repr_float bq args Search i (st2, w2)) as [st3 w3].
  - simpl.
    assert (Hnone : ∀ t, upload_step repr_float bq args t i (st, w) = (st, w)).
    { intros t. unfold upload_step, result_of. by rewrite Hfut. }
    rewrite upload_eq, Hnone. simpl. rewrite upload_eq, Hnone. simpl.
    by rewrite upload_eq, Hnone.
Qed.

Lemma consume_step_no_exit st w i :
  no_exit_futures (futures st) →
  no_exit_futures (futures (consume_step repr_float bq args (st, w) i).1).
Proof.
  intros H. unfold consume_step. simpl.
  destruct (futures st !! i) as [fut|]; [|done].
  destruct (fut_outcome fut) as [[e|code]|result]; [done..|].
  destruct (upload_step repr_float bq args Main i (st, w)) as [st1 w1] eqn:E1.
  destruct (upload_step repr_float bq args Geo i (st1, w1)) as [st2 w2] eqn:E2.
  pose proof (upload_step_no_exit Main i st w H) as H1. rewrite E1 in H1.
  pose proof (upload_step_no_exit Geo i st1 w1 H1) as H2. rewrite E2 in H2.
  by apply upload_step_no_exit.
Qed.

Lemma consume_all_eq order st w :
  no_exit_futures (futures st) →
  consume_all repr_float bq args order st w =
  (inr (foldl (consume_step repr_float bq args) (st, w) order).1,
   (foldl (consume_step repr_float bq args) (st, w) order).2).
Proof.
  revert st w. induction order as [|i order IH]; intros st w Hne; [done|].
  simpl. unfold mbind, M_bind, bind. rewrite consume_eq by done.
  pose proof (consume_step_no_exit st w i Hne) as Hne'.
  destruct (consume_step repr_float bq args (st, w) i) as [st1 w1]. simpl in *.
  by apply IH.
Qed.

Lemma no_exit_futures_submit client accounts s_str e_str :
  no_exit_futures (map (λ acc, submit client acc s_str e_str) accounts).
Proof.
  unfold no_exit_futures. apply Forall_forall. intros fut Hin.
  apply list_elem_of_fmap in Hin as [acc [-> _]]. intros code. simpl.
  apply no_exit_process_one_account.
Qed.

Lemma written_app t js js' :
  written args t (js ++ js') = written args t js || written args t js'.
Proof. unfold written. apply existsb_app. Qed.

Lemma written_attempt t t' first df w :
  written args t [attempt repr_float bq (tbl args t') first df w] =
  bool_decide (t = t') && bool_decide (bq (length (jobs w)) = None).
Proof.
  unfold written, completed_on. simpl. rewrite orb_false_r. f_equal.
  apply bool_decide_ext. split; [intros H; symmetry; by apply tbl_inj|by intros ->].
Qed.

(** What an upload step does: nothing, or one load attempt on its table. *)
Lemma upload_step_cases t i st w :
  upload_step repr_float bq args t i (st, w) = (st, w) ∨
  ∃ result,
    result_of i st = Some result ∧ df_empty (frame_for t result) = false ∧
    let st' := (upload_step repr_float bq args t i (st, w)).1 in
    let w' := (upload_step repr_float bq args t i (st, w)).2 in
    jobs w' = jobs w ++ [attempt repr_float bq (tbl args t) (first_run t st)
                                 (frame_for t result) w] ∧
    stdout w' = stdout w ++ [attempt_line repr_float bq (tbl args t) (first_run t st)
                                          (frame_for t result) w] ∧
    ∀ t', first_run t' st' =
          if decide (t' = t)
          then first_run t st && negb (bool_decide (bq (length (jobs w)) = None))
          else first_run t' st.
Proof.
  unfold upload_step.
  destruct (result_of i st) as [result|]; [|by left].
  destruct (df_empty (frame_for t result)) eqn:Hemp; [by left|].
  right. exists result. split; [done|]. split; [done|]. simpl.
  split; [done|]. split; [done|]. intros t'.
  destruct (bool_decide (bq (length (jobs w)) = None)); simpl.
  - destruct (first_run t st) eqn:Hfr; simpl.
    + rewrite first_run_clear, first_run_store_frame. by case_decide.
    + rewrite first_run_store_frame. case_decide; by subst.
  - rewrite first_run_store_frame, andb_true_r. case_decide; by subst.
Qed.

Lemma upload_step_flags t i sw :
  flags_track args sw → flags_track args (upload_step repr_float bq args t i sw).
Proof.
  destruct sw as [st w]. intros Hinv.
  destruct (upload_step_cases t i st w) as [->|(result & _ & _ & Hjobs & _ & Hfl)]; [done|].
  intros t'. simpl in *. rewrite Hjobs, Hfl, written_app, written_attempt.
  pose proof (Hinv t') as Ht'. pose proof (Hinv t) as Ht. simpl in *.
  case_decide as Heq.
  - subst t'. rewrite (bool_decide_eq_true_2 (t = t)) by done. rewrite Ht.
    by destruct (written args t (jobs w)), (bool_decide (bq (length (jobs w)) = None)).
  - rewrite (bool_decide_eq_false_2 (t' = t)) by done. rewrite Ht'.
    by destruct (written args t' (jobs w)).
Qed.

Lemma upload_step_jobs t i sw :
  ∃ js, jobs (upload_step repr_float bq args t i sw).2 = jobs sw.2 ++ js.
Proof.
  destruct sw as [st w].
  destruct (upload_step_cases t i st w) as [->|(result & _ & _ & Hjobs & _)].
  - exists []. by rewrite app_nil_r.
  - eexists. apply Hjobs.
Qed.

Lemma dispositions_track_snoc js j :
  dispositions_track args js →
  (∀ t, job_table j = tbl args t →
        job_disposition j = if written args t js then WRITE_APPEND else WRITE_TRUNCATE) →
  dispositions_track args (js ++ [j]).
Proof.
  intros Hjs Hj pre j' post t Heq Htbl.
  destruct post as [|j'' post _] using rev_ind.
  - apply app_inj_tail in Heq as [-> ->]. by apply Hj.
  - rewrite app_comm_cons, app_assoc in Heq. apply app_inj_tail in Heq as [-> _].
    by eapply Hjs.
Qed.

Lemma upload_step_dispositions t i sw :
  flags_track args sw → dispositions_track args (jobs sw.2) →
  dispositions_track args (jobs (upload_step repr_float bq args t i sw).2).
Proof.
  destruct sw as [st w]. intros Hinv Hdisp.
  destruct (upload_step_cases t i st w) as [->|(result & _ & _ & Hjobs & _)]; [done|].
  simpl in *. rewrite Hjobs. apply dispositions_track_snoc; [done|].
  intros t' Htbl. simpl in Htbl. apply tbl_inj in Htbl as <-.
  pose proof (Hinv t) as Ht. simpl in *. rewrite Ht.
  by destruct (written args t (jobs w)).
Qed.

Lemma upload_step_invariant t i sw :
  loop_invariant args sw → loop_invariant args (upload_step repr_float bq args t i sw).
Proof.
  intros [H1 H2]. split; [by apply upload_step_flags|by apply upload_step_dispositions].
Qed.

Lemma consume_step_invariant sw i :
  loop_invariant args sw → loop_invariant args (consume_step repr_float bq args sw i).
Proof.
  intros H. unfold consume_step.
  destruct (futures sw.1 !! i) as [fut|]; [|done].
  destruct (fut_outcome fut) as [[e|code]|result]; [by destruct sw| done |].
  by do 3 apply upload_step_invariant.
Qed.

Lemma consume_step_jobs sw i :
  ∃ js, jobs (consume_step repr_float bq args sw i).2 = jobs sw.2 ++ js.
Proof.
  unfold consume_step.
  destruct (futures sw.1 !! i) as [fut|]; [|exists []; by rewrite app_nil_r].
  destruct (fut_outcome fut) as [[e|code]|result];
    [exists []; by rewrite app_nil_r..|].
  destruct (upload_step_jobs Main i sw) as [js1 H1].
  destruct (upload_step_jobs Geo i (upload_step repr_float bq args Main i sw)) as [js2 H2].
  destruct (upload_step_jobs Search i
              (upload_step repr_float bq args Geo i
                 (upload_step repr_float bq args Main i sw))) as [js3 H3].
  exists (js1 ++ js2 ++ js3). by rewrite H3, H2, H1, <- !app_assoc.
Qed.

Lemma run_invariant order sw :
  loop_invariant args sw → loop_invariant args (foldl (consume_step repr_float bq args) sw order).
Proof.
  revert sw. induction order as [|i order IH]; intros sw H; [done|].
  simpl. by apply IH, consume_step_invariant.
Qed.

Lemma run_jobs order sw :
  ∃ js, jobs (foldl (consume_step repr_float bq args) sw order).2 = jobs sw.2 ++ js.
Proof.
  revert sw. induction order as [|i order IH]; intros sw.
  - exists []. by rewrite app_nil_r.
  - simpl. destruct (IH (consume_step repr_float bq args sw i)) as [js2 H2].
    destruct (consume_step_jobs sw i) as [js1 H1].
    exists (js1 ++ js2). by rewrite H2, H1, <- app_assoc.
Qed.

Lemma written_true t js :
  written args t js = true ↔
  ∃ j, j ∈ js ∧ job_table j = tbl args t ∧ job_error j = None.
Proof.
  unfold written. rewrite existsb_exists. unfold completed_on. split.
  - intros (j & Hin & [H1 H2]%andb_true_iff).
    apply bool_decide_eq_true in H1, H2. exists j. by rewrite list_elem_of_In.
  - intros (j & Hin & H1 & H2). exists j. rewrite <- list_elem_of_In.
    split; [done|]. by rewrite !bool_decide_eq_true_2.
Qed.

End LoopProperties.

(** C1. The three flags start set ("not yet written").  After any part of
    the run, the flag of a table is cleared exactly when some load attempt on
    that table has completed; a cleared flag stays cleared for the rest of the
    run; and every load attempt on a table replaces when no earlier attempt on
    that same table completed and appends otherwise, whatever happened to the
    attempts on the other tables. *)
Theorem write_state_per_table (repr_float : Q → string) (bq : bigquery) (args : Args)
    (client : service) (accounts : list Account) (s_str e_str : string)
    (order1 order2 : list nat) (out : list string) :
  let fs := map (λ acc, submit client acc s_str e_str) accounts in
  let run := λ order, consume_all repr_float bq args order (initial_driver fs)
                                  {| stdout := out; jobs := [] |} in
  (∀ t, first_run t (initial_driver fs) = true) ∧
  ∃ st1 w1 st' w',
    run order1 = (inr st1, w1) ∧
    run (order1 ++ order2) = (inr st', w') ∧
    (∀ t, first_run t st1 = false ↔
          ∃ j, j ∈ jobs w1 ∧ job_table j = tbl args t ∧ job_error j = None) ∧
    (∀ t, first_run t st1 = false → first_run t st' = false) ∧
    (∀ pre j post t, jobs w' = pre ++ j :: post → job_table j = tbl args t →
       job_disposition j = if written args t pre then WRITE_APPEND else WRITE_TRUNCATE).
Proof.
  intros fs run. split; [by intros []|].
  set (sw0 := (initial_driver fs, {| stdout := out; jobs := [] |})).
  assert (Hne : no_exit_futures (futures (initial_driver fs)))
    by apply no_exit_futures_submit.
  assert (Hinv0 : loop_invariant args sw0).
  { split; [by intros []|]. intros pre j post t Heq. by destruct pre. }
  set (sw1 := foldl (consume_step repr_float bq args) sw0 order1).
  set (sw2 := foldl (consume_step repr_float bq args) sw0 (order1 ++ order2)).
  exists sw1.1, sw1.2, sw2.1, sw2.2.
  split; [by apply consume_all_eq|]. split; [by apply consume_all_eq|].
  destruct (run_invariant repr_float bq args order1 sw0 Hinv0) as [Hfl1 _].
  destruct (run_invariant repr_float bq args (order1 ++ order2) sw0 Hinv0) as [Hfl2 Hd2].
  fold sw1 in Hfl1. fold sw2 in Hfl2, Hd2.
  assert (Hiff : ∀ t, first_run t sw1.1 = false ↔ written args t (jobs sw1.2) = true).
  { intros t. rewrite (Hfl1 t). by destruct (written args t (jobs sw1.2)). }
  split; [|split; [|exact Hd2]].
  - intros t. by rewrite Hiff, written_true.
  - intros t Ht. apply Hiff in Ht. rewrite (Hfl2 t).
    destruct (run_jobs repr_float bq args order2 sw1) as [js Hjs].
    unfold sw2. rewrite foldl_app. fold sw1. rewrite Hjs, written_app, Ht. done.
Qed.

(** ** The sink writer changes the caller's frame *)

Lemma ids_to_str_rows (repr_float : Q → string) (df : DataFrame) :
  rows (ids_to_str repr_float df) =
  map (λ r, cell_to_str repr_float df "customer_id"
              (cell_to_str repr_float df "ad_group_id"
                 (cell_to_str repr_float df "campaign_id" r))) (rows df).
Proof.
  unfold ids_to_str, cell_to_str, has_column. simpl.
  destruct (bool_decide ("campaign_id" ∈ columns df)); simpl;
    destruct (bool_decide ("ad_group_id" ∈ columns df)); simpl;
    destruct (bool_decide ("customer_id" ∈ columns df)); simpl;
    rewrite ?map_map; try done.
  symmetry. apply map_id.
Qed.

Lemma cell_insert_eq (r : row) (c : string) (v : value) : cell (<[c := v]> r) c = v.
Proof. unfold cell. by rewrite lookup_insert_eq. Qed.

Lemma cell_insert_ne (r : row) (c c' : string) (v : value) :
  c ≠ c' → cell (<[c := v]> r) c' = cell r c'.
Proof. intros H. unfold cell. by rewrite lookup_insert_ne. Qed.

Lemma cell_to_str_other repr_float df col c (r : row) :
  col ≠ c → cell (cell_to_str repr_float df col r) c = cell r c.
Proof. intros H. unfold cell_to_str. destruct (has_column col df); [by apply cell_insert_ne|done]. Qed.

Lemma cell_to_str_same repr_float df col (r : row) :
  col ∈ columns df →
  cell (cell_to_str repr_float df col r) col = VStr (py_str repr_float (cell r col)).
Proof.
  intros H. unfold cell_to_str, has_column. rewrite bool_decide_eq_true_2 by done.
  apply cell_insert_eq.
Qed.

(** C10. For a frame that is not empty, [stream_to_bigquery] turns every id
    column that the frame has into strings, in the object that the caller
    passed: the load attempt receives the converted frame, the call returns
    with the object in that state whether the load completed or failed, no
    other column is touched, and the driver's result then holds the converted
    frame. *)
Theorem stream_to_bigquery_mutates_ids (repr_float : Q → string) (bq : bigquery)
    (df : DataFrame) (project table_id : string) (first : bool) (w : world) :
  df_empty df = false →
  let df' := ids_to_str repr_float df in
  ∃ w',
    stream_to_bigquery repr_float bq df project table_id first w =
      (inr (bool_decide (bq (length (jobs w)) = None), df'), w') ∧
    (∃ j, jobs w' = jobs w ++ [j] ∧ job_frame j = df' ∧
          job_error j = bq (length (jobs w))) ∧
    columns df' = columns df ∧
    (∀ col r, col ∈ id_columns → col ∈ columns df → r ∈ rows df' →
              ∃ s, cell r col = VStr s) ∧
    Forall2 (λ r r' : row, ∀ c, c ∉ id_columns → cell r' c = cell r c)
            (rows df) (rows df') ∧
    (∀ args t i st result,
        result_of i st = Some result → frame_for t result = df →
        ∃ st' w'',
          upload repr_float bq args t i st w = (inr st', w'') ∧
          result_of i st' = Some (with_frame t df' result)).
Proof.
  intros Hemp df'. eexists. rewrite stream_to_bigquery_eq, Hemp.
  split; [reflexivity|]. simpl. split; [by eexists|].
  split; [apply ids_to_str_columns|]. split; [|split].
  - intros col r Hcol Hin Hr. unfold df' in Hr. rewrite ids_to_str_rows in Hr.
    apply list_elem_of_fmap in Hr as [r0 [-> _]].
    unfold id_columns in Hcol. rewrite !elem_of_cons in Hcol.
    destruct Hcol as [->|[->|[->|Hnil]]]; [| | |by apply elem_of_nil in Hnil].
    + rewrite !cell_to_str_other by done. rewrite cell_to_str_same by done. by eexists.
    + rewrite cell_to_str_other by done. rewrite cell_to_str_same by done. by eexists.
    + rewrite cell_to_str_same by done. by eexists.
  - unfold df'. rewrite ids_to_str_rows. apply Forall2_fmap_r, Forall_Forall2_diag.
    apply Forall_forall. intros r _ c Hc. unfold id_columns in Hc.
    rewrite !not_elem_of_cons in Hc. destruct Hc as (H1 & H2 & H3 & _).
    by rewrite !cell_to_str_other.
  - intros args t i st result Hres Hframe. eexists _, _.
    rewrite upload_eq. split; [reflexivity|].
    rewrite result_of_upload_step, Hres, Hframe, Hemp. done.
Qed.

(** ** Fan-out and fan-in *)

Lemma flat_map_ext_elem {A B} (f g : A → list B) (l : list A) :
  (∀ k, k ∈ l → f k = g k) → flat_map f l = flat_map g l.
Proof.
  induction l as [|x l IH]; intros H; [done|]. simpl.
  rewrite (H x) by left. rewrite IH; [done|]. intros k Hk. apply H. by right.
Qed.

Lemma filter_ext_elem {A} (f g : A → bool) (l : list A) :
  (∀ k, k ∈ l → f k = g k) → filter (λ k, f k) l = filter (λ k, g k) l.
Proof.
  induction l as [|x l IH]; intros H; [done|].
  rewrite !filter_cons, (H x) by left. rewrite IH; [done|].
  intros k Hk. apply H. by right.
Qed.

Section FanOut.

Variable repr_float : Q → string.
Variable bq : bigquery.
Variable args : Args.

#[local] Arguments upload_step : simpl never.
#[local] Arguments consume_step : simpl never.

Lemma failure_line_attempt table_id first df w :
  failure_line (attempt_line repr_float bq table_id first df w) = false.
Proof. unfold attempt_line. by destruct (bq (length (jobs w))). Qed.

Lemma failure_line_report (text : string) :
  failure_line ("❌ Сбой в потоке: " +:+ text) = true.
Proof. unfold failure_line. simpl. by destruct text. Qed.

Lemma count_failures_snoc out line :
  count_failures (out ++ [line]) =
  count_failures out + (if failure_line line then 1 else 0).
Proof.
  unfold count_failures. rewrite filter_app, length_app. f_equal.
  rewrite filter_cons, filter_nil. by destruct (failure_line line).
Qed.

Lemma upload_step_trace t i st w :
  let sw' := upload_step repr_float bq args t i (st, w) in
  map job_key (jobs sw'.2) =
    map job_key (jobs w) ++
    match result_of i st with
    | Some result =>
        if df_empty (frame_for t result) then []
        else [(tbl args t, ids_to_str repr_float (frame_for t result))]
    | None => []
    end ∧
  count_failures (stdout sw'.2) = count_failures (stdout w).
Proof.
  unfold upload_step.
  destruct (result_of i st) as [result|]; [|by rewrite app_nil_r].
  destruct (df_empty (frame_for t result)); [by rewrite app_nil_r|]. simpl.
  rewrite map_app, count_failures_snoc, failure_line_attempt. simpl.
  split; [done|lia].
Qed.

Lemma consume_step_lookup sw i k :
  k ≠ i → futures (consume_step repr_float bq args sw i).1 !! k = futures sw.1 !! k.
Proof.
  intros Hk. unfold consume_step.
  destruct (futures sw.1 !! i) as [fut|]; [|done].
  destruct (fut_outcome fut) as [[e|code]|result]; [done..|].
  destruct sw as [st w].
  destruct (upload_step repr_float bq args Main i (st, w)) as [st1 w1] eqn:E1.
  destruct (upload_step repr_float bq args Geo i (st1, w1)) as [st2 w2] eqn:E2.
  rewrite upload_step_lookup, decide_False by done.
  replace st2 with (upload_step repr_float bq args Geo i (st1, w1)).1 by (by rewrite E2).
  rewrite upload_step_lookup, decide_False by done.
  replace st1 with (upload_step repr_float bq args Main i (st, w)).1 by (by rewrite E1).
  by rewrite upload_step_lookup, decide_False by done.
Qed.

Lemma consume_step_trace sw i :
  no_exit_futures (futures sw.1) →
  let sw' := consume_step repr_float bq args sw i in
  map job_key (jobs sw'.2) =
    map job_key (jobs sw.2) ++ deliveries_at repr_float args (futures sw.1) i ∧
  count_failures (stdout sw'.2) =
    count_failures (stdout sw.2) + (if failed_at (futures sw.1) i then 1 else 0).
Proof.
  intros Hne. destruct sw as [st w]. simpl.
  unfold consume_step, deliveries_at, failed_at, failed. simpl.
  destruct (futures st !! i) as [fut|] eqn:Hfut; simpl;
    [|rewrite app_nil_r; split; [done|lia]].
  destruct (fut_outcome fut) as [[e|code]|result] eqn:Hout; simpl.
  - rewrite count_failures_snoc, failure_line_report, app_nil_r. done.
  - exfalso. unfold no_exit_futures in Hne. rewrite Forall_lookup in Hne.
    by eapply Hne.
  - assert (Hres : result_of i st = Some result) by (unfold result_of; by rewrite Hfut, Hout).
    pose proof (upload_step_trace Main i st w) as [Hj1 Hc1].
    pose proof (result_of_upload_step repr_float bq args Main i st w) as Hr1.
    rewrite Hres in Hj1, Hr1.
    destruct (upload_step repr_float bq args Main i (st, w)) as [st1 w1]. simpl in *.
    pose proof (upload_step_trace Geo i st1 w1) as [Hj2 Hc2].
    pose proof (result_of_upload_step repr_float bq args Geo i st1 w1) as Hr2.
    rewrite Hr1 in Hj2, Hr2.
    destruct (upload_step repr_float bq args Geo i (st1, w1)) as [st2 w2]. simpl in *.
    pose proof (upload_step_trace Search i st2 w2) as [Hj3 Hc3].
    rewrite Hr2 in Hj3.
    destruct (upload_step repr_float bq args Search i (st2, w2)) as [st3 w3]. simpl in *.
    split; [|lia].
    rewrite Hj3, Hj2, Hj1. unfold deliveries. simpl.
    destruct (df_empty (camp result)) eqn:E1; simpl;
      destruct (df_empty (geo result)) eqn:E2; simpl;
      destruct (df_empty (search result)) eqn:E3; simpl;
      rewrite ?E1, ?E2, ?E3, <- ?app_assoc, ?app_nil_r; done.
Qed.

Lemma run_lookup order sw k :
  k ∉ order →
  futures (foldl (consume_step repr_float bq args) sw order).1 !! k = futures sw.1 !! k.
Proof.
  revert sw. induction order as [|i order IH]; intros sw Hk; [done|].
  apply not_elem_of_cons in Hk as [Hki Hk]. simpl.
  rewrite IH by done. by apply consume_step_lookup.
Qed.

Lemma run_no_exit order sw :
  no_exit_futures (futures sw.1) →
  no_exit_futures (futures (foldl (consume_step repr_float bq args) sw order).1).
Proof.
  revert sw. induction order as [|i order IH]; intros sw H; [done|].
  simpl. apply IH. destruct sw. by apply consume_step_no_exit.
Qed.

Lemma run_trace order sw :
  NoDup order → no_exit_futures (futures sw.1) →
  let sw' := foldl (consume_step repr_float bq args) sw order in
  map job_key (jobs sw'.2) =
    map job_key (jobs sw.2) ++
    flat_map (deliveries_at repr_float args (futures sw.1)) order ∧
  count_failures (stdout sw'.2) =
    count_failures (stdout sw.2) +
    length (filter (λ i, failed_at (futures sw.1) i) order).
Proof.
  intros Hnd. revert sw. induction Hnd as [|i order Hi Hnd IH]; intros sw Hne.
  - simpl. rewrite app_nil_r. split; [done|lia].
  - simpl. destruct (consume_step_trace sw i Hne) as [Hj Hc].
    assert (Hne' : no_exit_futures (futures (consume_step repr_float bq args sw i).1))
      by (destruct sw; by apply consume_step_no_exit).
    destruct (IH _ Hne') as [Hj' Hc'].
    assert (Hsame : ∀ k, k ∈ order →
              futures (consume_step repr_float bq args sw i).1 !! k = futures sw.1 !! k).
    { intros k Hk. apply consume_step_lookup. by intros ->. }
    rewrite Hj', Hj, Hc', Hc, <- app_assoc, filter_cons. split.
    + f_equal. f_equal. apply flat_map_ext_elem. intros k Hk.
      unfold deliveries_at. by rewrite Hsame.
    + assert (Hlen : length (filter (λ i0, failed_at
                  (futures (consume_step repr_float bq args sw i).1) i0) order) =
                length (filter (λ i0, failed_at (futures sw.1) i0) order)).
      { f_equal. apply filter_ext_elem. intros k Hk.
        unfold failed_at. by rewrite Hsame. }
      rewrite Hlen. destruct (failed_at (futures sw.1) i); simpl; lia.
Qed.

End FanOut.

Lemma filter_split_length {A} (f : A → bool) (l : list A) :
  length (filter (λ x, f x) l) + length (filter (λ x, negb (f x)) l) = length l.
Proof.
  induction l as [|x l IH]; [done|]. rewrite !filter_cons.
  destruct (f x); simpl; lia.
Qed.

Lemma failed_at_app_l fs x i : i < length fs → failed_at (fs ++ [x]) i = failed_at fs i.
Proof. intros H. unfold failed_at. by rewrite lookup_app_l. Qed.

Lemma count_failed_seq (fs : list Future) :
  length (filter (λ i, failed_at fs i) (seq 0 (length fs))) =
  length (filter (λ fut, failed fut) fs).
Proof.
  induction fs as [|x fs IH] using rev_ind; [done|].
  rewrite length_app. simpl. rewrite Nat.add_1_r, seq_S, !filter_app, !length_app. simpl.
  rewrite <- IH. f_equal.
  - f_equal. apply filter_ext_elem. intros k Hk%elem_of_seq.
    apply failed_at_app_l. by destruct Hk as [_ Hk].
  - rewrite !filter_cons, !filter_nil. unfold failed_at.
    rewrite lookup_app_r, Nat.sub_diag by done. simpl. by destruct (failed x).
Qed.

Lemma count_failed_permutation (fs : list Future) (order : list nat) :
  Permutation order (seq 0 (length fs)) →
  length (filter (λ i, failed_at fs i) order) = length (filter (λ fut, failed fut) fs).
Proof. intros H. rewrite <- count_failed_seq. by rewrite H. Qed.

(** C2. Every account is submitted once, in the order of the account list.
    When the futures are consumed, each exactly once and in any order, the
    loop runs once per account and ends normally; it reports exactly the [K]
    futures that raised, one line each; and it hands to the sink writer,
    in completion order, the frames of the other [N - K] accounts that are
    not empty. *)
Theorem fan_out_isolates_failures (repr_float : Q → string) (bq : bigquery) (args : Args)
    (client : service) (accounts : list Account) (s_str e_str : string)
    (order : list nat) (out : list string) :
  Permutation order (seq 0 (length accounts)) →
  let fs := map (λ acc, submit client acc s_str e_str) accounts in
  let K := length (filter (λ fut, failed fut) fs) in
  map fut_account fs = accounts ∧
  length order = length accounts ∧
  ∃ st' w',
    consume_all repr_float bq args order (initial_driver fs)
                {| stdout := out; jobs := [] |} = (inr st', w') ∧
    count_failures (stdout w') = count_failures out + K ∧
    length (filter (λ i, negb (failed_at fs i)) order) = length accounts - K ∧
    map job_key (jobs w') = flat_map (deliveries_at repr_float args fs) order.
Proof.
  intros Hperm fs K.
  assert (Hlen : length fs = length accounts) by apply length_map.
  split; [unfold fs; rewrite map_map; apply map_id|].
  split; [by rewrite Hperm, length_seq|].
  assert (Hne : no_exit_futures (futures (initial_driver fs)))
    by apply no_exit_futures_submit.
  eexists _, _. split; [by apply consume_all_eq|].
  assert (Hnd : NoDup order) by (rewrite Hperm; apply NoDup_seq).
  destruct (run_trace repr_float bq args order
              (initial_driver fs, {| stdout := out; jobs := [] |}) Hnd Hne) as [Hj Hc].
  simpl in Hj, Hc. rewrite <- Hlen in Hperm.
  pose proof (count_failed_permutation fs order Hperm) as HK. fold K in HK.
  split; [by rewrite Hc, HK|]. split; [|done].
  pose proof (filter_split_length (failed_at fs) order) as Hsplit.
  assert (Hord : length order = length fs) by (by rewrite Hperm, length_seq).
  rewrite HK in Hsplit. lia.
Qed.

(** ** The exit code *)

Lemma handle_eq (ex : GoogleAdsFailure) (customer_id context : string) (w : world) :
  _handle_google_ads_exception ex customer_id context w =
  (inr tt, printed [handled_line ex customer_id context] w).
Proof.
  unfold _handle_google_ads_exception, handled_line.
  destruct (failure_errors ex); [destruct (error_code ex)|]; done.
Qed.

Lemma printed_printed (l1 l2 : list string) (w : world) :
  printed l2 (printed l1 w) = printed (l1 ++ l2) w.
Proof. unfold printed. simpl. by rewrite app_assoc. Qed.

Lemma print_eq (line : string) (w : world) : print line w = (inr tt, printed [line] w).
Proof. done. Qed.

(** Discovery, case by case. *)
Lemma get_active_client_accounts_eq (client : service) (mcc : string) (w : world) :
  get_active_client_accounts client mcc w =
  let start := "🔍 Поиск активных аккаунтов в MCC " +:+ mcc +:+ "..." in
  match failure (client mcc query_customer_client) with
  | None =>
      let d := discovered (List.concat (batches (client mcc query_customer_client))) in
      (inr (map (λ kv, {| acc_id := kv.1; acc_name := kv.2 |}) d),
       printed [start; "   Всего найдено аккаунтов: " +:+ pretty (length d)] w)
  | Some (GoogleAdsException ex) =>
      (inl (SystemExit 1), printed [start; handled_line ex mcc "поиска клиентов"] w)
  | Some e => (inl (Raised e), printed [start] w)
  end.
Proof.
  unfold get_active_client_accounts, results, try_except_ads, mbind, M_bind, bind.
  rewrite print_eq.
  destruct (failure (client mcc query_customer_client)) as [[ex|msg|msg]|]; simpl;
    rewrite ?handle_eq; unfold printed; simpl; by rewrite <- ?app_assoc.
Qed.

Section ExitCode.

Variable repr_float : Q → string.
Variable args : Args.
Variable env : Environment.

Lemma main_missing_key (w : world) :
  key_file_exists env = false →
  main repr_float args env w =
  (inl (SystemExit 1),
   printed ["Ошибка: Файл ключа " +:+ key_file args +:+ " не найден."] w).
Proof. intros H. unfold main, mbind, M_bind, bind. by rewrite H. Qed.

Lemma main_client_error (w : world) (e : exn) :
  key_file_exists env = true → load_client env = inl e →
  main repr_float args env w =
  (inl (SystemExit 1), printed ["❌ Ошибка инициализации клиента: " +:+ exn_text e] w).
Proof. intros H1 H2. unfold main, mbind, M_bind, bind. by rewrite H1, H2. Qed.

Lemma main_discovery_error (w : world) (e : exn) :
  discovery_error args env e →
  main repr_float args env w =
  (inl (match e with GoogleAdsException _ => SystemExit 1 | _ => Raised e end),
   printed (["✅ Клиент инициализирован. MCC Context: " +:+ mcc_id args;
             "📅 Период: " +:+ (window env).1 +:+ " - " +:+ (window env).2 +:+ " (90 дней)";
             "🔍 Поиск активных аккаунтов в MCC " +:+ mcc_id args +:+ "..."]
            ++ match e with
               | GoogleAdsException ex => [handled_line ex (mcc_id args) "поиска клиентов"]
               | _ => []
               end) w).
Proof.
  intros (H1 & client & H2 & H3). unfold main, mbind, M_bind, bind.
  rewrite H1, H2. simpl. destruct (window env) as [s_str e_str]. simpl.
  rewrite get_active_client_accounts_eq, H3.
  destruct e as [ex|msg|msg]; unfold printed; simpl; by rewrite <- ?app_assoc.
Qed.

Lemma main_completes (w : world) (client : service) :
  key_file_exists env = true → load_client env = inr client →
  failure (client (mcc_id args) query_customer_client) = None →
  ∃ st w', main repr_float args env w = (inr st, w').
Proof.
  intros H1 H2 H3. unfold main, mbind, M_bind, bind.
  rewrite H1, H2. simpl. destruct (window env) as [s_str e_str]. simpl.
  rewrite get_active_client_accounts_eq, H3. simpl.
  rewrite consume_all_eq by apply no_exit_futures_submit. simpl. by eexists _, _.
Qed.

(** C5. The script ends with status 1 exactly when the key file is missing,
    building the client raises, or the discovery stream raises, and with
    status 0 otherwise, whatever the accounts' extractions and the loads do.
    After a discovery error the script has no futures, has made no load
    attempt, and has printed only the lines of setup and discovery. *)
Theorem exit_code_setup_and_discovery (w : world) :
  let r := main repr_float args env w in
  (exit_code r.1 = 1%Z ↔ setup_error env ∨ ∃ e, discovery_error args env e) ∧
  (exit_code r.1 = 0%Z ↔ ¬ (setup_error env ∨ ∃ e, discovery_error args env e)) ∧
  (∀ e, discovery_error args env e →
     (∀ st, r.1 ≠ inr st) ∧
     jobs r.2 = jobs w ∧
     stdout r.2 =
       stdout w ++
       ["✅ Клиент инициализирован. MCC Context: " +:+ mcc_id args;
        "📅 Период: " +:+ (window env).1 +:+ " - " +:+ (window env).2 +:+ " (90 дней)";
        "🔍 Поиск активных аккаунтов в MCC " +:+ mcc_id args +:+ "..."]
       ++ match e with
          | GoogleAdsException ex => [handled_line ex (mcc_id args) "поиска клиентов"]
          | _ => []
          end).
Proof.
  intros r. unfold r.
  assert (Hcases :
    (exit_code (main repr_float args env w).1 = 1%Z ∧
       (setup_error env ∨ ∃ e, discovery_error args env e)) ∨
    (exit_code (main repr_float args env w).1 = 0%Z ∧
       ¬ (setup_error env ∨ ∃ e, discovery_error args env e))).
  { destruct (key_file_exists env) eqn:H1.
    - destruct (load_client env) as [e|client] eqn:H2.
      + left. rewrite (main_client_error w e H1 H2). split; [done|]. left. right. by exists e.
      + destruct (failure (client (mcc_id args) query_customer_client)) as [e|] eqn:H3.
        * left. assert (Hd : discovery_error args env e) by (split; [done|by exists client]).
          rewrite (main_discovery_error w e Hd). split; [by destruct e|]. right. by exists e.
        * right. destruct (main_completes w client H1 H2 H3) as (st & w' & ->).
          split; [done|]. intros [[Hk|[e He]]|[e (_ & client' & Hc & Hf)]]; try congruence.
    - left. rewrite (main_missing_key w H1). split; [done|]. left. by left. }
  split; [|split].
  - destruct Hcases as [[H1 H2]|[H1 H2]]; [done|]. rewrite H1. split; [done|]. intros H. done.
  - destruct Hcases as [[H1 H2]|[H1 H2]]; [|done]. rewrite H1. split; [done|]. intros H. done.
  - intros e Hd. rewrite (main_discovery_error w e Hd). simpl.
    split; [done|]. done.
Qed.

End ExitCode.

(** ** Empty data *)

Lemma results_ok (resp : stream) (w : world) :
  failure resp = None → results resp w = (inr (List.concat (batches resp)), w).
Proof. intros H. unfold results. by rewrite H. Qed.

(** C7, for the single-account script.  When its four queries deliver no
    row, [load_all_campaign_data] does not reach its check for an empty
    frame: selecting the measure columns of the concatenated frame, which has
    no column, raises KeyError.  No load is attempted and the line that
    reports missing data is not printed. *)
Theorem ga_client_empty_data_raises (client : service) (bq : bigquery)
    (customer_id project_id table_id start_date_str end_date_str : string) (w : world) :
  (∀ q, q ∈ [query_std start_date_str end_date_str;
             query_std_conv start_date_str end_date_str;
             query_general start_date_str end_date_str;
             query_conv start_date_str end_date_str] →
        failure (client customer_id q) = None ∧
        List.concat (batches (client customer_id q)) = []) →
  ga_client_download_data.load_all_campaign_data
    client bq customer_id project_id table_id start_date_str end_date_str w =
  (inl (Raised (KeyError "not in index")),
   printed ["
1. Запрос данных по стандартным кампаниям и группам из Google Ads API...";
            "Получено 0 строк с данными по кликам и стоимости для стандартных кампаний.";
            "Получено 0 строк с данными по конверсиям для стандартных кампаний.";
            "2. Объединение данных по стандартным кампаниям...";
            "
1.1. Запрос данных по кампаниям Performance Max из Google Ads API...";
            "Данные по Performance Max не найдены.";
            "3. Объединение данных стандартных и Performance Max кампаний..."] w).
Proof.
  intros H.
  destruct (H (query_std start_date_str end_date_str)) as [F1 B1]; [set_solver|].
  destruct (H (query_std_conv start_date_str end_date_str)) as [F2 B2]; [set_solver|].
  destruct (H (query_general start_date_str end_date_str)) as [F3 B3]; [set_solver|].
  destruct (H (query_conv start_date_str end_date_str)) as [F4 B4]; [set_solver|].
  unfold ga_client_download_data.load_all_campaign_data,
    ga_client_download_data.load_pmax_data, try_except_ads, mbind, M_bind, bind.
  rewrite !print_eq, !results_ok, B1 by done. simpl.
  rewrite !results_ok, B2 by done. simpl.
  rewrite !results_ok, B3 by done. simpl.
  rewrite !results_ok, B4 by done. simpl.
  unfold printed. simpl. by rewrite <- !app_assoc.
Qed.

(** ** Outer joins *)

Section Merge.

Variables (left right : DataFrame) (on : list string).

Lemma cell_union (l r : row) (c : string) :
  cell (l ∪ r) c = match l !! c with Some v => v | None => cell r c end.
Proof.
  unfold cell. rewrite lookup_union. destruct (l !! c), (r !! c); done.
Qed.

Lemma same_key_cells (l r : row) (c : string) :
  same_key on l r = true → c ∈ on → cell l c = cell r c.
Proof.
  unfold same_key, key_of. intros H%bool_decide_eq_true Hc.
  induction on as [|c' on' IH]; [by apply elem_of_nil in Hc|].
  simpl in H. injection H as H1 H2.
  apply elem_of_cons in Hc as [->|Hc]; [done|by apply IH].
Qed.

Lemma key_of_union (l r : row) :
  same_key on l r = true → key_of on (l ∪ r) = key_of on l.
Proof.
  intros H. unfold key_of. apply map_ext_in. intros c Hc%list_elem_of_In.
  rewrite cell_union. destruct (l !! c) as [v|] eqn:E.
  - unfold cell. by rewrite E.
  - rewrite <- (same_key_cells l r c H Hc). unfold cell. by rewrite E.
Qed.

Lemma same_key_true (l r : row) : same_key on l r = true ↔ key_of on l = key_of on r.
Proof. unfold same_key. apply bool_decide_eq_true. Qed.

(** The rows of an outer join, by origin. *)
Lemma merge_outer_rows (x : row) :
  x ∈ rows (merge_outer left right on) ↔
  (∃ l r, l ∈ rows left ∧ r ∈ rows right ∧ same_key on l r = true ∧ x = l ∪ r) ∨
  (∃ l, l ∈ rows left ∧ (∀ r, r ∈ rows right → same_key on l r = false) ∧ x = l) ∨
  (x ∈ rows right ∧ ∀ l, l ∈ rows left → same_key on l x = false).
Proof.
  unfold merge_outer. simpl. rewrite elem_of_app. split.
  - intros [H|H].
    + apply list_elem_of_In, in_flat_map in H as (l & Hl%list_elem_of_In & Hx).
      destruct (filter (λ r, same_key on l r) (rows right)) as [|r0 rs] eqn:E.
      * right. left. exists l. split; [done|]. split.
        -- intros r Hr. destruct (same_key on l r) eqn:Hs; [|done].
           assert (Hin : r ∈ filter (λ r, same_key on l r) (rows right)).
           { apply list_elem_of_filter. split; [by rewrite Hs|done]. }
           rewrite E in Hin. by apply elem_of_nil in Hin.
        -- simpl in Hx. by destruct Hx.
      * left. apply list_elem_of_In in Hx.
        change (x ∈ (λ r : row, l ∪ r) <$> (r0 :: rs)) in Hx.
        apply list_elem_of_fmap in Hx as (r & -> & Hr).
        rewrite <- E in Hr. apply list_elem_of_filter in Hr as [Hs Hr].
        exists l, r. repeat split; try done. by apply Is_true_true.
    + apply list_elem_of_filter in H as [Hall Hx]. right. right. split; [done|].
      intros l Hl. apply Is_true_true in Hall. rewrite forallb_forall in Hall.
      apply list_elem_of_In, Hall in Hl. by apply negb_true_iff.
  - intros [(l & r & Hl & Hr & Hs & ->)|[(l & Hl & Hnone & ->)|[Hx Hnone]]].
    + left. apply list_elem_of_In, in_flat_map. exists l.
      split; [by apply list_elem_of_In|].
      assert (Hin : r ∈ filter (λ r, same_key on l r) (rows right)).
      { apply list_elem_of_filter. split; [by rewrite Hs|done]. }
      destruct (filter (λ r, same_key on l r) (rows right)) as [|r0 rs];
        [by apply elem_of_nil in Hin|].
      apply list_elem_of_In. change ((l ∪ r) ∈ (λ r : row, l ∪ r) <$> (r0 :: rs)).
      apply list_elem_of_fmap. by exists r.
    + left. apply list_elem_of_In, in_flat_map. exists l.
      split; [by apply list_elem_of_In|].
      destruct (filter (λ r, same_key on l r) (rows right)) as [|r0 rs] eqn:E;
        [by left|].
      assert (Hin : r0 ∈ filter (λ r, same_key on l r) (rows right))
        by (rewrite E; left).
      apply list_elem_of_filter in Hin as [Hs Hr]. rewrite (Hnone r0 Hr) in Hs. done.
    + right. apply list_elem_of_filter. split; [|done].
      apply Is_true_true, forallb_forall. intros l Hl%list_elem_of_In.
      by rewrite (Hnone l Hl).
Qed.


End Merge.

(** ** Frames built from records *)

Lemma union_columns_nil (ks : list string) : union_columns [] ks = ks.
Proof.
  unfold union_columns. simpl. induction ks as [|k ks IH]; [done|].
  rewrite filter_cons_True by apply not_elem_of_nil. by rewrite IH.
Qed.

Lemma filter_not_elem_nil (ks l : list string) :
  (∀ c, c ∈ l → c ∈ ks) → filter (λ c, c ∉ ks) l = [].
Proof.
  induction l as [|c l IH]; intros H; [done|].
  rewrite filter_cons_False by (intros Hc; apply Hc, H; left).
  apply IH. intros c' Hc'. apply H. by right.
Qed.

Lemma union_columns_self (ks : list string) : union_columns ks ks = ks.
Proof. unfold union_columns. rewrite filter_not_elem_nil by done. apply app_nil_r. Qed.

Lemma frame_of_records_columns (ks : list string) (recs : list record) :
  Forall (λ rec, rec.*1 = ks) recs →
  columns (frame_of_records recs) = match recs with [] => [] | _ => ks end.
Proof.
  intros Hall. unfold frame_of_records. cbn [columns].
  destruct Hall as [|rec recs Hrec Hall]; [done|]. cbn [foldl].
  rewrite Hrec, union_columns_nil. clear Hrec.
  induction Hall as [|rec' recs Hrec' Hall IH]; [done|]. cbn [foldl].
  by rewrite Hrec', union_columns_self.
Qed.

Lemma frame_of_records_rows (recs : list record) :
  rows (frame_of_records recs) = map (λ rec, list_to_map rec : row) recs.
Proof. done. Qed.

Lemma std_frame_columns account_name budgets rows_std :
  columns (std_frame account_name budgets rows_std) =
  match rows_std with [] => [] | _ => std_columns end.
Proof.
  unfold std_frame. rewrite (frame_of_records_columns std_columns).
  - by destruct rows_std.
  - apply Forall_forall. by intros rec [r [-> _]]%list_elem_of_fmap.
Qed.

Lemma std_conv_frame_columns rows_conv :
  columns (std_conv_frame rows_conv) =
  match rows_conv with [] => [] | _ => std_conv_columns end.
Proof.
  unfold std_conv_frame. rewrite (frame_of_records_columns std_conv_columns).
  - by destruct rows_conv.
  - apply Forall_forall. by intros rec [r [-> _]]%list_elem_of_fmap.
Qed.

Lemma pmax_frame_columns account_name rows_gen :
  columns (pmax_frame account_name rows_gen) =
  match rows_gen with [] => [] | _ => std_columns end.
Proof.
  unfold pmax_frame. rewrite (frame_of_records_columns std_columns).
  - by destruct rows_gen.
  - apply Forall_forall. by intros rec [r [-> _]]%list_elem_of_fmap.
Qed.

Lemma pmax_conv_frame_columns rows_conv :
  columns (pmax_conv_frame rows_conv) =
  match rows_conv with [] => [] | _ => pmax_conv_columns end.
Proof.
  unfold pmax_conv_frame. rewrite (frame_of_records_columns pmax_conv_columns).
  - by destruct rows_conv.
  - apply Forall_forall. by intros rec [r [-> _]]%list_elem_of_fmap.
Qed.

Lemma df_empty_iff (df : DataFrame) :
  df_empty df = false ↔ columns df ≠ [] ∧ rows df ≠ [].
Proof. unfold df_empty. destruct (columns df), (rows df); naive_solver. Qed.

Lemma std_frame_empty account_name budgets rows_std :
  df_empty (std_frame account_name budgets rows_std) = bool_decide (rows_std = []).
Proof.
  unfold df_empty. rewrite std_frame_columns. by destruct rows_std.
Qed.

Lemma std_conv_frame_empty rows_conv :
  df_empty (std_conv_frame rows_conv) = bool_decide (rows_conv = []).
Proof.
  unfold df_empty. rewrite std_conv_frame_columns. by destruct rows_conv.
Qed.

Lemma pmax_frame_empty account_name rows_gen :
  df_empty (pmax_frame account_name rows_gen) = bool_decide (rows_gen = []).
Proof.
  unfold df_empty. rewrite pmax_frame_columns. by destruct rows_gen.
Qed.

Lemma pmax_conv_frame_empty rows_conv :
  df_empty (pmax_conv_frame rows_conv) = bool_decide (rows_conv = []).
Proof.
  unfold df_empty. rewrite pmax_conv_frame_columns. by destruct rows_conv.
Qed.

(** ** Filling after the concatenation *)

Lemma cell_fill_cell (c c' : string) (v : value) (x : row) :
  cell (fill_cell c v x) c' =
  if decide (c = c') then (if isna (cell x c) then v else cell x c) else cell x c'.
Proof.
  unfold fill_cell. case_decide as Hc.
  - subst c'. destruct (isna (cell x c)); [apply cell_insert_eq|done].
  - destruct (isna (cell x c)); [by apply cell_insert_ne|done].
Qed.

Lemma has_column_ext (c : string) (df df' : DataFrame) :
  columns df' = columns df → has_column c df' = has_column c df.
Proof. unfold has_column. by intros ->. Qed.

Lemma fill_present_spec (v : value) (cols : list string) (df : DataFrame) :
  let df' := foldl (λ d col, if has_column col d then fillna col v d else d) df cols in
  columns df' = columns df ∧
  rows df' = map (λ x, foldl (λ x col, if has_column col df then fill_cell col v x else x)
                             x cols) (rows df).
Proof.
  induction cols as [|col cols IH] using rev_ind.
  - simpl. split; [done|]. symmetry. apply map_id.
  - simpl in *. rewrite foldl_snoc. destruct IH as [Hc Hr].
    rewrite (has_column_ext col df _ Hc).
    destruct (has_column col df) eqn:Hcol.
    + simpl. split; [done|]. rewrite Hr, map_map. apply map_ext. intros x.
      by rewrite foldl_snoc, Hcol.
    + split; [done|]. rewrite Hr. apply map_ext. intros x. by rewrite foldl_snoc, Hcol.
Qed.

Lemma finish_campaign_data_rows (customer_id : string) (a b : DataFrame) :
  df_empty (concat a b) = false →
  rows (finish_campaign_data customer_id a b) =
  map (finish_row customer_id (concat a b)) (rows a ++ rows b).
Proof.
  intros Hemp. unfold finish_campaign_data. rewrite Hemp. cbn [negb].
  destruct (fill_present_spec (VInt 0) cols_zero (concat a b)) as [Hc Hr].
  set (filled := foldl _ (concat a b) cols_zero) in *.
  assert (Hst : has_column "campaign_status" (set_column "customer_id" (VStr customer_id) filled)
                = has_column "campaign_status" (concat a b)).
  { unfold has_column, set_column. cbn [columns]. rewrite Hc.
    destruct (has_column "customer_id" filled); [done|].
    apply bool_decide_ext. rewrite elem_of_app, list_elem_of_singleton. naive_solver. }
  rewrite Hst. unfold finish_row.
  destruct (has_column "campaign_status" (concat a b)); cbn [rows fillna set_column];
    rewrite Hr, ?map_map; done.
Qed.

Lemma finish_campaign_data_columns (customer_id : string) (a b : DataFrame) (c : string) :
  c ≠ "customer_id" →
  c ∈ columns (finish_campaign_data customer_id a b) ↔ c ∈ columns (concat a b).
Proof.
  intros Hne. unfold finish_campaign_data.
  destruct (df_empty (concat a b)); [done|]. cbn [negb].
  destruct (fill_present_spec (VInt 0) cols_zero (concat a b)) as [Hc _].
  set (filled := foldl _ (concat a b) cols_zero) in *.
  assert (Hset : c ∈ columns (set_column "customer_id" (VStr customer_id) filled)
                 ↔ c ∈ columns (concat a b)).
  { unfold set_column. cbn [columns]. rewrite Hc.
    destruct (has_column "customer_id" filled); [done|].
    rewrite elem_of_app, list_elem_of_singleton. naive_solver. }
  by destruct (has_column "campaign_status" _).
Qed.

Lemma cell_fill_cell_eq (c : string) (v : value) (x : row) :
  cell (fill_cell c v x) c = if isna (cell x c) then v else cell x c.
Proof. rewrite cell_fill_cell. by rewrite decide_True. Qed.

Lemma cell_fill_cell_ne (c c' : string) (v : value) (x : row) :
  c ≠ c' → cell (fill_cell c v x) c' = cell x c'.
Proof. intros H. rewrite cell_fill_cell. by rewrite decide_False. Qed.

Ltac cell_step :=
  first [ rewrite cell_insert_ne by done
        | rewrite cell_fill_cell_ne by done
        | rewrite cell_fill_cell_eq
        | rewrite cell_insert_eq ].

Lemma finish_row_measure (customer_id : string) (df : DataFrame) (x : row) (c : string) :
  c ∈ cols_zero → c ∈ columns df →
  cell (finish_row customer_id df x) c = if isna (cell x c) then VInt 0 else cell x c.
Proof.
  intros Hc Hin. unfold finish_row, cols_zero in *. cbn [foldl].
  assert (Hhas : has_column c df = true) by (by apply bool_decide_eq_true_2).
  rewrite !elem_of_cons in Hc.
  destruct Hc as [->|[->|[->|[->|[->|Hnil]]]]]; [..|by apply elem_of_nil in Hnil];
    rewrite Hhas;
    repeat (match goal with
            | |- context [if has_column ?col df then _ else _] =>
                destruct (has_column col df)
            end);
    repeat cell_step; done.
Qed.

(** A cell that the fills do not concern is the cell of the concatenation. *)
Lemma finish_row_other (customer_id : string) (df : DataFrame) (x : row) (c : string) :
  c ∉ cols_zero → c ≠ "customer_id" → c ≠ "campaign_status" →
  cell (finish_row customer_id df x) c = cell x c.
Proof.
  intros Hc H1 H2. unfold finish_row, cols_zero in *. cbn [foldl].
  rewrite !not_elem_of_cons in Hc. destruct Hc as (? & ? & ? & ? & ? & _).
  repeat (match goal with
          | |- context [if has_column ?col df then _ else _] =>
              destruct (has_column col df)
          end);
    repeat cell_step; done.
Qed.

(** ** How often a key occurs in a join *)

Lemma filter_all {A} (P : A → Prop) `{∀ x, Decision (P x)} (l : list A) :
  (∀ x, x ∈ l → P x) → filter P l = l.
Proof.
  induction l as [|x l IH]; intros Hall; [done|].
  rewrite filter_cons_True by (apply Hall; left). f_equal. apply IH.
  intros y Hy. apply Hall. by right.
Qed.

Lemma filter_none {A} (P : A → Prop) `{∀ x, Decision (P x)} (l : list A) :
  (∀ x, x ∈ l → ¬ P x) → filter P l = [].
Proof.
  induction l as [|x l IH]; intros Hall; [done|].
  rewrite filter_cons_False by (apply Hall; left). apply IH.
  intros y Hy. apply Hall. by right.
Qed.

Lemma filter_map_key {A} (g : A → row) (k : A → list value) (on : list string)
    (κ : list value) (l : list A) :
  (∀ a, key_of on (g a) = k a) →
  filter (λ x, key_of on x = κ) (map g l) = map g (filter (λ a, k a = κ) l).
Proof.
  intros Hk. induction l as [|a l IH]; [done|]. simpl.
  rewrite !filter_cons, Hk, IH. by destruct (decide (k a = κ)).
Qed.

Section Multiplicity.

Variables (left right : DataFrame) (on : list string) (κ : list value).

Lemma filter_key_paired (cs : list row) (L : list row) :
  filter (λ r, key_of on r = κ) (rows right) = cs → cs ≠ [] →
  filter (λ x, key_of on x = κ)
         (flat_map (λ l : row,
                      match filter (λ r, same_key on l r) (rows right) with
                      | [] => [l]
                      | rs => map (λ r : row, l ∪ r) rs
                      end) L)
  = flat_map (λ l : row, map (λ r : row, l ∪ r) cs) (filter (λ l, key_of on l = κ) L).
Proof.
  intros Hcs Hne. induction L as [|l L IH]; [done|].
  cbn [flat_map]. rewrite filter_app, IH, filter_cons.
  destruct (decide (key_of on l = κ)) as [Hl|Hl].
  - cbn [flat_map]. f_equal.
    assert (Hsame : filter (λ r, same_key on l r) (rows right) = cs).
    { rewrite <- Hcs. apply list_filter_iff. intros r.
      rewrite Is_true_true, same_key_true. split; congruence. }
    rewrite Hsame. destruct cs as [|c cs']; [done|].
    apply filter_all. intros x [r [-> Hr]]%list_elem_of_fmap.
    rewrite key_of_union; [done|]. apply same_key_true. rewrite Hl.
    assert (Hin : r ∈ filter (λ r, key_of on r = κ) (rows right)) by (by rewrite Hcs).
    by apply list_elem_of_filter in Hin as [-> _].
  - rewrite <- (app_nil_l (flat_map _ _)) at 2. f_equal.
    apply filter_none. intros x Hx.
    destruct (filter (λ r, same_key on l r) (rows right)) as [|r0 rs] eqn:E.
    + apply list_elem_of_singleton in Hx as ->. done.
    + change (x ∈ (λ r : row, l ∪ r) <$> (r0 :: rs)) in Hx.
      apply list_elem_of_fmap in Hx as [r [-> Hr]]. rewrite <- E in Hr.
      apply list_elem_of_filter in Hr as [Hs%Is_true_true _].
      by rewrite key_of_union.
Qed.

(** A key that one left row and the right rows [cs] carry occurs in the join
    once for each row of [cs], every time with the cells of the left row. *)
Lemma merge_outer_multiplicity (m : row) (cs : list row) :
  filter (λ l, key_of on l = κ) (rows left) = [m] →
  filter (λ r, key_of on r = κ) (rows right) = cs → cs ≠ [] →
  filter (λ x, key_of on x = κ) (rows (merge_outer left right on)) =
  map (λ r : row, m ∪ r) cs.
Proof.
  intros Hm Hcs Hne. unfold merge_outer. cbn [rows].
  rewrite filter_app, (filter_key_paired cs) by done. rewrite Hm. cbn [flat_map].
  rewrite app_nil_r. rewrite <- (app_nil_r (map _ cs)) at 2. f_equal.
  apply filter_none. intros r [Hun Hr]%list_elem_of_filter Hk.
  assert (Hin : m ∈ filter (λ l, key_of on l = κ) (rows left)) by (rewrite Hm; left).
  apply list_elem_of_filter in Hin as [Hmk Hml].
  apply Is_true_true in Hun. rewrite forallb_forall in Hun.
  apply list_elem_of_In, Hun, negb_true_iff in Hml.
  assert (Hs : same_key on m r = true) by (apply same_key_true; congruence).
  congruence.
Qed.

End Multiplicity.

Lemma key_of_fill_cell (on : list string) (c : string) (v : value) (x : row) :
  c ∉ on → key_of on (fill_cell c v x) = key_of on x.
Proof.
  intros Hc. unfold key_of. apply map_ext_in. intros c' Hc'%list_elem_of_In.
  apply cell_fill_cell_ne. by intros ->.
Qed.

Lemma filter_key_fillna (on : list string) (κ : list value) (c : string) (v : value)
    (df : DataFrame) :
  c ∉ on →
  filter (λ x, key_of on x = κ) (rows (fillna c v df)) =
  map (fill_cell c v) (filter (λ x, key_of on x = κ) (rows df)).
Proof.
  intros Hc. cbn [rows fillna]. induction (rows df) as [|x l IH]; [done|]. simpl.
  rewrite !filter_cons, key_of_fill_cell, IH by done.
  by destruct (decide (key_of on x = κ)).
Qed.

Lemma std_record_key account_name budgets (r : GoogleAdsRow) :
  key_of std_on (list_to_map (std_record account_name budgets r)) = std_key r.
Proof. reflexivity. Qed.

Lemma std_conv_record_key (r : GoogleAdsRow) :
  key_of std_on (list_to_map (std_conv_record r)) = std_key r.
Proof. reflexivity. Qed.

Lemma pmax_record_key account_name (r : GoogleAdsRow) :
  key_of pmax_on (list_to_map (pmax_record account_name r)) = pmax_key r.
Proof. reflexivity. Qed.

Lemma pmax_conv_record_key (r : GoogleAdsRow) :
  key_of pmax_on (list_to_map (pmax_conv_record r)) = pmax_key r.
Proof. reflexivity. Qed.

Lemma std_frame_rows account_name budgets rows_std :
  rows (std_frame account_name budgets rows_std) =
  map (λ r, list_to_map (std_record account_name budgets r) : row) rows_std.
Proof. unfold std_frame. by rewrite frame_of_records_rows, map_map. Qed.

Lemma std_conv_frame_rows rows_conv :
  rows (std_conv_frame rows_conv) =
  map (λ r, list_to_map (std_conv_record r) : row) rows_conv.
Proof. unfold std_conv_frame. by rewrite frame_of_records_rows, map_map. Qed.

Lemma pmax_frame_rows account_name rows_gen :
  rows (pmax_frame account_name rows_gen) =
  map (λ r, list_to_map (pmax_record account_name r) : row) rows_gen.
Proof. unfold pmax_frame. by rewrite frame_of_records_rows, map_map. Qed.

Lemma pmax_conv_frame_rows rows_conv :
  rows (pmax_conv_frame rows_conv) =
  map (λ r, list_to_map (pmax_conv_record r) : row) rows_conv.
Proof. unfold pmax_conv_frame. by rewrite frame_of_records_rows, map_map. Qed.

Lemma combine_std_joined account_name budgets rows_std rows_conv (w : world) :
  rows_std ≠ [] → rows_conv ≠ [] →
  combine_std account_name (std_frame account_name budgets rows_std)
              (std_conv_frame rows_conv) w =
  (inr (fillna "account_name" (VStr account_name)
          (merge_outer (std_frame account_name budgets rows_std)
                       (std_conv_frame rows_conv) std_on)), w).
Proof.
  intros H1 H2. unfold combine_std.
  rewrite std_frame_empty, std_conv_frame_empty, !bool_decide_eq_false_2 by done.
  cbn [andb]. unfold getitem, has_column, merge_outer. cbn [columns].
  rewrite std_frame_columns. destruct rows_std; [done|]. done.
Qed.

Lemma combine_pmax_joined account_name rows_gen rows_conv :
  rows_gen ≠ [] → rows_conv ≠ [] →
  combine_pmax account_name (pmax_frame account_name rows_gen)
               (pmax_conv_frame rows_conv) =
  fillna "account_name" (VStr account_name)
    (merge_outer (pmax_frame account_name rows_gen) (pmax_conv_frame rows_conv) pmax_on).
Proof.
  intros H1 H2. unfold combine_pmax.
  rewrite pmax_frame_empty, pmax_conv_frame_empty, !bool_decide_eq_false_2 by done.
  cbn [andb]. unfold has_column, merge_outer. cbn [columns].
  rewrite pmax_frame_columns. destruct rows_gen; [done|]. done.
Qed.

Lemma column_sum_repeated (c : string) (v : value) (hits : list row) :
  Forall (λ x, cell x c = v) hits →
  (column_sum c hits == inject_Z (Z.of_nat (length hits)) * num v)%Q.
Proof.
  induction 1 as [|x hits Hx _ IH].
  - simpl. ring.
  - cbn [column_sum foldr length]. fold (column_sum c hits).
    rewrite IH, Hx, Nat2Z.inj_succ, <- Z.add_1_r, inject_Z_plus. ring.
Qed.

Lemma key_repeats_holds (on : list string) (joined : DataFrame) (κ : list value)
    (m : GoogleAdsRow) (cs : list GoogleAdsRow) (budget : value) (hits : list row) :
  filter (λ x, key_of on x = κ) (rows joined) = hits →
  length hits = length cs →
  Forall (λ x, cell x "clicks" = VInt (metrics_clicks m) ∧
               cell x "impressions" = VInt (metrics_impressions m) ∧
               cell x "cost" = VFloat (div_1000000 (metrics_cost_micros m)) ∧
               cell x "daily_budget" = budget) hits →
  key_repeats on joined κ m cs budget.
Proof.
  intros Hhits Hlen Hcells. unfold key_repeats. cbn zeta. rewrite Hhits.
  split; [done|]. split; [done|]. rewrite <- Hlen. repeat split.
  - apply (column_sum_repeated "clicks" (VInt (metrics_clicks m))).
    eapply Forall_impl; [exact Hcells|]. naive_solver.
  - apply (column_sum_repeated "impressions" (VInt (metrics_impressions m))).
    eapply Forall_impl; [exact Hcells|]. naive_solver.
  - apply (column_sum_repeated "cost" (VFloat (div_1000000 (metrics_cost_micros m)))).
    eapply Forall_impl; [exact Hcells|]. naive_solver.
  - apply (column_sum_repeated "daily_budget" budget).
    eapply Forall_impl; [exact Hcells|]. naive_solver.
Qed.

(** C9. When the conversions query delivers the rows [cs] (one or more) for
    a key for which the metrics query delivered the one row [m], the joined
    frame has one row per row of [cs] for that key, each of these rows carries
    the clicks, impressions, cost and daily budget of [m], and the sum of any
    of these columns over the rows of the key is the value of [m] times the
    number of rows of [cs].  The same holds for the join of the PMax frames. *)
Theorem conversions_repeat_metrics (account_name : string) (budgets : gmap string Q)
    (rows_metrics rows_conv : list GoogleAdsRow) (κ : list value)
    (m : GoogleAdsRow) (cs : list GoogleAdsRow) (w : world) :
  cs ≠ [] →
  (filter (λ r, std_key r = κ) rows_metrics = [m] →
   filter (λ r, std_key r = κ) rows_conv = cs →
   ∃ final_std,
     combine_std account_name (std_frame account_name budgets rows_metrics)
                 (std_conv_frame rows_conv) w = (inr final_std, w) ∧
     key_repeats std_on final_std κ m cs (budget_get budgets (str (campaign_id m)))) ∧
  (filter (λ r, pmax_key r = κ) rows_metrics = [m] →
   filter (λ r, pmax_key r = κ) rows_conv = cs →
   key_repeats pmax_on
     (combine_pmax account_name (pmax_frame account_name rows_metrics)
                   (pmax_conv_frame rows_conv))
     κ m cs (VFloat (div_1000000 (campaign_budget_amount_micros m)))).
Proof.
  intros Hne. split.
  - intros Hm Hcs.
    assert (Hstd : rows_metrics ≠ []) by (intros ->; done).
    assert (Hconv : rows_conv ≠ []) by (intros ->; apply Hne; by rewrite <- Hcs).
    eexists. split; [by apply combine_std_joined|].
    eapply key_repeats_holds.
    + rewrite filter_key_fillna by (unfold std_on; set_solver).
      rewrite (merge_outer_multiplicity _ _ _ _
                 (list_to_map (std_record account_name budgets m))
                 (map (λ r, list_to_map (std_conv_record r)) cs)); [reflexivity|..].
      * rewrite std_frame_rows.
        rewrite (filter_map_key _ std_key) by apply std_record_key. by rewrite Hm.
      * rewrite std_conv_frame_rows.
        rewrite (filter_map_key _ std_key) by apply std_conv_record_key. by rewrite Hcs.
      * by destruct cs.
    + by rewrite !length_map.
    + apply Forall_forall. intros x Hx.
      apply list_elem_of_fmap in Hx as [x1 [-> Hx]].
      apply list_elem_of_fmap in Hx as [x2 [-> _]].
      rewrite !cell_fill_cell_ne by done. rewrite !cell_union. done.
  - intros Hm Hcs.
    assert (Hgen : rows_metrics ≠ []) by (intros ->; done).
    assert (Hconv : rows_conv ≠ []) by (intros ->; apply Hne; by rewrite <- Hcs).
    rewrite combine_pmax_joined by done.
    eapply key_repeats_holds.
    + rewrite filter_key_fillna by (unfold pmax_on; set_solver).
      rewrite (merge_outer_multiplicity _ _ _ _
                 (list_to_map (pmax_record account_name m))
                 (map (λ r, list_to_map (pmax_conv_record r)) cs)); [reflexivity|..].
      * rewrite pmax_frame_rows.
        rewrite (filter_map_key _ pmax_key) by apply pmax_record_key. by rewrite Hm.
      * rewrite pmax_conv_frame_rows.
        rewrite (filter_map_key _ pmax_key) by apply pmax_conv_record_key. by rewrite Hcs.
      * by destruct cs.
    + by rewrite !length_map.
    + apply Forall_forall. intros x Hx.
      apply list_elem_of_fmap in Hx as [x1 [-> Hx]].
      apply list_elem_of_fmap in Hx as [x2 [-> _]].
      rewrite !cell_fill_cell_ne by done. rewrite !cell_union. done.
Qed.

(** ** What the join and the fills keep *)

Lemma key_of_finish_row (on : list string) (customer_id : string) (df : DataFrame) (y : row) :
  (∀ c, c ∈ on → c ∉ cols_zero ∧ c ≠ "customer_id" ∧ c ≠ "campaign_status") →
  key_of on (finish_row customer_id df y) = key_of on y.
Proof.
  intros H. unfold key_of. apply map_ext_in. intros c Hc%list_elem_of_In.
  destruct (H c Hc) as (H1 & H2 & H3). by apply finish_row_other.
Qed.

Lemma std_on_untouched c :
  c ∈ std_on → c ∉ cols_zero ∧ c ≠ "customer_id" ∧ c ≠ "campaign_status".
Proof.
  unfold std_on, cols_zero. intros Hc. rewrite !elem_of_cons in Hc.
  destruct Hc as [->|[->|[->|H]]]; [..|by apply elem_of_nil in H];
    rewrite !not_elem_of_cons; repeat split; try done; apply not_elem_of_nil.
Qed.


(** In the output no measure column that exists holds a null. *)
Lemma finish_never_null (customer_id : string) (a b : DataFrame) (x : row) (c : string) :
  x ∈ rows (finish_campaign_data customer_id a b) → c ∈ cols_zero →
  c ∈ columns (finish_campaign_data customer_id a b) →
  isna (cell x c) = false.
Proof.
  intros Hx Hc Hcol.
  assert (Hne : c ≠ "customer_id").
  { intros ->. unfold cols_zero in Hc. rewrite !elem_of_cons in Hc.
    destruct Hc as [?|[?|[?|[?|[?|H]]]]]; try done. by apply elem_of_nil in H. }
  apply finish_campaign_data_columns in Hcol; [|done].
  destruct (df_empty (concat a b)) eqn:Hemp.
  - unfold finish_campaign_data in Hx. rewrite Hemp in Hx. cbn [negb] in Hx.
    unfold df_empty in Hemp. destruct (columns (concat a b)); [by apply elem_of_nil in Hcol|].
    destruct (rows (concat a b)); [by apply elem_of_nil in Hx|done].
  - rewrite finish_campaign_data_rows in Hx by done.
    apply list_elem_of_fmap in Hx as [y [-> _]].
    rewrite finish_row_measure by done. by destruct (cell y c).
Qed.

Section Joined.

Variables (left right : DataFrame) (on : list string) (c0 : string) (v0 : value).



End Joined.


Lemma fill_cell_keeps (c c' : string) (v : value) (x : row) :
  isna (cell x c') = false → cell (fill_cell c v x) c' = cell x c'.
Proof.
  intros H. rewrite cell_fill_cell. case_decide as Hc; [|done]. subst c'. by rewrite H.
Qed.

Lemma nonempty_elem {A} (l : list A) : l ≠ [] → ∃ x, x ∈ l.
Proof. destruct l as [|x l]; [done|]. exists x. left. Qed.

Section JoinPolicy.

Variables (gl gr : GoogleAdsRow → row) (key : GoogleAdsRow → list value).
Variables (on : list string) (lcols rcols : list string).
Variables (rows_metrics rows_conv : list GoogleAdsRow).
Variables (account_name customer_id : string) (A B : DataFrame).

Variables (L R joined : DataFrame).

Hypothesis left_rows : rows L = map gl rows_metrics.
Hypothesis left_columns : columns L = lcols.
Hypothesis right_rows : rows R = map gr rows_conv.
Hypothesis right_columns : columns R = rcols.
Hypothesis joined_eq :
  joined = fillna "account_name" (VStr account_name) (merge_outer L R on).

Hypothesis key_left : ∀ r, key_of on (gl r) = key r.
Hypothesis key_right : ∀ r, key_of on (gr r) = key r.
Hypothesis on_untouched :
  ∀ c, c ∈ on → c ∉ cols_zero ∧ c ≠ "customer_id" ∧ c ≠ "campaign_status".
Hypothesis on_not_name : "account_name" ∉ on.
Hypothesis left_cells : ∀ m,
  gl m !! "clicks" = Some (VInt (metrics_clicks m)) ∧
  gl m !! "impressions" = Some (VInt (metrics_impressions m)) ∧
  gl m !! "cost" = Some (VFloat (div_1000000 (metrics_cost_micros m))) ∧
  gl m !! "conversions" = None ∧ gl m !! "conversion_name" = None.
Hypothesis right_cells : ∀ ρ,
  gr ρ !! "conversions" = Some (VFloat (metrics_conversions ρ)) ∧
  gr ρ !! "conversion_name" = Some (VStr (segments_conversion_action_name ρ)) ∧
  gr ρ !! "clicks" = None ∧ gr ρ !! "impressions" = None ∧
  gr ρ !! "cost" = None ∧ gr ρ !! "daily_budget" = None.
Hypothesis measures_left : ∀ c, c ∈ ["clicks"; "impressions"; "cost"; "daily_budget"] → c ∈ lcols.
Hypothesis measures_right : "conversions" ∈ rcols ∧ "conversions" ∉ on.
Hypothesis rows_in : ∀ y, y ∈ rows joined → y ∈ rows A ++ rows B.
Hypothesis cols_in : ∀ c, c ∈ columns joined → c ∈ columns (concat A B).
Hypothesis some_metrics : rows_metrics ≠ [].






End JoinPolicy.

(** ** The join policy of the extractor *)

Lemma elem_of_union_columns (c : string) (a b : list string) :
  c ∈ union_columns a b ↔ c ∈ a ∨ c ∈ b.
Proof.
  unfold union_columns. rewrite elem_of_app, list_elem_of_filter.
  destruct (decide (c ∈ a)); naive_solver.
Qed.


(** ** Errors of the source in the sub-tasks *)

Lemma get_geo_data_for_account_eq client customer_id account_name s e (w : world) :
  get_geo_data_for_account client customer_id account_name s e w =
  match failure (client customer_id (query_geo s e)) with
  | None =>
      (inr (frame_of_records
              (map (geo_record account_name customer_id)
                   (List.concat (batches (client customer_id (query_geo s e)))))), w)
  | Some (GoogleAdsException ex) =>
      (inr empty_frame, printed [handled_line ex customer_id "GEO"] w)
  | Some e0 => (inl (Raised e0), w)
  end.
Proof.
  unfold get_geo_data_for_account, try_except_ads, results, mbind, M_bind, bind.
  destruct (failure _) as [[ex|msg|msg]|]; simpl; try done. by rewrite handle_eq.
Qed.

Lemma get_search_query_data_for_account_eq client customer_id account_name s e (w : world) :
  get_search_query_data_for_account client customer_id account_name s e w =
  match failure (client customer_id (query_search s e)) with
  | None =>
      (inr (frame_of_records
              (map (search_record account_name customer_id)
                   (List.concat (batches (client customer_id (query_search s e)))))), w)
  | Some (GoogleAdsException ex) =>
      (inr empty_frame, printed [handled_line ex customer_id "Search Query"] w)
  | Some e0 => (inl (Raised e0), w)
  end.
Proof.
  unfold get_search_query_data_for_account, try_except_ads, results, mbind, M_bind, bind.
  destruct (failure _) as [[ex|msg|msg]|]; simpl; try done. by rewrite handle_eq.
Qed.

Lemma load_pmax_data_eq client customer_id account_name s e (w : world) :
  load_pmax_data client customer_id account_name s e w =
  match failure (client customer_id (query_general s e)) with
  | Some (GoogleAdsException ex) =>
      (inr empty_frame, printed [handled_line ex customer_id "PMax"] w)
  | Some e0 => (inl (Raised e0), w)
  | None =>
      match failure (client customer_id (query_conv s e)) with
      | Some (GoogleAdsException ex) =>
          (inr empty_frame, printed [handled_line ex customer_id "PMax"] w)
      | Some e0 => (inl (Raised e0), w)
      | None =>
          (inr (combine_pmax account_name
                  (pmax_frame account_name
                     (List.concat (batches (client customer_id (query_general s e)))))
                  (pmax_conv_frame
                     (List.concat (batches (client customer_id (query_conv s e)))))), w)
      end
  end.
Proof.
  unfold load_pmax_data, try_except_ads, results, mbind, M_bind, bind.
  destruct (failure (client customer_id (query_general s e))) as [[ex|msg|msg]|]; simpl;
    try done; [by rewrite handle_eq|].
  destruct (failure (client customer_id (query_conv s e))) as [[ex|msg|msg]|]; simpl;
    try done. by rewrite handle_eq.
Qed.

Lemma get_all_campaign_data_for_account_eq client customer_id account_name s e (w : world) :
  get_all_campaign_data_for_account client customer_id account_name s e w =
  let budgets := read_budgets (client customer_id query_budgets) in
  let continue := campaign_data_from client customer_id account_name s e in
  let line ex := handled_line ex customer_id "Standard Campaigns" in
  match failure (client customer_id query_budgets) with
  | Some (KeyError msg) => (inl (Raised (KeyError msg)), w)
  | Some (OtherException msg) => (inl (Raised (OtherException msg)), w)
  | _ =>
      match failure (client customer_id (query_std s e)) with
      | Some (GoogleAdsException ex) =>
          continue empty_frame empty_frame (printed [line ex] w)
      | Some e0 => (inl (Raised e0), w)
      | None =>
          let std_df :=
            std_frame account_name budgets
                      (List.concat (batches (client customer_id (query_std s e)))) in
          match failure (client customer_id (query_std_conv s e)) with
          | Some (GoogleAdsException ex) => continue std_df empty_frame (printed [line ex] w)
          | Some e0 => (inl (Raised e0), w)
          | None =>
              continue std_df
                (std_conv_frame
                   (List.concat (batches (client customer_id (query_std_conv s e))))) w
          end
      end
  end.
Proof.
  unfold get_all_campaign_data_for_account, campaign_data_from, try_except_ads,
    try_except_ads_locals, results, mbind, M_bind, bind.
  cbn [block].
  destruct (failure (client customer_id query_budgets)) as [[exb|msg|msg]|]; simpl;
    try done;
    (destruct (failure (client customer_id (query_std s e))) as [[ex|msg|msg]|]; simpl;
     try done; [by rewrite handle_eq|];
     destruct (failure (client customer_id (query_std_conv s e))) as [[ex|msg|msg]|]; simpl;
     try done; by rewrite handle_eq).
Qed.

(** A failure of the budget lookup with a GoogleAdsException leaves no trace:
    the function behaves as if the stream had ended after the rows it
    delivered. *)
Lemma budget_error_is_silent client customer_id account_name s e (w : world) ex :
  failure (client customer_id query_budgets) = Some (GoogleAdsException ex) →
  get_all_campaign_data_for_account client customer_id account_name s e w =
  get_all_campaign_data_for_account
    (answering client customer_id query_budgets
               (ending_normally (client customer_id query_budgets)))
    customer_id account_name s e w.
Proof.
  intros Hb.
  set (client' := answering client customer_id query_budgets
                    (ending_normally (client customer_id query_budgets))).
  assert (Hb' : client' customer_id query_budgets
                = ending_normally (client customer_id query_budgets)).
  { unfold client', answering. by rewrite decide_True. }
  assert (Hq : ∀ q, q ≠ query_budgets → client' customer_id q = client customer_id q).
  { intros q Hq. unfold client', answering. rewrite decide_False; [done|]. naive_solver. }
  assert (Hcont : ∀ a b w1,
            campaign_data_from client' customer_id account_name s e a b w1
            = campaign_data_from client customer_id account_name s e a b w1).
  { intros a b w1. unfold campaign_data_from, mbind, M_bind, bind.
    destruct (combine_std account_name a b w1) as [[x|final_std] w2]; [done|].
    rewrite !load_pmax_data_eq.
    by rewrite (Hq (query_general s e)), (Hq (query_conv s e)). }
  rewrite !get_all_campaign_data_for_account_eq. cbn zeta.
  rewrite Hb', Hb, (Hq (query_std s e)), (Hq (query_std_conv s e)) by done.
  cbn [failure ending_normally]. unfold read_budgets. cbn [batches].
  destruct (failure (client customer_id (query_std s e))) as [[ex1|msg|msg]|];
    rewrite ?Hcont; try done.
  destruct (failure (client customer_id (query_std_conv s e))) as [[ex2|msg|msg]|];
    rewrite ?Hcont; done.
Qed.

Lemma std_frame_nil account_name budgets : std_frame account_name budgets [] = empty_frame.
Proof. done. Qed.

Lemma std_conv_frame_nil : std_conv_frame [] = empty_frame.
Proof. done. Qed.

Lemma combine_std_returns account_name budgets rows_std rows_conv (w : world) :
  ∃ final_std,
    combine_std account_name (std_frame account_name budgets rows_std)
                (std_conv_frame rows_conv) w = (inr final_std, w).
Proof.
  destruct (decide (rows_std = [])) as [->|H1]; destruct (decide (rows_conv = [])) as [->|H2].
  - by eexists.
  - unfold combine_std. rewrite std_frame_empty, std_conv_frame_empty.
    rewrite bool_decide_eq_true_2, bool_decide_eq_false_2 by done. by eexists.
  - unfold combine_std. rewrite std_frame_empty, std_conv_frame_empty.
    rewrite bool_decide_eq_false_2, bool_decide_eq_true_2 by done. by eexists.
  - eexists. by apply combine_std_joined.
Qed.

Lemma load_pmax_data_returns client customer_id account_name s e (w : world) :
  ads_error_or_none (client customer_id (query_general s e)) →
  ads_error_or_none (client customer_id (query_conv s e)) →
  ∃ final_pmax lines,
    load_pmax_data client customer_id account_name s e w = (inr final_pmax, printed lines w).
Proof.
  unfold ads_error_or_none. intros H1 H2. rewrite load_pmax_data_eq.
  assert (Hw : w = printed [] w) by (destruct w; unfold printed; simpl; by rewrite app_nil_r).
  destruct (failure (client customer_id (query_general s e))) as [[ex|msg|msg]|];
    try done; [by eexists _, _|].
  destruct (failure (client customer_id (query_conv s e))) as [[ex|msg|msg]|];
    try done; [by eexists _, _|].
  eexists _, []. by rewrite <- Hw.
Qed.

Lemma campaign_data_from_returns client customer_id account_name s e budgets
    rows_std rows_conv (w : world) :
  ads_error_or_none (client customer_id (query_general s e)) →
  ads_error_or_none (client customer_id (query_conv s e)) →
  ∃ df lines,
    campaign_data_from client customer_id account_name s e
      (std_frame account_name budgets rows_std) (std_conv_frame rows_conv) w
    = (inr df, printed lines w).
Proof.
  intros H1 H2. unfold campaign_data_from, mbind, M_bind, bind.
  destruct (combine_std_returns account_name budgets rows_std rows_conv w) as [f ->].
  destruct (load_pmax_data_returns client customer_id account_name s e w H1 H2)
    as (p & lines & ->).
  by eexists _, _.
Qed.



Lemma append_assoc (a b c : string) : (a +:+ b) +:+ c = a +:+ (b +:+ c).
Proof.
  induction a as [|x a IH]; [done|].
  change (String x ((a +:+ b) +:+ c) = String x (a +:+ (b +:+ c))). by rewrite IH.
Qed.

Lemma handled_line_names (ex : GoogleAdsFailure) (customer_id context : string) :
  names customer_id (handled_line ex customer_id context).
Proof.
  unfold names, handled_line.
  destruct (match failure_errors ex with
            | [] => match error_code ex with
                    | Some name => (name, ads_text ex)
                    | None => ("UNKNOWN", "Неизвестная ошибка: " +:+ ads_text ex)
                    end
            | e :: _ => (error_code_name e, message e)
            end) as [code text].
  exists ("⚠️ Ошибка " +:+ context +:+ " для аккаунта "), (": " +:+ code +:+ " | " +:+ text).
  by rewrite !append_assoc.
Qed.



(** ** What is reported *)

Lemma combine_std_world account_name std_df conv_df (w : world) :
  (combine_std account_name std_df conv_df w).2 = w.
Proof.
  unfold combine_std, getitem, mbind, M_bind, bind.
  repeat (match goal with |- context [if ?b then _ else _] => destruct b end); done.
Qed.

Lemma load_pmax_data_prints client customer_id account_name s e (w : world) :
  ∃ lines, (load_pmax_data client customer_id account_name s e w).2 = printed lines w.
Proof.
  assert (Hw : w = printed [] w) by (destruct w; unfold printed; simpl; by rewrite app_nil_r).
  rewrite load_pmax_data_eq.
  destruct (failure (client customer_id (query_general s e))) as [[ex|msg|msg]|];
    try (by exists []); [by eexists|].
  destruct (failure (client customer_id (query_conv s e))) as [[ex|msg|msg]|];
    try (by exists []). by eexists.
Qed.

Lemma campaign_data_from_prints client customer_id account_name s e a b (w : world) :
  ∃ lines,
    (campaign_data_from client customer_id account_name s e a b w).2 = printed lines w.
Proof.
  unfold campaign_data_from, mbind, M_bind, bind.
  pose proof (combine_std_world account_name a b w) as Hw.
  destruct (combine_std account_name a b w) as [[x|final_std] w1]; simpl in Hw; subst w1.
  - exists []. destruct w; unfold printed; simpl; by rewrite app_nil_r.
  - destruct (load_pmax_data_prints client customer_id account_name s e w) as [lines Hl].
    exists lines.
    by destruct (load_pmax_data client customer_id account_name s e w) as [[x|p] w2].
Qed.

(** C8, as amended.  A GoogleAdsException caught in a sub-task query of the
    geography, search-term, PMax or standard sub-task is reported in a line
    that names the account; a failed load is reported in a line that names
    the table; a future that raised is reported in a line that carries the
    text of the exception; a GoogleAdsException of the budget lookup is
    caught without any line. *)
Theorem recovered_errors_are_logged (repr_float : Q → string) (bq : bigquery) (args : Args)
    (client : service) (customer_id account_name s e : string) (w : world)
    (ex : GoogleAdsFailure) :
  (failure (client customer_id (query_geo s e)) = Some (GoogleAdsException ex) →
   ∃ line, stdout (get_geo_data_for_account client customer_id account_name s e w).2
           = stdout w ++ [line] ∧ names customer_id line) ∧
  (failure (client customer_id (query_search s e)) = Some (GoogleAdsException ex) →
   ∃ line, stdout (get_search_query_data_for_account client customer_id account_name s e w).2
           = stdout w ++ [line] ∧ names customer_id line) ∧
  (failure (client customer_id (query_general s e)) = Some (GoogleAdsException ex) ∨
   (failure (client customer_id (query_general s e)) = None ∧
    failure (client customer_id (query_conv s e)) = Some (GoogleAdsException ex)) →
   ∃ line, stdout (load_pmax_data client customer_id account_name s e w).2
           = stdout w ++ [line] ∧ names customer_id line) ∧
  (ads_error_or_none (client customer_id query_budgets) →
   failure (client customer_id (query_std s e)) = Some (GoogleAdsException ex) ∨
   (failure (client customer_id (query_std s e)) = None ∧
    failure (client customer_id (query_std_conv s e)) = Some (GoogleAdsException ex)) →
   ∃ line rest,
     stdout (get_all_campaign_data_for_account client customer_id account_name s e w).2
     = stdout w ++ line :: rest ∧ names customer_id line) ∧
  (∀ df project_id table_id first err,
     df_empty df = false → bq (length (jobs w)) = Some err →
     ∃ line w',
       stream_to_bigquery repr_float bq df project_id table_id first w
       = (inr (false, ids_to_str repr_float df), w') ∧
       stdout w' = stdout w ++ [line] ∧ names table_id line) ∧
  (∀ st i fut exc,
     futures st !! i = Some fut → fut_outcome fut = inl (Raised exc) →
     consume repr_float bq args st i w
     = (inr st, printed ["❌ Сбой в потоке: " +:+ exn_text exc] w)) ∧
  (failure (client customer_id query_budgets) = Some (GoogleAdsException ex) →
   get_all_campaign_data_for_account client customer_id account_name s e w =
   get_all_campaign_data_for_account
     (answering client customer_id query_budgets
                (ending_normally (client customer_id query_budgets)))
     customer_id account_name s e w).
Proof.
  split; [|split; [|split; [|split; [|split; [|split]]]]].
  - intros H. rewrite get_geo_data_for_account_eq, H. eexists. split; [done|].
    apply handled_line_names.
  - intros H. rewrite get_search_query_data_for_account_eq, H. eexists. split; [done|].
    apply handled_line_names.
  - intros [H|[H1 H2]]; rewrite load_pmax_data_eq, ?H, ?H1, ?H2;
      (eexists; split; [done|apply handled_line_names]).
  - intros Hb Hs. rewrite get_all_campaign_data_for_account_eq. cbn zeta.
    unfold ads_error_or_none in Hb.
    assert (Hcont : ∀ a b,
      ∃ rest,
        stdout (campaign_data_from client customer_id account_name s e a b
                  (printed [handled_line ex customer_id "Standard Campaigns"] w)).2
        = stdout w ++ handled_line ex customer_id "Standard Campaigns" :: rest).
    { intros a b.
      destruct (campaign_data_from_prints client customer_id account_name s e a b
                  (printed [handled_line ex customer_id "Standard Campaigns"] w))
        as [lines ->].
      exists lines. unfold printed. simpl. by rewrite <- app_assoc. }
    destruct Hs as [Hs|[Hs Hc]]; rewrite Hs, ?Hc;
      destruct (failure (client customer_id query_budgets)) as [[exb|msg|msg]|];
      try done;
      match goal with
      | |- context [campaign_data_from _ _ _ _ _ ?a ?b _] =>
          destruct (Hcont a b) as [rest Hrest]
      end;
      (eexists _, _; split; [exact Hrest|apply handled_line_names]).
  - intros df project_id table_id first err Hemp Hbq.
    rewrite stream_to_bigquery_eq, Hemp. eexists _, _. split.
    + by rewrite Hbq, bool_decide_eq_false_2.
    + split; [done|]. unfold attempt_line. rewrite Hbq. by eexists _, _.
  - intros st i fut exc Hfut Hout.
    unfold consume, try_except_locals. cbn [block]. unfold future_result.
    by rewrite Hfut, Hout.
  - apply budget_error_is_silent.
Qed.

(** C8, as stated, fails: the budget lookup of the account is rejected, and
    the worker prints its two progress lines and nothing about the error. *)
Lemma budget_error_is_not_reported :
  failure (budget_fails "7" query_budgets) = Some (GoogleAdsException query_error) ∧
  (process_one_account budget_fails {| acc_id := "7"; acc_name := "acc" |}
     "2024-02-01" "2024-05-01" w0).2
  = {| stdout := ["   ⏳ Start: acc"; "   ✅ Done: acc"]; jobs := [] |}.
Proof. split; [reflexivity|]. by vm_compute. Qed.

(** ** Empty data in the manager-account script *)

(** In the manager-account script empty data passes through: an account
    without rows gives three empty frames, and for an empty frame the upload
    step changes neither the flags nor the world. *)
Lemma mcc_empty_data_is_benign (repr_float : Q → string) (bq : bigquery) (args : Args)
    (client : service) (customer_id account_name s e : string) (w : world) :
  (∀ q, failure (client customer_id q) = None ∧
        List.concat (batches (client customer_id q)) = []) →
  get_all_campaign_data_for_account client customer_id account_name s e w
    = (inr empty_frame, w) ∧
  get_geo_data_for_account client customer_id account_name s e w = (inr empty_frame, w) ∧
  get_search_query_data_for_account client customer_id account_name s e w
    = (inr empty_frame, w) ∧
  (∀ df project_id table_id first,
     df_empty df = true →
     stream_to_bigquery repr_float bq df project_id table_id first w = (inr (false, df), w)) ∧
  (∀ t i st result,
     result_of i st = Some result → df_empty (frame_for t result) = true →
     upload repr_float bq args t i st w = (inr st, w)).
Proof.
  intros H. split; [|split; [|split; [|split]]].
  - rewrite get_all_campaign_data_for_account_eq. cbn zeta.
    destruct (H query_budgets) as [-> _]. destruct (H (query_std s e)) as [-> ->].
    destruct (H (query_std_conv s e)) as [-> ->].
    unfold campaign_data_from, mbind, M_bind, bind. cbn.
    rewrite load_pmax_data_eq.
    destruct (H (query_general s e)) as [-> ->]. by destruct (H (query_conv s e)) as [-> ->].
  - rewrite get_geo_data_for_account_eq. by destruct (H (query_geo s e)) as [-> ->].
  - rewrite get_search_query_data_for_account_eq.
    by destruct (H (query_search s e)) as [-> ->].
  - intros df project_id table_id first Hemp. by rewrite stream_to_bigquery_eq, Hemp.
  - intros t i st result Hres Hemp. rewrite upload_eq. unfold upload_step.
    by rewrite Hres, Hemp.
Qed.

(** ** Concrete runs *)


Lemma get_active_client_accounts_dedup_witness :
  failure (same_account_twice "1" query_customer_client) = None ∧
  let found := List.concat (batches (same_account_twice "1" query_customer_client)) in
  ∃ accounts w',
    get_active_client_accounts same_account_twice "1" w0 = (inr accounts, w') ∧
    map acc_id accounts = first_seen (map c_id_of found) ∧
    NoDup (map acc_id accounts) ∧
    (∀ a, a ∈ accounts → last_seen_name (acc_id a) found = Some (acc_name a)).
Proof.
  split; [reflexivity|].
  apply (get_active_client_accounts_dedup same_account_twice "1" w0). reflexivity.
Defined.

Lemma fan_out_isolates_failures_witness :
  Permutation [1; 0] (seq 0 (length two_accounts)) ∧
  let fs := map (λ acc, submit one_account_breaks acc "2024-02-01" "2024-05-01")
                two_accounts in
  let K := length (filter (λ fut, failed fut) fs) in
  map fut_account fs = two_accounts ∧
  length [1; 0] = length two_accounts ∧
  ∃ st' w',
    consume_all sample_repr rejecting sample_args [1; 0] (initial_driver fs)
                {| stdout := []; jobs := [] |} = (inr st', w') ∧
    count_failures (stdout w') = count_failures [] + K ∧
    length (filter (λ i, negb (failed_at fs i)) [1; 0]) = length two_accounts - K ∧
    map job_key (jobs w') = flat_map (deliveries_at sample_repr sample_args fs) [1; 0].
Proof.
  split; [simpl; apply perm_swap|].
  apply (fan_out_isolates_failures sample_repr rejecting sample_args one_account_breaks
           two_accounts "2024-02-01" "2024-05-01" [1; 0] []).
  simpl. apply perm_swap.
Defined.


Lemma ga_client_empty_data_raises_witness :
  (∀ q, q ∈ [query_std "2024-02-01" "2024-05-01"; query_std_conv "2024-02-01" "2024-05-01";
             query_general "2024-02-01" "2024-05-01"; query_conv "2024-02-01" "2024-05-01"] →
        failure (no_data "7" q) = None ∧ List.concat (batches (no_data "7" q)) = []) ∧
  ga_client_download_data.load_all_campaign_data
    no_data rejecting "7" "proj" "proj.ads.campaigns" "2024-02-01" "2024-05-01" w0 =
  (inl (Raised (KeyError "not in index")),
   printed ["
1. Запрос данных по стандартным кампаниям и группам из Google Ads API...";
            "Получено 0 строк с данными по кликам и стоимости для стандартных кампаний.";
            "Получено 0 строк с данными по конверсиям для стандартных кампаний.";
            "2. Объединение данных по стандартным кампаниям...";
            "
1.1. Запрос данных по кампаниям Performance Max из Google Ads API...";
            "Данные по Performance Max не найдены.";
            "3. Объединение данных стандартных и Performance Max кампаний..."] w0).
Proof.
  split; [intros q _; split; reflexivity|].
  apply (ga_client_empty_data_raises no_data rejecting "7" "proj" "proj.ads.campaigns"
           "2024-02-01" "2024-05-01" w0).
  intros q _. split; reflexivity.
Defined.

Lemma conversions_repeat_metrics_witness :
  sample_conversions ≠ [] ∧
  (∃ final_std,
     combine_std "acc" (std_frame "acc" ∅ [sample_metrics])
                 (std_conv_frame sample_conversions) w0 = (inr final_std, w0) ∧
     key_repeats std_on final_std (std_key sample_metrics) sample_metrics sample_conversions
                 (budget_get ∅ (str (campaign_id sample_metrics)))) ∧
  key_repeats pmax_on
    (combine_pmax "acc" (pmax_frame "acc" [sample_metrics])
                  (pmax_conv_frame sample_conversions))
    (pmax_key sample_metrics) sample_metrics sample_conversions
    (VFloat (div_1000000 (campaign_budget_amount_micros sample_metrics))).
Proof.
  split; [discriminate|]. split.
  - apply (proj1 (conversions_repeat_metrics "acc" ∅ [sample_metrics] sample_conversions
                    (std_key sample_metrics) sample_metrics sample_conversions w0
                    ltac:(discriminate))); reflexivity.
  - apply (proj2 (conversions_repeat_metrics "acc" ∅ [sample_metrics] sample_conversions
                    (pmax_key sample_metrics) sample_metrics sample_conversions w0
                    ltac:(discriminate))); reflexivity.
Defined.

Lemma stream_to_bigquery_mutates_ids_witness :
  df_empty sample_geo_frame = false ∧
  let df := sample_geo_frame in
  let df' := ids_to_str sample_repr df in
  ∃ w',
    stream_to_bigquery sample_repr rejecting df "proj" "proj.ads.daily_geo_data" true w0 =
      (inr (bool_decide (rejecting (length (jobs w0)) = None), df'), w') ∧
    (∃ j, jobs w' = jobs w0 ++ [j] ∧ job_frame j = df' ∧
          job_error j = rejecting (length (jobs w0))) ∧
    columns df' = columns df ∧
    (∀ col r, col ∈ id_columns → col ∈ columns df → r ∈ rows df' →
              ∃ s, cell r col = VStr s) ∧
    Forall2 (λ r r' : row, ∀ c, c ∉ id_columns → cell r' c = cell r c)
            (rows df) (rows df') ∧
    (∀ args t i st result,
        result_of i st = Some result → frame_for t result = df →
        ∃ st' w'',
          upload sample_repr rejecting args t i st w0 = (inr st', w'') ∧
          result_of i st' = Some (with_frame t df' result)).
Proof.
  split; [reflexivity|].
  apply (stream_to_bigquery_mutates_ids sample_repr rejecting sample_geo_frame
           "proj" "proj.ads.daily_geo_data" true w0).
  reflexivity.
Defined.


Lemma exit_code_setup_and_discovery_witness :
  discovery_error sample_args discovery_rejected (GoogleAdsException query_error) ∧
  let r := main sample_repr sample_args discovery_rejected w0 in
  exit_code r.1 = 1%Z ∧ (∀ st, r.1 ≠ inr st) ∧ jobs r.2 = [] ∧
  stdout r.2 =
    ["✅ Клиент инициализирован. MCC Context: 1";
     "📅 Период: 2024-02-01 - 2024-05-01 (90 дней)";
     "🔍 Поиск активных аккаунтов в MCC 1...";
     handled_line query_error "1" "поиска клиентов"].
Proof.
  assert (Hd : discovery_error sample_args discovery_rejected
                 (GoogleAdsException query_error)).
  { split; [reflexivity|]. exists all_rejected. split; reflexivity. }
  split; [exact Hd|].
  destruct (exit_code_setup_and_discovery sample_repr sample_args discovery_rejected w0)
    as (H1 & _ & H3).
  cbn zeta in *. split.
  - apply H1. right. by exists (GoogleAdsException query_error).
  - destruct (H3 _ Hd) as (Ha & Hb & Hc). split; [exact Ha|]. split; [exact Hb|exact Hc].
Defined.

Lemma recovered_errors_are_logged_witness :
  (∃ line, stdout (get_geo_data_for_account all_rejected "7" "acc"
                     "2024-02-01" "2024-05-01" w0).2 = stdout w0 ++ [line] ∧
           names "7" line) ∧
  (∃ line rest,
     stdout (get_all_campaign_data_for_account all_rejected "7" "acc"
               "2024-02-01" "2024-05-01" w0).2 = stdout w0 ++ line :: rest ∧
     names "7" line) ∧
  (∃ line w',
     stream_to_bigquery sample_repr rejecting sample_geo_frame "proj"
                        "proj.ads.daily_geo_data" true w0
     = (inr (false, ids_to_str sample_repr sample_geo_frame), w') ∧
     stdout w' = stdout w0 ++ [line] ∧ names "proj.ads.daily_geo_data" line) ∧
  consume sample_repr rejecting sample_args one_failed_future 0 w0
  = (inr one_failed_future, printed ["❌ Сбой в потоке: connection reset"] w0).
Proof.
  destruct (recovered_errors_are_logged sample_repr rejecting sample_args all_rejected
              "7" "acc" "2024-02-01" "2024-05-01" w0 query_error)
    as (H1 & _ & _ & H4 & H5 & H6 & _).
  split; [apply H1; reflexivity|].
  split; [apply H4; [exact I|left; reflexivity]|].
  split.
  { apply (H5 sample_geo_frame "proj" "proj.ads.daily_geo_data" true
              (OtherException "quota exceeded")); reflexivity. }
  apply (H6 one_failed_future 0
            {| fut_account := {| acc_id := "8"; acc_name := "eight" |};
               fut_outcome := inl (Raised (OtherException "connection reset"));
               fut_stdout := [] |}
            (OtherException "connection reset")); reflexivity.
Defined.

(** * Further properties of the scripts *)

Lemma split_slash_not_nil (s : string) : split_slash s ≠ [].
Proof.
  induction s as [|c s IH]; simpl; [done|].
  destruct (Ascii.eqb c "/"); [done|]. by destruct (split_slash s).
Qed.

Lemma split_slash_free (s : string) : has_slash s = false → split_slash s = [s].
Proof.
  induction s as [|c s IH]; simpl; [done|].
  destruct (Ascii.eqb c "/"); simpl; [done|].
  intros H. by rewrite (IH H).
Qed.

Lemma append_nil_l (s : string) : "" +:+ s = s.
Proof. reflexivity. Qed.

Lemma append_cons (c : ascii) (a b : string) : String c a +:+ b = String c (a +:+ b).
Proof. reflexivity. Qed.

Lemma split_slash_app (p s : string) :
  has_slash s = false →
  ∃ init, init ≠ [] ∧ split_slash (p +:+ "/" +:+ s) = init ++ [s].
Proof.
  intros Hs. induction p as [|c p (init & Hne & IH)].
  - exists [""]. split; [done|].
    rewrite append_nil_l, append_cons, append_nil_l. simpl.
    by rewrite (split_slash_free s Hs).
  - rewrite append_cons. simpl. destruct (Ascii.eqb c "/").
    + exists ("" :: init). split; [done|]. by rewrite IH.
    + rewrite IH. destruct init as [|i0 init]; [done|].
      exists (String c i0 :: init). by split.
Qed.

Lemma join_split_slash (s : string) : join_slash (split_slash s) = s.
Proof.
  induction s as [|c s IH]; simpl; [done|].
  destruct (Ascii.eqb_spec c "/") as [->|Hc].
  - pose proof (split_slash_not_nil s) as Hne.
    destruct (split_slash s) as [|piece rest] eqn:E; [done|].
    change (join_slash ("" :: piece :: rest)) with ("" +:+ "/" +:+ join_slash (piece :: rest)).
    by rewrite IH.
  - pose proof (split_slash_not_nil s) as Hne.
    destruct (split_slash s) as [|piece rest] eqn:E; [done|].
    destruct rest as [|piece' rest].
    + simpl in *. by rewrite IH.
    + change (join_slash (String c piece :: piece' :: rest))
        with (String c (piece +:+ "/" +:+ join_slash (piece' :: rest))).
      change (join_slash (piece :: piece' :: rest))
        with (piece +:+ "/" +:+ join_slash (piece' :: rest)) in IH.
      by rewrite IH.
Qed.

Lemma split_slash_pieces (s : string) :
  Forall (λ piece, has_slash piece = false) (split_slash s).
Proof.
  induction s as [|c s IH]; simpl; [by repeat constructor|].
  destruct (Ascii.eqb c "/") eqn:Hc; [by constructor|].
  destruct (split_slash s) as [|piece rest]; [repeat constructor; simpl; by rewrite Hc|].
  inversion IH; subst. constructor; [simpl; by rewrite Hc|done].
Qed.

(** X1. [row.customer_client.client_customer.split('/')[-1]]: joining the
    pieces of the split with slashes gives the resource name back; the
    account id has no slash; it is the whole resource name when that has no
    slash, and otherwise the text after its last slash. *)
Theorem account_id_is_last_segment (row : GoogleAdsRow) :
  join_slash (split_slash (customer_client_client_customer row))
    = customer_client_client_customer row ∧
  has_slash (c_id_of row) = false ∧
  (∀ id, has_slash id = false →
     (customer_client_client_customer row = id → c_id_of row = id) ∧
     (∀ parent, customer_client_client_customer row = parent +:+ "/" +:+ id →
                c_id_of row = id)).
Proof.
  split; [apply join_split_slash|]. split.
  - unfold c_id_of, last_piece.
    pose proof (split_slash_pieces (customer_client_client_customer row)) as H.
    pose proof (split_slash_not_nil (customer_client_client_customer row)) as Hne.
    destruct (split_slash (customer_client_client_customer row)) as [|p ps] using rev_ind;
      [done|].
    rewrite List.last_last. apply Forall_app in H as [_ H]. by inversion H.
  - intros id Hid. unfold c_id_of, last_piece. split.
    + intros ->. by rewrite split_slash_free.
    + intros parent ->. destruct (split_slash_app parent id Hid) as (init & _ & ->).
      by rewrite List.last_last.
Qed.

Lemma read_budgets_lookup (found : list GoogleAdsRow) (cid : Z) :
  foldl (λ d r, <[str (campaign_id r) := div_1000000 (campaign_budget_amount_micros r)]> d)
        (∅ : gmap string Q) found !! str cid
  = div_1000000 <$> last_budget cid found.
Proof.
  unfold last_budget. induction found as [|r found IH] using rev_ind; [done|].
  rewrite foldl_snoc, filter_app, map_app, last_app.
  destruct (decide (campaign_id r = cid)) as [Heq|Hne].
  - rewrite Heq, lookup_insert_eq.
    rewrite (filter_cons_True _ r []) by done. by simpl.
  - rewrite lookup_insert_ne by (unfold str; intros H; apply Hne; by apply (inj pretty)).
    rewrite (filter_cons_False _ r []) by done. simpl. apply IH.
Qed.

(** X2. The budget of a campaign in [campaign_budgets] is the amount, divided
    by 1000000, of the last row that the budget stream delivered for the
    campaign, also when the stream raised after delivering it; a campaign
    without such a row gets the int 0; and this is what a row of the standard
    metrics query carries as [daily_budget]. *)
Theorem daily_budget_is_last_reported (resp_b : stream) (account_name : string)
    (r : GoogleAdsRow) :
  let budgets := read_budgets resp_b in
  let reported := last_budget (campaign_id r) (List.concat (batches resp_b)) in
  budget_get budgets (str (campaign_id r)) =
    match reported with
    | Some amount_micros => VFloat (div_1000000 amount_micros)
    | None => VInt 0
    end ∧
  cell (list_to_map (std_record account_name budgets r)) "daily_budget" =
    budget_get budgets (str (campaign_id r)).
Proof.
  split; [|reflexivity].
  unfold budget_get, read_budgets. rewrite read_budgets_lookup.
  by destruct (last_budget _ _).
Qed.

Lemma first_seen_size (ids : list string) :
  length (first_seen ids) = size (list_to_set ids : gset string).
Proof.
  rewrite <- (size_list_to_set (C := gset string)) by apply first_seen_NoDup.
  f_equal. apply set_eq. intros x. rewrite !elem_of_list_to_set. apply first_seen_elem.
Qed.

Lemma first_seen_length (ids : list string) :
  (length (first_seen ids) ≤ length ids)%nat.
Proof.
  induction ids as [|x ids IH]; simpl; [done|].
  pose proof (length_filter (λ y, y ≠ x) (first_seen ids)). lia.
Qed.

(** X3. When the discovery stream ends normally, discovery prints two lines,
    the second with the number of accounts it returns; it makes no load
    attempt; and that number is the number of distinct account ids among the
    rows received, so at most the number of rows. *)
Theorem discovery_reports_distinct_accounts (client : service) (mcc : string) (w : world) :
  failure (client mcc query_customer_client) = None →
  let found := List.concat (batches (client mcc query_customer_client)) in
  ∃ accounts w',
    get_active_client_accounts client mcc w = (inr accounts, w') ∧
    stdout w' = stdout w ++ ["🔍 Поиск активных аккаунтов в MCC " +:+ mcc +:+ "...";
                             "   Всего найдено аккаунтов: " +:+ pretty (length accounts)] ∧
    jobs w' = jobs w ∧
    length accounts = size (list_to_set (map c_id_of found) : gset string) ∧
    (length accounts ≤ length found)%nat.
Proof.
  intros Hok found. rewrite get_active_client_accounts_eq, Hok. cbv zeta.
  eexists _, _. split; [reflexivity|].
  rewrite !length_map.
  assert (length (discovered found) = length (first_seen (map c_id_of found))) as Hlen.
  { rewrite <- discovered_keys. by rewrite length_fmap. }
  fold found. rewrite Hlen.
  split; [done|]. split; [done|]. split; [apply first_seen_size|].
  etrans; [apply first_seen_length|]. by rewrite length_map.
Qed.

Lemma printed_nil (w : world) : printed [] w = w.
Proof. destruct w. unfold printed. simpl. by rewrite app_nil_r. Qed.

Lemma campaign_data_returns client customer_id account_name s e (w : world) :
  Forall (λ q, ads_error_or_none (client customer_id q)) (campaign_queries s e) →
  ∃ df lines,
    get_all_campaign_data_for_account client customer_id account_name s e w
    = (inr df, printed lines w).
Proof.
  intros Hall. rewrite get_all_campaign_data_for_account_eq. cbn zeta.
  unfold campaign_queries in Hall. rewrite !Forall_cons in Hall.
  destruct Hall as (Hb & Hs & Hc & Hg & Hv & _).
  unfold ads_error_or_none in Hb, Hs, Hc.
  set (budgets := read_budgets (client customer_id query_budgets)).
  assert (Hcont : ∀ rows_std rows_conv w1, (∃ pre, w1 = printed pre w) →
            ∃ df lines,
              campaign_data_from client customer_id account_name s e
                (std_frame account_name budgets rows_std) (std_conv_frame rows_conv) w1
              = (inr df, printed lines w)).
  { intros rows_std rows_conv w1 [pre ->].
    destruct (campaign_data_from_returns client customer_id account_name s e budgets
                rows_std rows_conv (printed pre w) Hg Hv) as (df & lines & ->).
    rewrite printed_printed. by eexists _, _. }
  destruct (failure (client customer_id query_budgets)) as [[exb|msg|msg]|]; try done;
    (destruct (failure (client customer_id (query_std s e))) as [[ex|msg|msg]|]; try done;
     [apply (Hcont [] []); by eexists|];
     destruct (failure (client customer_id (query_std_conv s e))) as [[ex|msg|msg]|];
     try done;
     [apply (Hcont _ []); by eexists|];
     apply Hcont; exists []; by rewrite printed_nil).
Qed.

(** X4. [stream_to_bigquery] returns for every frame and every behaviour of
    the warehouse; it returns [True] exactly when the frame is not empty and
    the load completed; for an empty frame it changes nothing; for any other
    frame it makes one load attempt, on the table given, with WRITE_TRUNCATE
    when [is_first_batch] holds and WRITE_APPEND otherwise, of a frame with
    as many rows as the frame given, and prints one line. *)
Theorem sink_write_never_raises (repr_float : Q → string) (bq : bigquery)
    (df : DataFrame) (project table_id : string) (first : bool) (w : world) :
  ∃ success df' w',
    stream_to_bigquery repr_float bq df project table_id first w
      = (inr (success, df'), w') ∧
    (success = true ↔ df_empty df = false ∧ bq (length (jobs w)) = None) ∧
    (df_empty df = true → df' = df ∧ w' = w) ∧
    (df_empty df = false →
       ∃ j line,
         jobs w' = jobs w ++ [j] ∧ stdout w' = stdout w ++ [line] ∧
         job_table j = table_id ∧
         job_disposition j = (if first then WRITE_TRUNCATE else WRITE_APPEND) ∧
         len (job_frame j) = len df ∧
         job_error j = bq (length (jobs w))).
Proof.
  rewrite stream_to_bigquery_eq. destruct (df_empty df) eqn:He.
  - eexists _, _, _. split; [reflexivity|]. split; [naive_solver|]. split; [done|]. done.
  - eexists _, _, _. split; [reflexivity|]. split.
    { rewrite bool_decide_eq_true. naive_solver. }
    split; [done|]. intros _. eexists _, _. simpl. split; [reflexivity|].
    split; [reflexivity|]. split; [done|]. split; [done|]. split; [|done].
    unfold len. apply ids_to_str_length.
Qed.

(** X5. Once setup and discovery went through, the script ends normally with
    status 0 and its last line of output announces the completed export,
    whatever the workers raised, whatever the warehouse rejected and in
    whatever order the futures were consumed. *)
Theorem completion_is_announced_whatever_failed (repr_float : Q → string) (args : Args)
    (env : Environment) (client : service) (w : world) :
  key_file_exists env = true → load_client env = inr client →
  failure (client (mcc_id args) query_customer_client) = None →
  ∃ st w',
    main repr_float args env w = (inr st, w') ∧
    last (stdout w') = Some "
🎉 Полная выгрузка завершена." ∧
    exit_code (main repr_float args env w).1 = 0%Z.
Proof.
  intros H1 H2 H3. unfold main, mbind, M_bind, bind.
  rewrite H1, H2. simpl. destruct (window env) as [s_str e_str]. simpl.
  rewrite get_active_client_accounts_eq, H3. simpl.
  rewrite consume_all_eq by apply no_exit_futures_submit. simpl.
  eexists _, _. split; [reflexivity|]. split; [|done]. apply last_snoc.
Qed.

Lemma process_one_account_late_failure client acc s e exc (w : world) :
  Forall (λ q, ads_error_or_none (client (acc_id acc) q)) (campaign_queries s e) →
  unexpected exc →
  failure (client (acc_id acc) (query_geo s e)) = Some exc ∨
  (ads_error_or_none (client (acc_id acc) (query_geo s e)) ∧
   failure (client (acc_id acc) (query_search s e)) = Some exc) →
  (process_one_account client acc s e w).1 = inl (Raised exc).
Proof.
  intros Hall Hexc Hfail. unfold process_one_account, mbind, M_bind, bind.
  rewrite print_eq.
  destruct (campaign_data_returns client (acc_id acc) (acc_name acc) s e
              (printed ["   ⏳ Start: " +:+ acc_name acc] w) Hall) as (df & lines & ->).
  rewrite get_geo_data_for_account_eq.
  destruct Hfail as [Hg|[Hg Hs]].
  - rewrite Hg. by destruct exc.
  - unfold ads_error_or_none in Hg.
    destruct (failure (client (acc_id acc) (query_geo s e))) as [[ex|msg|msg]|]; try done;
      rewrite get_search_query_data_for_account_eq, Hs; by destruct exc.
Qed.

(** X6. An exception of the geography stream, or of the search-term stream
    after the geography sub-task, that is not a GoogleAdsException is not
    caught by the extractors: although the campaign sub-task returned its
    frame, the account's future holds the exception, and consuming the future
    makes no load attempt for the account and prints the line of the failed
    future with the text of the exception. *)
Theorem unexpected_error_discards_account (repr_float : Q → string) (bq : bigquery)
    (args : Args) (client : service) (acc : Account) (s e : string) (exc : exn) :
  Forall (λ q, ads_error_or_none (client (acc_id acc) q)) (campaign_queries s e) →
  unexpected exc →
  failure (client (acc_id acc) (query_geo s e)) = Some exc ∨
  (ads_error_or_none (client (acc_id acc) (query_geo s e)) ∧
   failure (client (acc_id acc) (query_search s e)) = Some exc) →
  (∀ w, ∃ df lines,
     get_all_campaign_data_for_account client (acc_id acc) (acc_name acc) s e w
     = (inr df, printed lines w)) ∧
  fut_outcome (submit client acc s e) = inl (Raised exc) ∧
  ∀ st i w,
    futures st !! i = Some (submit client acc s e) →
    consume repr_float bq args st i w =
    (inr st, {| stdout := stdout w ++ ["❌ Сбой в потоке: " +:+ exn_text exc];
                jobs := jobs w |}).
Proof.
  intros Hall Hexc Hfail.
  assert (Hout : fut_outcome (submit client acc s e) = inl (Raised exc)).
  { unfold submit. cbn [fut_outcome]. by apply process_one_account_late_failure. }
  split; [|split; [done|]].
  - intros w. by apply campaign_data_returns.
  - intros st i w Hi. unfold consume, try_except_locals. cbn [block].
    unfold future_result. rewrite Hi, Hout. done.
Qed.

Lemma same_key_false (on : list string) (l r : row) :
  same_key on l r = false ↔ key_of on l ≠ key_of on r.
Proof. unfold same_key. apply bool_decide_eq_false. Qed.

Lemma combine_pmax_rows account_name rows_gen rows_conv (x : row) :
  x ∈ rows (combine_pmax account_name (pmax_frame account_name rows_gen)
                         (pmax_conv_frame rows_conv)) →
  cell x "account_name" = VStr account_name ∧
  (pmax_placeholder x ∨
   (rows_gen ≠ [] ∧ cell x "ad_group_name" = VNaN ∧ cell x "ad_group_id" = VNaN ∧
    ∃ ρ, ρ ∈ rows_conv ∧ key_of pmax_on x = pmax_key ρ ∧ unmatched pmax_key rows_gen ρ)).
Proof.
  unfold pmax_placeholder.
  destruct (decide (rows_gen = [])) as [->|H1]; destruct (decide (rows_conv = [])) as [->|H2].
  - cbn. by intros ?%elem_of_nil.
  - unfold combine_pmax. rewrite pmax_frame_empty, pmax_conv_frame_empty.
    rewrite bool_decide_eq_true_2, bool_decide_eq_false_2 by done. cbn [andb].
    cbn [set_column rows].
    intros (y & -> & (y0 & -> & Hy)%list_elem_of_fmap)%list_elem_of_fmap.
    rewrite cell_insert_eq. rewrite cell_insert_ne by done. rewrite cell_insert_eq. auto.
  - unfold combine_pmax. rewrite pmax_frame_empty, pmax_conv_frame_empty.
    rewrite bool_decide_eq_false_2, bool_decide_eq_true_2 by done. cbn [andb].
    rewrite pmax_frame_rows. intros (m & -> & Hm)%list_elem_of_fmap. auto.
  - rewrite combine_pmax_joined by done. cbn [fillna rows].
    intros (z & -> & Hz)%list_elem_of_fmap.
    apply merge_outer_rows in Hz as [(l & r & Hl & Hr & Hk & ->)|[(l & Hl & _ & ->)|[Hr Hno]]].
    + rewrite pmax_frame_rows in Hl. apply list_elem_of_fmap in Hl as (m & -> & Hm).
      rewrite cell_fill_cell_eq, cell_fill_cell_ne by done. rewrite !cell_union. auto.
    + rewrite pmax_frame_rows in Hl. apply list_elem_of_fmap in Hl as (m & -> & Hm).
      rewrite cell_fill_cell_eq, cell_fill_cell_ne by done. auto.
    + rewrite pmax_conv_frame_rows in Hr. apply list_elem_of_fmap in Hr as (ρ & -> & Hρ).
      rewrite cell_fill_cell_eq, !cell_fill_cell_ne by done. split; [done|]. right.
      split; [done|]. split; [done|]. split; [done|]. exists ρ. split; [done|].
      rewrite key_of_fill_cell by (unfold pmax_on; set_solver).
      split; [apply pmax_conv_record_key|].
      intros m Hm Heq.
      assert (Hin : (list_to_map (pmax_record account_name m) : row)
                      ∈ rows (pmax_frame account_name rows_gen)).
      { rewrite pmax_frame_rows. apply list_elem_of_fmap. by exists m. }
      apply Hno in Hin. apply same_key_false in Hin.
      by rewrite pmax_record_key, pmax_conv_record_key in Hin.
Qed.

(** X7. When the two PMax streams end normally or raise a
    GoogleAdsException, [load_pmax_data] returns a frame in which every row
    carries the account name; every row has the ad group name
    "Performance Max", except the rows of conversions that have no metrics
    row of the same campaign and date while the metrics query returned rows:
    these come out of the join with neither [ad_group_name] nor
    [ad_group_id], and there is such a row for every such conversion. *)
Theorem pmax_rows_are_labelled (client : service)
    (customer_id account_name s e : string) (w : world) :
  ads_error_or_none (client customer_id (query_general s e)) →
  ads_error_or_none (client customer_id (query_conv s e)) →
  let rows_gen := List.concat (batches (client customer_id (query_general s e))) in
  let rows_conv := List.concat (batches (client customer_id (query_conv s e))) in
  ∃ final lines,
    load_pmax_data client customer_id account_name s e w = (inr final, printed lines w) ∧
    (∀ x, x ∈ rows final →
       cell x "account_name" = VStr account_name ∧
       (pmax_placeholder x ∨
        (cell x "ad_group_name" = VNaN ∧ cell x "ad_group_id" = VNaN ∧
         ∃ ρ, ρ ∈ rows_conv ∧ key_of pmax_on x = pmax_key ρ ∧
              unmatched pmax_key rows_gen ρ))) ∧
    (failure (client customer_id (query_general s e)) = None →
     failure (client customer_id (query_conv s e)) = None →
     rows_gen ≠ [] →
     ∀ ρ, ρ ∈ rows_conv → unmatched pmax_key rows_gen ρ →
       ∃ x, x ∈ rows final ∧ key_of pmax_on x = pmax_key ρ ∧
            cell x "conversions" = VFloat (metrics_conversions ρ) ∧
            cell x "ad_group_name" = VNaN ∧ cell x "ad_group_id" = VNaN).
Proof.
  intros H1 H2 rows_gen rows_conv. unfold ads_error_or_none in H1, H2.
  rewrite load_pmax_data_eq.
  destruct (failure (client customer_id (query_general s e))) as [[ex|msg|msg]|];
    try done.
  { eexists _, _. split; [reflexivity|]. split; [intros x Hx; by inversion Hx|done]. }
  destruct (failure (client customer_id (query_conv s e))) as [[ex|msg|msg]|];
    try done.
  { eexists _, _. split; [reflexivity|]. split; [intros x Hx; by inversion Hx|done]. }
  fold rows_gen rows_conv. eexists _, []. rewrite printed_nil. split; [reflexivity|]. split.
  - intros x Hx. apply combine_pmax_rows in Hx as [Ha Hb]. split; [done|].
    destruct Hb as [Hb|(_ & Hb)]; [by left|by right].
  - intros _ _ Hgen ρ Hρ Hun.
    assert (Hconv : rows_conv ≠ []) by (intros Heq; rewrite Heq in Hρ; by apply elem_of_nil in Hρ).
    rewrite combine_pmax_joined by done.
    exists (fill_cell "account_name" (VStr account_name) (list_to_map (pmax_conv_record ρ))).
    split.
    + cbn [fillna rows]. apply list_elem_of_fmap. eexists. split; [reflexivity|].
      apply merge_outer_rows. right. right. split.
      * rewrite pmax_conv_frame_rows. apply list_elem_of_fmap. by exists ρ.
      * intros l Hl. rewrite pmax_frame_rows in Hl.
        apply list_elem_of_fmap in Hl as (m & -> & Hm).
        apply same_key_false. rewrite pmax_record_key, pmax_conv_record_key.
        by apply Hun.
    + rewrite key_of_fill_cell by (unfold pmax_on; set_solver).
      rewrite !cell_fill_cell_ne by done. by rewrite pmax_conv_record_key.
Qed.

Lemma set_column_has (c : string) (v : value) (df : DataFrame) :
  c ∈ columns (set_column c v df).
Proof.
  unfold set_column, has_column. cbn [columns]. case_bool_decide; [done|].
  apply elem_of_app. right. by apply list_elem_of_singleton.
Qed.

Lemma set_column_keeps (c c' : string) (v : value) (df : DataFrame) :
  c' ∈ columns df → c' ∈ columns (set_column c v df).
Proof.
  intros H. unfold set_column. cbn [columns]. destruct (has_column c df); [done|].
  apply elem_of_app. by left.
Qed.

Lemma combine_pmax_has_name account_name rows_gen rows_conv (x : row) :
  x ∈ rows (combine_pmax account_name (pmax_frame account_name rows_gen)
                         (pmax_conv_frame rows_conv)) →
  "account_name" ∈ columns (combine_pmax account_name (pmax_frame account_name rows_gen)
                                         (pmax_conv_frame rows_conv)).
Proof.
  destruct (decide (rows_gen = [])) as [->|H1]; destruct (decide (rows_conv = [])) as [->|H2].
  - intros Hx. by inversion Hx.
  - intros _. unfold combine_pmax. rewrite pmax_frame_empty, pmax_conv_frame_empty.
    rewrite bool_decide_eq_true_2, bool_decide_eq_false_2 by done. cbn [andb].
    apply set_column_keeps, set_column_has.
  - intros _. unfold combine_pmax. rewrite pmax_frame_empty, pmax_conv_frame_empty.
    rewrite bool_decide_eq_false_2, bool_decide_eq_true_2 by done. cbn [andb].
    rewrite pmax_frame_columns. destruct rows_gen; [done|]. unfold std_columns. set_solver.
  - intros _. rewrite combine_pmax_joined by done. cbn [fillna columns merge_outer].
    rewrite pmax_frame_columns. destruct rows_gen; [done|]. unfold std_columns. set_solver.
Qed.

Lemma combine_std_rows account_name budgets rows_std rows_conv (w : world) :
  ∃ final_std,
    combine_std account_name (std_frame account_name budgets rows_std)
                (std_conv_frame rows_conv) w = (inr final_std, w) ∧
    (∀ x, x ∈ rows final_std →
       cell x "account_name" = VStr account_name ∧ "account_name" ∈ columns final_std) ∧
    (rows_std ≠ [] → rows_conv = [] →
     final_std = std_frame account_name budgets rows_std).
Proof.
  destruct (decide (rows_std = [])) as [->|H1]; destruct (decide (rows_conv = [])) as [->|H2].
  - exists empty_frame. split; [done|]. split; [|done]. intros x Hx. by inversion Hx.
  - unfold combine_std. rewrite std_frame_empty, std_conv_frame_empty.
    rewrite bool_decide_eq_true_2, bool_decide_eq_false_2 by done. cbn [andb].
    eexists. split; [reflexivity|]. split; [|done].
    intros x Hx. split; [|apply set_column_has].
    cbn [set_column rows] in Hx. apply list_elem_of_fmap in Hx as (y & -> & Hy).
    apply cell_insert_eq.
  - unfold combine_std. rewrite std_frame_empty, std_conv_frame_empty.
    rewrite bool_decide_eq_false_2, bool_decide_eq_true_2 by done. cbn [andb].
    eexists. split; [reflexivity|]. split; [|done].
    rewrite std_frame_rows, std_frame_columns.
    intros x (m & -> & Hm)%list_elem_of_fmap. split; [done|].
    destruct rows_std; [done|]. unfold std_columns. set_solver.
  - eexists. split; [by apply combine_std_joined|]. split; [|done].
    cbn [fillna rows columns merge_outer].
    intros x (z & -> & Hz)%list_elem_of_fmap. split.
    + rewrite cell_fill_cell_eq.
      apply merge_outer_rows in Hz as [(l & r & Hl & Hr & Hk & ->)|[(l & Hl & _ & ->)|[Hr Hno]]].
      * rewrite std_frame_rows in Hl. apply list_elem_of_fmap in Hl as (m & -> & Hm).
        by rewrite !cell_union.
      * rewrite std_frame_rows in Hl. by apply list_elem_of_fmap in Hl as (m & -> & Hm).
      * rewrite std_conv_frame_rows in Hr. by apply list_elem_of_fmap in Hr as (ρ & -> & Hρ).
    + rewrite std_frame_columns. destruct rows_std; [done|]. unfold std_columns. set_solver.
Qed.

Lemma finish_row_customer_id (customer_id : string) (df : DataFrame) (x : row) :
  cell (finish_row customer_id df x) "customer_id" = VStr customer_id.
Proof.
  unfold finish_row. destruct (has_column "campaign_status" df).
  - rewrite cell_fill_cell_ne by done. apply cell_insert_eq.
  - apply cell_insert_eq.
Qed.

Lemma finish_row_status (customer_id : string) (df : DataFrame) (x : row) :
  "campaign_status" ∈ columns df →
  isna (cell (finish_row customer_id df x) "campaign_status") = false.
Proof.
  intros Hc. unfold finish_row, has_column. rewrite bool_decide_eq_true_2 by done.
  rewrite cell_fill_cell_eq.
  match goal with
  | |- isna (if isna ?v then _ else _) = false => destruct (isna v) eqn:E; [done|exact E]
  end.
Qed.

(** What the finished campaign frame guarantees on each of its rows. *)
Lemma finish_campaign_data_labels (customer_id account_name : string) (a b : DataFrame) :
  (∀ x, x ∈ rows a → cell x "account_name" = VStr account_name ∧ "account_name" ∈ columns a) →
  (∀ x, x ∈ rows b → cell x "account_name" = VStr account_name ∧ "account_name" ∈ columns b) →
  let df := finish_campaign_data customer_id a b in
  len df = len a + len b ∧
  ∀ x, x ∈ rows df →
    cell x "customer_id" = VStr customer_id ∧
    cell x "account_name" = VStr account_name ∧
    (∀ c, c ∈ cols_zero → c ∈ columns df → isna (cell x c) = false) ∧
    ("campaign_status" ∈ columns df → isna (cell x "campaign_status") = false).
Proof.
  intros Ha Hb df.
  destruct (decide (rows a ++ rows b = [])) as [Hnil|Hne].
  - assert (Hrows : rows df = []).
    { unfold df, finish_campaign_data.
      assert (He : df_empty (concat a b) = true).
      { unfold df_empty, concat. cbn [rows columns]. rewrite Hnil.
        by destruct (union_columns _ _). }
      rewrite He. cbn. done. }
    unfold len. rewrite Hrows. apply app_eq_nil in Hnil as [-> ->]. split; [done|].
    intros x Hx. by inversion Hx.
  - assert (He : df_empty (concat a b) = false).
    { apply df_empty_iff. split; [|done]. cbn [concat columns].
      destruct (nonempty_elem _ Hne) as [x Hx]. apply elem_of_app in Hx as [Hx|Hx].
      + apply Ha in Hx as [_ Hx]. intros Heq.
        assert (Hin : "account_name" ∈ union_columns (columns a) (columns b))
          by (apply elem_of_union_columns; by left).
        rewrite Heq in Hin. by inversion Hin.
      + apply Hb in Hx as [_ Hx]. intros Heq.
        assert (Hin : "account_name" ∈ union_columns (columns a) (columns b))
          by (apply elem_of_union_columns; by right).
        rewrite Heq in Hin. by inversion Hin. }
    split.
    { unfold len, df. rewrite finish_campaign_data_rows by done.
      by rewrite length_map, length_app. }
    intros x Hx. pose proof Hx as Hx'. unfold df in Hx.
    rewrite finish_campaign_data_rows in Hx by done.
    apply list_elem_of_fmap in Hx as (y & -> & Hy).
    split; [apply finish_row_customer_id|]. split.
    + rewrite finish_row_other by (unfold cols_zero; set_solver).
      apply elem_of_app in Hy as [Hy|Hy]; [by apply Ha|by apply Hb].
    + split.
      * intros c Hc Hcol. by apply (finish_never_null customer_id a b).
      * intros Hcol. apply finish_row_status.
        by apply (finish_campaign_data_columns customer_id a b).
Qed.

Lemma load_pmax_data_named client customer_id account_name s e (w : world) :
  ads_error_or_none (client customer_id (query_general s e)) →
  ads_error_or_none (client customer_id (query_conv s e)) →
  ∃ p lines,
    load_pmax_data client customer_id account_name s e w = (inr p, printed lines w) ∧
    named account_name p.
Proof.
  intros H1 H2. unfold ads_error_or_none in H1, H2. rewrite load_pmax_data_eq.
  destruct (failure (client customer_id (query_general s e))) as [[ex|msg|msg]|];
    try done.
  { eexists _, _. split; [reflexivity|]. intros x Hx. by inversion Hx. }
  destruct (failure (client customer_id (query_conv s e))) as [[ex|msg|msg]|];
    try done.
  { eexists _, _. split; [reflexivity|]. intros x Hx. by inversion Hx. }
  eexists _, []. rewrite printed_nil. split; [reflexivity|].
  intros x Hx. split; [by apply combine_pmax_rows in Hx as [? _]|].
  by apply combine_pmax_has_name in Hx.
Qed.

Lemma campaign_data_from_named client customer_id account_name s e budgets
    rows_std rows_conv (w : world) :
  ads_error_or_none (client customer_id (query_general s e)) →
  ads_error_or_none (client customer_id (query_conv s e)) →
  ∃ a b lines,
    campaign_data_from client customer_id account_name s e
      (std_frame account_name budgets rows_std) (std_conv_frame rows_conv) w
    = (inr (finish_campaign_data customer_id a b), printed lines w) ∧
    named account_name a ∧ named account_name b ∧
    (rows_std ≠ [] → rows_conv = [] → a = std_frame account_name budgets rows_std).
Proof.
  intros H1 H2. unfold campaign_data_from, mbind, M_bind, bind.
  destruct (combine_std_rows account_name budgets rows_std rows_conv w)
    as (a & -> & Ha & Hkeep).
  destruct (load_pmax_data_named client customer_id account_name s e w H1 H2)
    as (b & lines & -> & Hb).
  by exists a, b, lines.
Qed.

(** X8. When the streams of the campaign sub-tasks end normally or raise a
    GoogleAdsException, [get_all_campaign_data_for_account] returns a frame
    in which every row carries the customer id and the account name, has no
    null in a measure column that the frame has, and has no null campaign
    status when the frame has that column. *)
Theorem campaign_rows_are_labelled (client : service)
    (customer_id account_name s e : string) (w : world) :
  Forall (λ q, ads_error_or_none (client customer_id q)) (campaign_queries s e) →
  ∃ df lines,
    get_all_campaign_data_for_account client customer_id account_name s e w
      = (inr df, printed lines w) ∧
    ∀ x, x ∈ rows df →
      cell x "customer_id" = VStr customer_id ∧
      cell x "account_name" = VStr account_name ∧
      (∀ c, c ∈ cols_zero → c ∈ columns df → isna (cell x c) = false) ∧
      ("campaign_status" ∈ columns df → isna (cell x "campaign_status") = false).
Proof.
  intros Hall. rewrite get_all_campaign_data_for_account_eq. cbn zeta.
  unfold campaign_queries in Hall. rewrite !Forall_cons in Hall.
  destruct Hall as (Hb & Hs & Hc & Hg & Hv & _).
  unfold ads_error_or_none in Hb, Hs, Hc.
  set (budgets := read_budgets (client customer_id query_budgets)).
  assert (Hcont : ∀ rows_std rows_conv w1, (∃ pre, w1 = printed pre w) →
            ∃ df lines,
              campaign_data_from client customer_id account_name s e
                (std_frame account_name budgets rows_std) (std_conv_frame rows_conv) w1
              = (inr df, printed lines w) ∧
              ∀ x, x ∈ rows df →
                cell x "customer_id" = VStr customer_id ∧
                cell x "account_name" = VStr account_name ∧
                (∀ c, c ∈ cols_zero → c ∈ columns df → isna (cell x c) = false) ∧
                ("campaign_status" ∈ columns df → isna (cell x "campaign_status") = false)).
  { intros rows_std rows_conv w1 [pre ->].
    destruct (campaign_data_from_named client customer_id account_name s e budgets
                rows_std rows_conv (printed pre w) Hg Hv) as (a & b & lines & -> & Ha & Hb' & _).
    rewrite printed_printed. eexists _, _. split; [reflexivity|].
    by apply (finish_campaign_data_labels customer_id account_name a b). }
  destruct (failure (client customer_id query_budgets)) as [[exb|msg|msg]|]; try done;
    (destruct (failure (client customer_id (query_std s e))) as [[ex|msg|msg]|]; try done;
     [apply (Hcont [] []); by eexists|];
     destruct (failure (client customer_id (query_std_conv s e))) as [[ex|msg|msg]|];
     try done;
     [apply (Hcont _ []); by eexists|];
     apply Hcont; exists []; by rewrite printed_nil).
Qed.

(** X9. When the metrics query of the standard sub-task delivers its rows
    and the conversions query that follows raises a GoogleAdsException, the
    exception is reported in one line and the metrics rows are kept: the
    returned frame has at least as many rows as the metrics query delivered,
    and every metrics row is in it under its key with its clicks, impressions
    and cost. *)
Theorem rejected_conversions_keep_metrics (client : service)
    (customer_id account_name s e : string) (w : world) (ex : GoogleAdsFailure) :
  ads_error_or_none (client customer_id query_budgets) →
  failure (client customer_id (query_std s e)) = None →
  failure (client customer_id (query_std_conv s e)) = Some (GoogleAdsException ex) →
  ads_error_or_none (client customer_id (query_general s e)) →
  ads_error_or_none (client customer_id (query_conv s e)) →
  let rows_std := List.concat (batches (client customer_id (query_std s e))) in
  ∃ df lines,
    get_all_campaign_data_for_account client customer_id account_name s e w
      = (inr df, printed (handled_line ex customer_id "Standard Campaigns" :: lines) w) ∧
    (length rows_std ≤ len df)%nat ∧
    ∀ m, m ∈ rows_std →
      ∃ x, x ∈ rows df ∧ key_of std_on x = std_key m ∧
           cell x "clicks" = VInt (metrics_clicks m) ∧
           cell x "impressions" = VInt (metrics_impressions m) ∧
           cell x "cost" = VFloat (div_1000000 (metrics_cost_micros m)).
Proof.
  intros Hb Hs Hc Hg Hv rows_std. rewrite get_all_campaign_data_for_account_eq. cbn zeta.
  unfold ads_error_or_none in Hb. rewrite Hs, Hc. fold rows_std.
  set (budgets := read_budgets (client customer_id query_budgets)).
  assert (Hgoal :
    ∃ df lines,
      campaign_data_from client customer_id account_name s e
        (std_frame account_name budgets rows_std) empty_frame
        (printed [handled_line ex customer_id "Standard Campaigns"] w)
      = (inr df, printed (handled_line ex customer_id "Standard Campaigns" :: lines) w) ∧
      (length rows_std ≤ len df)%nat ∧
      ∀ m, m ∈ rows_std →
        ∃ x, x ∈ rows df ∧ key_of std_on x = std_key m ∧
             cell x "clicks" = VInt (metrics_clicks m) ∧
             cell x "impressions" = VInt (metrics_impressions m) ∧
             cell x "cost" = VFloat (div_1000000 (metrics_cost_micros m))).
  { destruct (campaign_data_from_named client customer_id account_name s e budgets
                rows_std [] (printed [handled_line ex customer_id "Standard Campaigns"] w)
                Hg Hv) as (a & b & lines & Heq & Ha & Hb' & Hkeep).
    change (std_conv_frame []) with empty_frame in Heq. rewrite Heq, printed_printed.
    eexists _, lines. split; [reflexivity|].
    destruct (decide (rows_std = [])) as [Hnil|Hne].
    { rewrite Hnil. split; [simpl; lia|]. intros m Hm. by inversion Hm. }
    rewrite (Hkeep Hne eq_refl) in *. clear Hkeep.
    pose proof (finish_campaign_data_labels customer_id account_name _ b Ha Hb') as [Hlen _].
    split.
    { rewrite Hlen. unfold len at 1. rewrite std_frame_rows, length_map. lia. }
    assert (He : df_empty (concat (std_frame account_name budgets rows_std) b) = false).
    { apply df_empty_iff. cbn [concat columns rows]. split.
      - rewrite std_frame_columns. destruct rows_std; [done|]. done.
      - rewrite std_frame_rows. destruct rows_std; [done|]. done. }
    intros m Hm.
    exists (finish_row customer_id (concat (std_frame account_name budgets rows_std) b)
                       (list_to_map (std_record account_name budgets m))).
    split.
    { rewrite finish_campaign_data_rows by done. apply list_elem_of_fmap.
      eexists. split; [reflexivity|]. apply elem_of_app. left.
      rewrite std_frame_rows. apply list_elem_of_fmap. by exists m. }
    split.
    { rewrite key_of_finish_row by apply std_on_untouched. apply std_record_key. }
    assert (Hcols : ∀ c, c ∈ std_columns →
              c ∈ columns (concat (std_frame account_name budgets rows_std) b)).
    { intros c Hcol. cbn [concat columns]. apply elem_of_union_columns. left.
      rewrite std_frame_columns. by destruct rows_std. }
    rewrite !finish_row_measure
      by (first [unfold cols_zero; set_solver | apply Hcols; unfold std_columns; set_solver]).
    done. }
  destruct (failure (client customer_id query_budgets)) as [[exb|msg|msg]|]; try done.
Qed.

(** ** The properties above at sample inputs *)

Lemma account_id_is_last_segment_witness :
  has_slash "7" = false ∧
  c_id_of (client_row "customers/1/customerClients/7" "seven") = "7".
Proof.
  split; [reflexivity|].
  apply (proj2 (proj2 (proj2 (account_id_is_last_segment
                                (client_row "customers/1/customerClients/7" "seven")))
                      "7" eq_refl)
               "customers/1/customerClients").
  reflexivity.
Defined.

Lemma discovery_reports_distinct_accounts_witness :
  failure (same_account_twice "1" query_customer_client) = None ∧
  let found := List.concat (batches (same_account_twice "1" query_customer_client)) in
  ∃ accounts w',
    get_active_client_accounts same_account_twice "1" w0 = (inr accounts, w') ∧
    stdout w' = stdout w0 ++ ["🔍 Поиск активных аккаунтов в MCC " +:+ "1" +:+ "...";
                              "   Всего найдено аккаунтов: " +:+ pretty (length accounts)] ∧
    jobs w' = jobs w0 ∧
    length accounts = size (list_to_set (map c_id_of found) : gset string) ∧
    (length accounts ≤ length found)%nat.
Proof.
  split; [reflexivity|].
  apply (discovery_reports_distinct_accounts same_account_twice "1" w0). reflexivity.
Defined.

Lemma sink_write_never_raises_witness :
  df_empty sample_geo_frame = false ∧
  ∃ success df' w',
    stream_to_bigquery sample_repr rejecting sample_geo_frame "proj"
                       "proj.ads.daily_geo_data" true w0 = (inr (success, df'), w') ∧
    ∃ j line,
      jobs w' = jobs w0 ++ [j] ∧ stdout w' = stdout w0 ++ [line] ∧
      job_table j = "proj.ads.daily_geo_data" ∧
      job_disposition j = WRITE_TRUNCATE ∧
      len (job_frame j) = len sample_geo_frame ∧
      job_error j = rejecting (length (jobs w0)).
Proof.
  split; [reflexivity|].
  destruct (sink_write_never_raises sample_repr rejecting sample_geo_frame "proj"
              "proj.ads.daily_geo_data" true w0) as (success & df' & w' & H1 & _ & _ & H4).
  exists success, df', w'. split; [exact H1|]. apply H4. reflexivity.
Defined.

Lemma completion_is_announced_whatever_failed_witness :
  key_file_exists all_loads_rejected = true ∧
  load_client all_loads_rejected = inr one_geo_account ∧
  failure (one_geo_account (mcc_id sample_args) query_customer_client) = None ∧
  ∃ st w',
    main sample_repr sample_args all_loads_rejected w0 = (inr st, w') ∧
    last (stdout w') = Some "
🎉 Полная выгрузка завершена." ∧
    exit_code (main sample_repr sample_args all_loads_rejected w0).1 = 0%Z.
Proof.
  split; [reflexivity|]. split; [reflexivity|]. split; [reflexivity|].
  apply (completion_is_announced_whatever_failed sample_repr sample_args
           all_loads_rejected one_geo_account w0); reflexivity.
Defined.

Lemma unexpected_error_discards_account_witness :
  let acc := {| acc_id := "8"; acc_name := "eight" |} in
  let exc := OtherException "connection reset" in
  unexpected exc ∧
  failure (one_account_breaks "8" (query_geo "2024-02-01" "2024-05-01")) = Some exc ∧
  fut_outcome (submit one_account_breaks acc "2024-02-01" "2024-05-01")
    = inl (Raised exc) ∧
  ∀ st i w,
    futures st !! i = Some (submit one_account_breaks acc "2024-02-01" "2024-05-01") →
    consume sample_repr rejecting sample_args st i w =
    (inr st, {| stdout := stdout w ++ ["❌ Сбой в потоке: " +:+ exn_text exc];
                jobs := jobs w |}).
Proof.
  intros acc exc. split; [exact I|]. split; [reflexivity|].
  apply (unexpected_error_discards_account sample_repr rejecting sample_args
           one_account_breaks acc "2024-02-01" "2024-05-01" exc).
  - repeat constructor.
  - exact I.
  - left. reflexivity.
Defined.

Lemma pmax_rows_are_labelled_witness :
  let gen := pmax_with_stray_conversion "7" (query_general "2024-02-01" "2024-05-01") in
  let conv := pmax_with_stray_conversion "7" (query_conv "2024-02-01" "2024-05-01") in
  ads_error_or_none gen ∧ ads_error_or_none conv ∧
  ∃ final lines,
    load_pmax_data pmax_with_stray_conversion "7" "acc" "2024-02-01" "2024-05-01" w0
      = (inr final, printed lines w0) ∧
    (∀ x, x ∈ rows final → cell x "account_name" = VStr "acc") ∧
    ∃ x, x ∈ rows final ∧
         key_of pmax_on x = [VInt 12; VStr "2024-05-02"] ∧
         cell x "conversions" = VFloat 1%Q ∧
         cell x "ad_group_name" = VNaN ∧ cell x "ad_group_id" = VNaN.
Proof.
  intros gen conv. split; [exact I|]. split; [exact I|].
  destruct (pmax_rows_are_labelled pmax_with_stray_conversion "7" "acc"
              "2024-02-01" "2024-05-01" w0 I I) as (final & lines & H1 & H2 & H3).
  exists final, lines. split; [exact H1|]. split.
  - intros x Hx. exact (proj1 (H2 x Hx)).
  - apply (H3 eq_refl eq_refl ltac:(discriminate)
              (conversion_row 12 0 "2024-05-02" "lead" 1%Q)).
    + left.
    + intros m Hm. apply list_elem_of_singleton in Hm. rewrite Hm. discriminate.
Defined.

Lemma campaign_rows_are_labelled_witness :
  Forall (λ q, ads_error_or_none (conversions_only "7" q))
         (campaign_queries "2024-02-01" "2024-05-01") ∧
  ∃ df lines,
    get_all_campaign_data_for_account conversions_only "7" "acc"
      "2024-02-01" "2024-05-01" w0 = (inr df, printed lines w0) ∧
    ∀ x, x ∈ rows df →
      cell x "customer_id" = VStr "7" ∧
      cell x "account_name" = VStr "acc" ∧
      (∀ c, c ∈ cols_zero → c ∈ columns df → isna (cell x c) = false) ∧
      ("campaign_status" ∈ columns df → isna (cell x "campaign_status") = false).
Proof.
  assert (H : Forall (λ q, ads_error_or_none (conversions_only "7" q))
                     (campaign_queries "2024-02-01" "2024-05-01"))
    by (repeat constructor).
  split; [exact H|].
  exact (campaign_rows_are_labelled conversions_only "7" "acc"
           "2024-02-01" "2024-05-01" w0 H).
Defined.

Lemma rejected_conversions_keep_metrics_witness :
  failure (conversions_rejected "7" (query_std "2024-02-01" "2024-05-01")) = None ∧
  failure (conversions_rejected "7" (query_std_conv "2024-02-01" "2024-05-01"))
    = Some (GoogleAdsException query_error) ∧
  ∃ df lines,
    get_all_campaign_data_for_account conversions_rejected "7" "acc"
      "2024-02-01" "2024-05-01" w0
      = (inr df, printed (handled_line query_error "7" "Standard Campaigns" :: lines) w0) ∧
    (1 ≤ len df)%nat ∧
    ∃ x, x ∈ rows df ∧ key_of std_on x = std_key sample_metrics ∧
         cell x "clicks" = VInt 3 ∧ cell x "impressions" = VInt 40 ∧
         cell x "cost" = VFloat (div_1000000 1500000).
Proof.
  split; [reflexivity|]. split; [reflexivity|].
  destruct (rejected_conversions_keep_metrics conversions_rejected "7" "acc"
              "2024-02-01" "2024-05-01" w0 query_error I eq_refl eq_refl I I)
    as (df & lines & H1 & H2 & H3).
  exists df, lines. split; [exact H1|]. split; [exact H2|].
  apply (H3 sample_metrics). left.
Defined.
